(** * Library asset synchronisation: a shallow embedding of
      [server/src/domain/library/library.service.ts]

    The service is a set of asynchronous job handlers that read and write
    three tables (libraries, assets, users) through repository interfaces,
    push jobs on a queue, and consult the file system and a few platform
    functions.  The embedding keeps that shape:

    - the tables are finite maps keyed by the row id, the queue is the list
      of jobs in the order they were pushed;
    - a handler is a function from the store to a completion (a returned
      value or a thrown exception) and the store it leaves behind: a write
      made before a [throw] stays made, as in the source, where no
      transaction wraps a handler;
    - the file system, the clock, the MIME table, the access check and the
      Node.js built-ins ([path.normalize], [RegExp], ...) are the fields of
      one environment record that every handler takes as its first
      argument.  A POSIX reference environment is given further down and is
      the one every concrete evaluation runs in.

    Strings are sequences of code units below 256.  A [Date] is its time
    value in milliseconds; two valid dates have the same [toISOString()]
    exactly when they have the same time value, so the source's comparison of
    ISO strings is the comparison of time values. *)

From Stdlib Require Import Ascii String.
From stdpp Require Import gmap strings list fin_maps.

Open Scope string_scope.
Open Scope list_scope.

(** ** Entities *)

Inductive LibraryType := EXTERNAL | UPLOAD.
Inductive AssetType := IMAGE | VIDEO.

#[global] Instance LibraryType_eq_dec : EqDecision LibraryType.
Proof. solve_decision. Defined.
#[global] Instance AssetType_eq_dec : EqDecision AssetType.
Proof. solve_decision. Defined.

Module LibraryEntity.
Record t := mk {
  ownerId : string;
  type : LibraryType;
  name : string;
  importPaths : list string;
  exclusionPatterns : list string;
  isVisible : bool;
  refreshedAt : option Z;
  deletedAt : option Z;
}.

Definition with_refreshedAt (d : option Z) (l : t) : t :=
  mk (ownerId l) (type l) (name l) (importPaths l) (exclusionPatterns l)
     (isVisible l) d (deletedAt l).

Definition with_deletedAt (d : option Z) (l : t) : t :=
  mk (ownerId l) (type l) (name l) (importPaths l) (exclusionPatterns l)
     (isVisible l) (refreshedAt l) d.
End LibraryEntity.

Module AssetEntity.
Record t := mk {
  ownerId : string;
  libraryId : string;
  checksum : string;
  originalPath : string;
  deviceAssetId : string;
  deviceId : string;
  fileCreatedAt : Z;
  fileModifiedAt : Z;
  localDateTime : Z;
  type : AssetType;
  originalFileName : string;
  sidecarPath : option string;
  isReadOnly : bool;
  isExternal : bool;
  isOffline : bool;
}.

Definition with_isOffline (b : bool) (a : t) : t :=
  mk (ownerId a) (libraryId a) (checksum a) (originalPath a)
     (deviceAssetId a) (deviceId a) (fileCreatedAt a) (fileModifiedAt a)
     (localDateTime a) (type a) (originalFileName a) (sidecarPath a)
     (isReadOnly a) (isExternal a) b.

Definition with_fileDates (created modified : Z) (a : t) : t :=
  mk (ownerId a) (libraryId a) (checksum a) (originalPath a)
     (deviceAssetId a) (deviceId a) created modified
     (localDateTime a) (type a) (originalFileName a) (sidecarPath a)
     (isReadOnly a) (isExternal a) (isOffline a).
End AssetEntity.

Module UserEntity.
Record t := mk { externalPath : option string }.
End UserEntity.

Module AuthUserDto.
Record t := mk { id : string }.
End AuthUserDto.

Module Permission.
Inductive t := LIBRARY_READ | LIBRARY_UPDATE | LIBRARY_DELETE.
End Permission.

Module Stats.
Record t := mk { mtime : Z; size : Z }.
End Stats.

(** ** Jobs *)

Module ILibraryFileJob.
Record t := mk {
  id : string;
  assetPath : string;
  ownerId : string;
  force : bool;
}.
End ILibraryFileJob.

Module IOfflineLibraryFileJob.
Record t := mk { id : string; assetPath : string }.
End IOfflineLibraryFileJob.

Module ILibraryRefreshJob.
Record t := mk {
  id : string;
  refreshModifiedFiles : bool;
  refreshAllFiles : bool;
}.
End ILibraryRefreshJob.

(** A queued item: the job name with its payload. *)
Inductive JobItem :=
  | LIBRARY_SCAN (data : ILibraryRefreshJob.t)
  | LIBRARY_SCAN_ASSET (data : ILibraryFileJob.t)
  | LIBRARY_MARK_ASSET_OFFLINE (data : IOfflineLibraryFileJob.t)
  | LIBRARY_DELETE (id : string)
  | LIBRARY_QUEUE_CLEANUP
  | LIBRARY_REMOVE_OFFLINE (id : string)
  | METADATA_EXTRACTION (id : string) (source : string)
  | VIDEO_CONVERSION (id : string)
  | ASSET_DELETION (id : string) (fromExternal : bool).

(** ** The store and the environment *)

Record Store := mkStore {
  libraries : gmap string LibraryEntity.t;
  assets : gmap string AssetEntity.t;
  users : gmap string UserEntity.t;
  jobs : list JobItem;
}.

Definition set_libraries (f : gmap string LibraryEntity.t → gmap string LibraryEntity.t)
    (st : Store) : Store :=
  mkStore (f (libraries st)) (assets st) (users st) (jobs st).

Definition set_assets (f : gmap string AssetEntity.t → gmap string AssetEntity.t)
    (st : Store) : Store :=
  mkStore (libraries st) (f (assets st)) (users st) (jobs st).

Definition set_jobs (f : list JobItem → list JobItem) (st : Store) : Store :=
  mkStore (libraries st) (assets st) (users st) (f (jobs st)).

(** What a handler reads from outside the store.  [RegExp src] is
    [new RegExp(src)]: [None] when the constructor throws a [SyntaxError],
    otherwise the predicate [s => s.match(re) !== null]. *)
Record Env := mkEnv {
  path_normalize : string → string;
  path_basename : string → string;
  path_parse_name : string → string;
  RegExp : string → option (string → bool);
  hashSha1 : string → string;
  stat : string → option Stats.t;
  checkFileExists : string → bool;
  crawl : list string → list string → list string;
  isImage : string → bool;
  isVideo : string → bool;
  hasPermission : AuthUserDto.t → Permission.t → string → bool;
  now : Z;
}.

(** ** Handlers as state transformers that may throw *)

Inductive Exception :=
  | BadRequestException (message : string)
  | SyntaxError (pattern : string).

Inductive Completion (A : Type) :=
  | Return (a : A)
  | Throw (e : Exception).
Arguments Return {A} a.
Arguments Throw {A} e.

Definition Async (A : Type) : Type := Store → Completion A * Store.

Definition ret {A} (a : A) : Async A := λ st, (Return a, st).
Definition throw {A} (e : Exception) : Async A := λ st, (Throw e, st).
Definition bind {A B} (m : Async A) (k : A → Async B) : Async B :=
  λ st, match m st with
        | (Return a, st') => k a st'
        | (Throw e, st') => (Throw e, st')
        end.
Definition gets {A} (f : Store → A) : Async A := λ st, (Return (f st), st).
Definition modify (f : Store → Store) : Async unit := λ st, (Return tt, f st).

#[global] Instance Async_ret : MRet Async := @ret.
#[global] Instance Async_bind : MBind Async := λ A B k m, bind m k.

(** [for (const x of l) { await f(x) }] *)
Fixpoint for_of {A} (l : list A) (f : A → Async unit) : Async unit :=
  match l with
  | [] => ret tt
  | x :: l' => f x;; for_of l' f
  end.

(** Optional chaining, [o?.f]. *)
Definition opt_chain {A B} (o : option A) (f : A → option B) : option B :=
  match o with
  | Some a => f a
  | None => None
  end.
Notation "o ?. f" := (opt_chain o f) (at level 20, f at level 9, format "o ?. f").

(** JavaScript truthiness of [string | null | undefined]. *)
Definition truthy_string (s : option string) : option string :=
  match s with
  | Some "" => None
  | other => other
  end.

(** [s.replace(/\s+/g, '')]: every white-space code unit is dropped. *)
Definition isWhiteSpace (c : ascii) : bool :=
  let n := nat_of_ascii c in
  ((9 <=? n)%nat && (n <=? 13)%nat) || (n =? 32)%nat || (n =? 160)%nat.

Fixpoint removeWhiteSpace (s : string) : string :=
  match s with
  | EmptyString => EmptyString
  | String c s' =>
      if isWhiteSpace c then removeWhiteSpace s' else String c (removeWhiteSpace s')
  end.

(** ** Requests

    The request objects, with the fields the service reads.  A field the
    service tests for presence (by truthiness or with [??]) is optional. *)

Module CreateLibraryDto.
Record t := mk {
  type : LibraryType;
  name : option string;
  isVisible : option bool;
  importPaths : option (list string);
  exclusionPatterns : option (list string);
}.
End CreateLibraryDto.

Module ScanLibraryDto.
Record t := mk {
  refreshModifiedFiles : option bool;
  refreshAllFiles : option bool;
}.
End ScanLibraryDto.

Module IBaseJob.
Record t := mk { force : option bool }.
End IBaseJob.

(** One page of a paginated query. *)
Module PaginationResult.
Record t (T : Type) := mk { items : list T; hasNextPage : bool }.
Arguments mk {T} items hasNextPage.
Arguments items {T} _.
Arguments hasNextPage {T} _.
End PaginationResult.

(** JavaScript truthiness of [boolean | undefined]. *)
Definition truthy_bool (b : option bool) : bool := default false b.

(** [xs && xs.length > 0] *)
Definition nonEmpty {A} (xs : option (list A)) : bool :=
  match xs with
  | Some l => (0 <? length l)%nat
  | None => false
  end.

(** ** Repositories

    The repository classes are not part of the service file.  Each
    operation the service calls is given here as the table operation that
    its name and the interface list of the specification describe. *)

Module jobRepository.
(** Modelled from the spec: the task queue, [Enqueue(jobName, payload)]; a
    pushed job goes to the end of the queue. *)
Definition queue (item : JobItem) : Async unit :=
  modify (set_jobs (λ q, q ++ [item])).
End jobRepository.

Module userRepository.
(** Modelled from the spec: the user table read by id; the user record
    carries the configured external root, if any. *)
Definition get (id : string) : Async (option UserEntity.t) :=
  gets (λ st, users st !! id).
End userRepository.

Module repository.
(** Modelled from the spec: the library table read by id; a soft-deleted
    row is hidden unless [withDeleted] is set ("loads the library including
    soft-deleted ones"). *)
Definition get (id : string) (withDeleted : bool) : Async (option LibraryEntity.t) :=
  gets (λ st,
    match libraries st !! id with
    | Some l =>
        if withDeleted then Some l
        else match LibraryEntity.deletedAt l with
             | None => Some l
             | Some _ => None
             end
    | None => None
    end).

(** Modelled from the spec: the "libraries with deletedAt set but not yet
    purged" of the cleanup step. *)
Definition getAllDeleted : Async (list (string * LibraryEntity.t)) :=
  gets (λ st,
    map_to_list
      (filter (λ kv : string * LibraryEntity.t, is_Some (LibraryEntity.deletedAt kv.2))
              (libraries st))).

(** Modelled from the spec: the number of UPLOAD libraries the owner
    retains, soft-deleted ones not counted. *)
Definition getUploadLibraryCount (ownerId : string) : Async nat :=
  gets (λ st,
    size (filter (λ kv : string * LibraryEntity.t,
                    LibraryEntity.ownerId kv.2 = ownerId
                    ∧ LibraryEntity.type kv.2 = UPLOAD
                    ∧ LibraryEntity.deletedAt kv.2 = None)
                 (libraries st))).

(** Modelled from the spec: soft deletion "sets deletedAt"; the row stays. *)
Definition softDelete (now : Z) (id : string) : Async unit :=
  modify (set_libraries (alter (LibraryEntity.with_deletedAt (Some now)) id)).

(** Modelled from the spec: hard deletion removes the library row. *)
Definition delete (id : string) : Async unit :=
  modify (set_libraries (base.delete id)).

(** Modelled from the spec: [update({ id, refreshedAt })], a partial update
    by id that writes the one column. *)
Definition update_refreshedAt (id : string) (refreshedAt : Z) : Async unit :=
  modify (set_libraries (alter (LibraryEntity.with_refreshedAt (Some refreshedAt)) id)).

(** Modelled from the spec: "all asset ids owned by the library (including
    offline ones)".  The asset table here has no soft deletion, so
    [withDeleted] selects nothing more. *)
Definition getAssetIds (libraryId : string) (withDeleted : bool) : Async (list string) :=
  gets (λ st,
    (map_to_list
       (filter (λ kv : string * AssetEntity.t, AssetEntity.libraryId kv.2 = libraryId)
               (assets st))).*1).

(** Modelled from the spec: [GetOnlinePathsForLibrary], the paths of the
    library's assets that are not flagged offline. *)
Definition getOnlineAssetPaths (libraryId : string) : Async (list string) :=
  gets (λ st,
    AssetEntity.originalPath <$>
      (map_to_list
         (filter (λ kv : string * AssetEntity.t,
                    AssetEntity.libraryId kv.2 = libraryId
                    ∧ AssetEntity.isOffline kv.2 = false)
                 (assets st))).*2).

(** Modelled from the spec: a library is "created via explicit create
    request"; the table stores the row under an id that no row has, never
    scanned and not deleted, and hands the stored row back. *)
Definition create (ownerId name : string) (type : LibraryType)
    (importPaths exclusionPatterns : list string) (isVisible : bool)
    : Async (string * LibraryEntity.t) :=
  λ st,
    let id := fresh (dom (libraries st)) in
    let library :=
      LibraryEntity.mk ownerId type name importPaths exclusionPatterns isVisible
        None None in
    (Return (id, library), set_libraries (insert id library) st).

(** Modelled from the spec: the library table listed by type; as in [get],
    a soft-deleted row is listed only when [withDeleted] is set. *)
Definition getAll (withDeleted : bool) (type : LibraryType)
    : Async (list (string * LibraryEntity.t)) :=
  gets (λ st,
    map_to_list
      (filter (λ kv : string * LibraryEntity.t,
                 LibraryEntity.type kv.2 = type
                 ∧ (withDeleted = true ∨ LibraryEntity.deletedAt kv.2 = None))
              (libraries st))).
End repository.

Module assetRepository.
(** Modelled from the spec: [GetByLibraryAndPath], an asset of the library
    at the path, if there is one. *)
Definition getByLibraryIdAndOriginalPath (libraryId originalPath : string)
    : Async (option (string * AssetEntity.t)) :=
  gets (λ st,
    head (map_to_list
            (filter (λ kv : string * AssetEntity.t,
                       AssetEntity.libraryId kv.2 = libraryId
                       ∧ AssetEntity.originalPath kv.2 = originalPath)
                    (assets st)))).

(** Modelled from the spec: [GetByLibraryId], the assets of the given
    libraries. *)
Definition getByLibraryId (ids : list string) : Async (list (string * AssetEntity.t)) :=
  gets (λ st,
    map_to_list
      (filter (λ kv : string * AssetEntity.t, AssetEntity.libraryId kv.2 ∈ ids)
              (assets st))).

(** Modelled from the spec: [Save(partial update by id)], here
    [save({ id, isOffline })]. *)
Definition save_isOffline (id : string) (isOffline : bool) : Async unit :=
  modify (set_assets (alter (AssetEntity.with_isOffline isOffline) id)).

(** Modelled from the spec: [UpdateAll(ids, partial)], here
    [updateAll(ids, { fileCreatedAt, fileModifiedAt })]; "identity (id) is
    preserved". *)
Definition updateAll_fileDates (ids : list string) (fileCreatedAt fileModifiedAt : Z)
    : Async unit :=
  for_of ids (λ id,
    modify (set_assets (alter (AssetEntity.with_fileDates fileCreatedAt fileModifiedAt) id))).

(** Modelled from the spec: [Create]; the catalog stores the record under
    an id that no stored asset has and hands the stored record back. *)
Definition create (asset : AssetEntity.t) : Async (string * AssetEntity.t) :=
  λ st,
    let id := fresh (dom (assets st)) in
    (Return (id, asset), set_assets (insert id asset) st).

(** Modelled from the spec: "paginated GetWithProperty(offline)", here
    [getWith(pagination, WithProperty.IS_OFFLINE, libraryId)]: of the
    library's assets flagged offline, the [take] that follow the first
    [skip], and whether more follow those. *)
Definition getWith_IS_OFFLINE (take skip : nat) (libraryId : string)
    : Async (PaginationResult.t (string * AssetEntity.t)) :=
  gets (λ st,
    let rest :=
      drop skip
        (map_to_list
           (filter (λ kv : string * AssetEntity.t,
                      AssetEntity.isOffline kv.2 = true
                      ∧ AssetEntity.libraryId kv.2 = libraryId)
                   (assets st))) in
    PaginationResult.mk (firstn take rest) (bool_decide (take < length rest)%nat)).
End assetRepository.

(** Modelled from the spec: the pagination helper of the domain, as the
    handlers use it,
    [for await (const page of usePagination(pageSize, getNextPage)) body(page)]:
    pages are asked for at the offsets [0], [pageSize], [2 * pageSize], ...,
    each is handed to the body, and the loop ends after the first page that
    reports no next page.  The loop is bounded by [fuel] pages; [None] is the
    loop still running when the fuel is spent. *)
Fixpoint usePagination {T} (fuel : nat) (pageSize skip : nat)
    (getNextPage : nat → nat → Async (PaginationResult.t T))
    (body : list T → Async unit) : Async (option unit) :=
  match fuel with
  | O => ret None
  | S fuel' =>
      result ← getNextPage pageSize skip;
      body (PaginationResult.items result);;
      if PaginationResult.hasNextPage result
      then usePagination fuel' pageSize (skip + pageSize) getNextPage body
      else ret (Some tt)
  end.

Module access.
(** Modelled from the spec: the access check is an opaque dependency; a
    refused request raises a bad-request error. *)
Definition requirePermission (env : Env) (authUser : AuthUserDto.t)
    (permission : Permission.t) (id : string) : Async unit :=
  if hasPermission env authUser permission id then ret tt
  else throw (BadRequestException "Not found or no access").
End access.

Module IEntityJob.
Record t := mk { id : string }.
End IEntityJob.

(** ** The service *)

Module LibraryService.
Section service.
Context (env : Env).

(** [new RegExp(src)] *)
Definition newRegExp (src : string) : Async (string → bool) :=
  match RegExp env src with
  | Some re => ret re
  | None => throw (SyntaxError src)
  end.

Definition findOrFail (id : string) : Async LibraryEntity.t :=
  library ← repository.get id false;
  match library with
  | None => throw (BadRequestException "Library not found")
  | Some library => ret library
  end.

Definition handleQueueCleanup : Async bool :=
  pendingDeletion ← repository.getAllDeleted;
  for_of pendingDeletion (λ libraryToDelete,
    jobRepository.queue (LIBRARY_DELETE libraryToDelete.1));;
  ret true.

Definition delete (authUser : AuthUserDto.t) (id : string) : Async unit :=
  access.requirePermission env authUser Permission.LIBRARY_DELETE id;;
  library ← findOrFail id;
  uploadCount ← repository.getUploadLibraryCount (AuthUserDto.id authUser);
  if bool_decide (LibraryEntity.type library = UPLOAD) && (uploadCount <=? 1)%nat
  then throw (BadRequestException "Cannot delete the last upload library")
  else
    repository.softDelete (now env) id;;
    jobRepository.queue (LIBRARY_DELETE id).

Definition handleDeleteLibrary (job : IEntityJob.t) : Async bool :=
  library ← repository.get (IEntityJob.id job) true;
  match library with
  | None => ret false
  | Some _ =>
      assetIds ← repository.getAssetIds (IEntityJob.id job) true;
      for_of assetIds (λ assetId,
        jobRepository.queue (ASSET_DELETION assetId true));;
      (if (length assetIds =? 0)%nat
       then repository.delete (IEntityJob.id job)
       else ret tt);;
      ret true
  end.

Definition handleAssetRefresh (job : ILibraryFileJob.t) : Async bool :=
  let assetPath := path_normalize env (ILibraryFileJob.assetPath job) in
  user ← userRepository.get (ILibraryFileJob.ownerId job);
  match truthy_string (user?.UserEntity.externalPath) with
  | None => ret false
  | Some externalPath =>
  re ← newRegExp ("^" +:+ path_normalize env externalPath);
  if negb (re (path_normalize env assetPath)) then ret false else
  existingAssetEntity ←
    assetRepository.getByLibraryIdAndOriginalPath (ILibraryFileJob.id job) assetPath;
  match stat env assetPath with
  | None =>
      (* Can't access file, probably offline *)
      match existingAssetEntity with
      | Some (id, _) => assetRepository.save_isOffline id true;; ret true
      | None => throw (BadRequestException "Can't access file")
      end
  | Some stats =>
      let doImport := false in
      let doRefresh := false in
      let doRefresh := if ILibraryFileJob.force job then true else doRefresh in
      let '(doImport, doRefresh) :=
        match existingAssetEntity with
        | None => (true, doRefresh)
        | Some (_, existing) =>
            if negb (Stats.mtime stats =? AssetEntity.fileModifiedAt existing)%Z
            then (doImport, true)
            else (doImport, doRefresh)
        end in
      doRefresh ←
        match existingAssetEntity with
        | Some (id, existing) =>
            if AssetEntity.isOffline existing
            then assetRepository.save_isOffline id false;; ret true
            else ret doRefresh
        | None => ret doRefresh
        end;
      if negb doImport && negb doRefresh then ret true else
      assetType ←
        (if isImage env assetPath then ret IMAGE
         else if isVideo env assetPath then ret VIDEO
         else throw (BadRequestException ("Unsupported file type " +:+ assetPath)));
      let sidecarPath :=
        if checkFileExists env (assetPath +:+ ".xmp")
        then Some (assetPath +:+ ".xmp") else None in
      let deviceAssetId := removeWhiteSpace (path_basename env assetPath) in
      let pathHash := hashSha1 env ("path:" +:+ assetPath) in
      let queueProcessing (assetId : string) : Async bool :=
        jobRepository.queue (METADATA_EXTRACTION assetId "upload");;
        (if bool_decide (assetType = VIDEO)
         then jobRepository.queue (VIDEO_CONVERSION assetId)
         else ret tt);;
        ret true in
      if doImport then
        library ← repository.get (ILibraryFileJob.id job) true;
        match library?.LibraryEntity.deletedAt with
        | Some _ => ret false
        | None =>
            addedAsset ← assetRepository.create
              {| AssetEntity.ownerId := ILibraryFileJob.ownerId job;
                 AssetEntity.libraryId := ILibraryFileJob.id job;
                 AssetEntity.checksum := pathHash;
                 AssetEntity.originalPath := assetPath;
                 AssetEntity.deviceAssetId := deviceAssetId;
                 AssetEntity.deviceId := "Library Import";
                 AssetEntity.fileCreatedAt := Stats.mtime stats;
                 AssetEntity.fileModifiedAt := Stats.mtime stats;
                 AssetEntity.localDateTime := Stats.mtime stats;
                 AssetEntity.type := assetType;
                 AssetEntity.originalFileName := path_parse_name env assetPath;
                 AssetEntity.sidecarPath := sidecarPath;
                 AssetEntity.isReadOnly := true;
                 AssetEntity.isExternal := true;
                 (* not passed by the caller: the column default *)
                 AssetEntity.isOffline := false |};
            queueProcessing addedAsset.1
        end
      else
        match doRefresh, existingAssetEntity with
        | true, Some (id, _) =>
            assetRepository.updateAll_fileDates [id] (Stats.mtime stats) (Stats.mtime stats);;
            queueProcessing id
        | _, _ => ret true
        end
  end
  end.

Definition handleQueueAssetRefresh (job : ILibraryRefreshJob.t) : Async bool :=
  library ← repository.get (ILibraryRefreshJob.id job) false;
  match library with
  | None => ret false
  | Some library =>
  if negb (bool_decide (LibraryEntity.type library = EXTERNAL)) then ret false else
  user ← userRepository.get (LibraryEntity.ownerId library);
  match truthy_string (user?.UserEntity.externalPath) with
  | None => ret false
  | Some externalPath =>
  let normalizedExternalPath := path_normalize env externalPath in
  let crawled :=
    path_normalize env <$>
      crawl env (LibraryEntity.importPaths library) (LibraryEntity.exclusionPatterns library) in
  (* the filter callback builds the expression once per element *)
  crawledAssetPaths ←
    match crawled with
    | [] => ret []
    | _ => re ← newRegExp ("^" +:+ normalizedExternalPath);
           ret (List.filter re crawled)
    end;
  assetsInLibrary ← assetRepository.getByLibraryId [ILibraryRefreshJob.id job];
  let offlineAssets :=
    filter (λ asset : string * AssetEntity.t,
              AssetEntity.originalPath asset.2 ∉ crawledAssetPaths)
           assetsInLibrary in
  for_of offlineAssets (λ offlineAsset,
    let offlineJobData :=
      {| IOfflineLibraryFileJob.id := ILibraryRefreshJob.id job;
         IOfflineLibraryFileJob.assetPath := AssetEntity.originalPath offlineAsset.2 |} in
    jobRepository.queue (LIBRARY_MARK_ASSET_OFFLINE offlineJobData));;
  (if (0 <? length crawledAssetPaths)%nat then
     filteredPaths ←
       (if ILibraryRefreshJob.refreshAllFiles job || ILibraryRefreshJob.refreshModifiedFiles job
        then ret crawledAssetPaths
        else
          existingPaths ← repository.getOnlineAssetPaths (ILibraryRefreshJob.id job);
          ret (filter (λ assetPath, assetPath ∉ existingPaths) crawledAssetPaths));
     for_of filteredPaths (λ assetPath,
       let libraryJobData :=
         {| ILibraryFileJob.id := ILibraryRefreshJob.id job;
            ILibraryFileJob.assetPath := path_normalize env assetPath;
            ILibraryFileJob.ownerId := LibraryEntity.ownerId library;
            ILibraryFileJob.force := ILibraryRefreshJob.refreshAllFiles job |} in
       jobRepository.queue (LIBRARY_SCAN_ASSET libraryJobData))
   else ret tt);;
  repository.update_refreshedAt (ILibraryRefreshJob.id job) (now env);;
  ret true
  end
  end.

Definition handleOfflineAsset (job : IOfflineLibraryFileJob.t) : Async bool :=
  existingAssetEntity ←
    assetRepository.getByLibraryIdAndOriginalPath
      (IOfflineLibraryFileJob.id job) (IOfflineLibraryFileJob.assetPath job);
  match existingAssetEntity with
  | Some (id, _) => assetRepository.save_isOffline id true
  | None => ret tt
  end;;
  ret true.

(** The response mapping [mapLibrary] belongs to the DTO layer and the page
    size [JOBS_ASSET_PAGINATION_SIZE] to the job constants; the service is
    read for any mapping and any page size. *)
Context {LibraryResponseDto : Type}
        (mapLibrary : string * LibraryEntity.t → LibraryResponseDto)
        (JOBS_ASSET_PAGINATION_SIZE : nat).

Definition get (authUser : AuthUserDto.t) (id : string) : Async LibraryResponseDto :=
  access.requirePermission env authUser Permission.LIBRARY_READ id;;
  library ← findOrFail id;
  ret (mapLibrary (id, library)).

Definition create (authUser : AuthUserDto.t) (dto : CreateLibraryDto.t)
    : Async LibraryResponseDto :=
  name ←
    match CreateLibraryDto.type dto with
    | EXTERNAL =>
        ret (default "New External Library" (truthy_string (CreateLibraryDto.name dto)))
    | UPLOAD =>
        let name :=
          default "New Upload Library" (truthy_string (CreateLibraryDto.name dto)) in
        if nonEmpty (CreateLibraryDto.importPaths dto)
        then throw (BadRequestException "Upload libraries cannot have import paths")
        else if nonEmpty (CreateLibraryDto.exclusionPatterns dto)
        then throw (BadRequestException "Upload libraries cannot have exclusion patterns")
        else ret name
    end;
  library ← repository.create (AuthUserDto.id authUser) name (CreateLibraryDto.type dto)
              (default [] (CreateLibraryDto.importPaths dto))
              (default [] (CreateLibraryDto.exclusionPatterns dto))
              (default true (CreateLibraryDto.isVisible dto));
  ret (mapLibrary library).

Definition queueScan (authUser : AuthUserDto.t) (id : string) (dto : ScanLibraryDto.t)
    : Async unit :=
  access.requirePermission env authUser Permission.LIBRARY_UPDATE id;;
  library ← repository.get id false;
  match library with
  | None => throw (BadRequestException "Can only refresh external libraries")
  | Some library =>
      if negb (bool_decide (LibraryEntity.type library = EXTERNAL))
      then throw (BadRequestException "Can only refresh external libraries")
      else
        jobRepository.queue
          (LIBRARY_SCAN
             {| ILibraryRefreshJob.id := id;
                ILibraryRefreshJob.refreshModifiedFiles :=
                  default false (ScanLibraryDto.refreshModifiedFiles dto);
                ILibraryRefreshJob.refreshAllFiles :=
                  default false (ScanLibraryDto.refreshAllFiles dto) |})
  end.

Definition queueRemoveOffline (authUser : AuthUserDto.t) (id : string) : Async unit :=
  access.requirePermission env authUser Permission.LIBRARY_UPDATE id;;
  jobRepository.queue (LIBRARY_REMOVE_OFFLINE id).

Definition handleQueueAllScan (job : IBaseJob.t) : Async bool :=
  (* Queue cleanup *)
  jobRepository.queue LIBRARY_QUEUE_CLEANUP;;
  (* Queue all library refresh *)
  libraries ← repository.getAll true EXTERNAL;
  for_of libraries (λ library,
    jobRepository.queue
      (LIBRARY_SCAN
         {| ILibraryRefreshJob.id := library.1;
            ILibraryRefreshJob.refreshModifiedFiles := negb (truthy_bool (IBaseJob.force job));
            ILibraryRefreshJob.refreshAllFiles := default false (IBaseJob.force job) |}));;
  ret true.

(** [None]: the pagination has not come to its last page within [fuel]
    pages. *)
Definition handleOfflineRemoval (fuel : nat) (job : IEntityJob.t) : Async (option bool) :=
  finished ←
    usePagination fuel JOBS_ASSET_PAGINATION_SIZE 0
      (λ take skip, assetRepository.getWith_IS_OFFLINE take skip (IEntityJob.id job))
      (λ assets,
         for_of assets (λ asset,
           jobRepository.queue (ASSET_DELETION asset.1 true)));
  ret ((λ _, true) <$> finished).

End service.
End LibraryService.

(** ** A POSIX reference environment

    The platform functions as Node.js defines them on a POSIX host, a
    regular-expression engine for the expressions the service builds, and a
    file system given as a list of files with their modification times.
    Every concrete evaluation below runs in this environment. *)

Module posix.

(** The segments of a path: [s.split('/')]. *)
Fixpoint split (s : string) : list string :=
  match s with
  | EmptyString => [EmptyString]
  | String c s' =>
      if Ascii.eqb c "/" then EmptyString :: split s'
      else match split s' with
           | seg :: rest => String c seg :: rest
           | [] => [String c EmptyString]
           end
  end.

(** [segs.join('/')] *)
Fixpoint join (segs : list string) : string :=
  match segs with
  | [] => ""
  | [seg] => seg
  | seg :: rest => seg +:+ "/" +:+ join rest
  end.

(** One step of [normalizeString]: the stack holds the segments kept so
    far, last one first. *)
Definition step (allowAboveRoot : bool) (stack : list string) (seg : string)
    : list string :=
  if bool_decide (seg = "") || bool_decide (seg = ".") then stack
  else if bool_decide (seg = "..") then
    match stack with
    | top :: rest =>
        if bool_decide (top = "..")
        then (if allowAboveRoot then ".." :: stack else stack)
        else rest
    | [] => if allowAboveRoot then [".."] else []
    end
  else seg :: stack.

Definition normalizeString (path : string) (allowAboveRoot : bool) : string :=
  join (reverse (fold_left (step allowAboveRoot) (split path) [])).

Definition endsWithSlash (s : string) : bool :=
  match last (split s) with
  | Some "" => true
  | _ => false
  end.

(** [path.posix.normalize] *)
Definition normalize (path : string) : string :=
  if bool_decide (path = "") then "." else
  let isAbsolute := String.prefix "/" path in
  let trailingSeparator := endsWithSlash path in
  let body := normalizeString path (negb isAbsolute) in
  if bool_decide (body = "") then
    if isAbsolute then "/" else if trailingSeparator then "./" else "."
  else
    (if isAbsolute then "/" else "") +:+ body +:+ (if trailingSeparator then "/" else "").

(** [path.posix.basename]: the last segment, trailing separators ignored. *)
Definition basename (path : string) : string :=
  default "" (head (filter (λ seg, seg ≠ "") (reverse (split path)))).

(** The part of [base] before its last dot; [None] when there is no dot. *)
Fixpoint beforeLastDot (base : string) : option string :=
  match base with
  | EmptyString => None
  | String c base' =>
      match beforeLastDot base' with
      | Some pre => Some (String c pre)
      | None => if Ascii.eqb c "." then Some EmptyString else None
      end
  end.

(** [path.posix.parse(path).name]: the base name without its extension; a
    leading dot starts no extension, and [..] has none.  Node's scan leaves
    the start of the last segment at 0 when it meets no separator after the
    root, so for [/..] (with or without trailing separators) it does not
    recognise the segment as [..] and answers [.]. *)
Definition parse_name (path : string) : string :=
  let base := basename path in
  match beforeLastDot base with
  | None | Some EmptyString => base
  | Some pre =>
      if bool_decide (base = "..")
      then if String.prefix "/.." path
              && bool_decide (filter (λ seg, seg ≠ "") (split path) = [".."])
           then "." else base
      else pre
  end.

(** The characters with a meaning of their own in a pattern. *)
Definition isSyntaxCharacter (c : ascii) : bool :=
  existsb (Ascii.eqb c) (list_ascii_of_string "^$\.*+?()[]{}|").

Definition isLineTerminator (c : ascii) : bool :=
  (nat_of_ascii c =? 10)%nat || (nat_of_ascii c =? 13)%nat.

(** Does [s] start with a match of [pattern], a sequence of ordinary
    characters and dots? *)
Fixpoint matchHere (pattern s : string) : bool :=
  match pattern, s with
  | EmptyString, _ => true
  | String _ _, EmptyString => false
  | String p pattern', String c s' =>
      (if Ascii.eqb p "." then negb (isLineTerminator c) else Ascii.eqb p c)
      && matchHere pattern' s'
  end.

(** The regular expressions the service builds are [^] followed by a
    path.  The engine here takes such an expression when the path holds no
    syntax character other than [.], which stands for any code unit that
    is not a line terminator; it reports anything else as it reports an
    ill-formed expression. *)
Definition RegExp (src : string) : option (string → bool) :=
  match src with
  | String "^" body =>
      if forallb (λ c, Ascii.eqb c "." || negb (isSyntaxCharacter c))
                 (list_ascii_of_string body)
      then Some (matchHere body)
      else None
  | _ => None
  end.

(** Does the path end in one of the extensions? *)
Definition hasExtension (exts : list string) (path : string) : bool :=
  existsb (λ ext, String.prefix (String.rev ext) (String.rev path)) exts.

(** A file system: the files with their modification times.  The crawler
    lists the media files below one of the given roots. *)
Definition Disk := list (string * Z).

Definition env (disk : Disk) (owners : list (string * string)) (now : Z) : Env :=
  mkEnv normalize basename parse_name RegExp
    (* hashSha1: a stand-in that keeps distinct inputs distinct *)
    (λ s, "sha1:" +:+ s)
    (* stat *)
    (λ path, (λ f : string * Z, Stats.mk f.2 0) <$>
               head (filter (λ f : string * Z, f.1 = path) disk))
    (* checkFileExists *)
    (λ path, bool_decide (path ∈ disk.*1))
    (* crawl *)
    (λ pathsToCrawl _,
       filter (λ file,
                 existsb (λ root, String.prefix (root +:+ "/") file) pathsToCrawl
                 ∧ hasExtension [".jpg"; ".png"; ".mp4"] file)
              disk.*1)
    (* isImage, isVideo *)
    (hasExtension [".jpg"; ".png"])
    (hasExtension [".mp4"])
    (* hasPermission *)
    (λ authUser _ id, bool_decide ((AuthUserDto.id authUser, id) ∈ owners))
    now.

(** No separator in the segment. *)
Fixpoint noSlash (s : string) : bool :=
  match s with
  | EmptyString => true
  | String c s' => negb (Ascii.eqb c "/") && noSlash s'
  end.

(** A segment [normalizeString] keeps as it is. *)
Definition ordinary (seg : string) : Prop :=
  seg ≠ "" ∧ seg ≠ "." ∧ seg ≠ ".." ∧ noSlash seg = true.

(** The stack of [normalizeString]: ordinary segments, above as many [..]
    as climbed out of the start, none when that is not allowed. *)
Definition canonical (allow : bool) (stack : list string) : Prop :=
  ∃ k rest,
    stack = rest ++ replicate k ".."
    ∧ Forall ordinary rest
    ∧ (allow = false → k = 0).

End posix.

(** ** Containment as the specification words it

    A path lies under a root when it is the root itself or continues it
    past a separator. *)
Definition liesUnder (root path : string) : bool :=
  bool_decide (path = root)
  || String.prefix (if posix.endsWithSlash root then root else root +:+ "/") path.

(** ** Vocabulary of the statements *)

(** The handler gets past its two guards: the owner has an external root,
    and the normalised path matches the expression built from that root. *)
Definition passesGuards (env : Env) (job : ILibraryFileJob.t) (st : Store) : Prop :=
  ∃ externalPath re,
    truthy_string ((users st !! ILibraryFileJob.ownerId job)?.UserEntity.externalPath)
      = Some externalPath
    ∧ RegExp env ("^" +:+ path_normalize env externalPath) = Some re
    ∧ re (path_normalize env (path_normalize env (ILibraryFileJob.assetPath job))) = true.

(** The asset type the handler assigns: image first, then video. *)
Definition classify (env : Env) (assetPath : string) : option AssetType :=
  if isImage env assetPath then Some IMAGE
  else if isVideo env assetPath then Some VIDEO
  else None.

(** The refresh decision for a known asset whose file could be read. *)
Definition needsRefresh (force : bool) (stats : Stats.t) (a : AssetEntity.t) : bool :=
  force
  || negb (Stats.mtime stats =? AssetEntity.fileModifiedAt a)%Z
  || AssetEntity.isOffline a.

(** The jobs pushed for an imported or refreshed asset. *)
Definition processingJobs (assetId : string) (t : AssetType) : list JobItem :=
  METADATA_EXTRACTION assetId "upload"
  :: (if bool_decide (t = VIDEO) then [VIDEO_CONVERSION assetId] else []).

(** The record an import creates. *)
Definition importedAsset (env : Env) (job : ILibraryFileJob.t) (stats : Stats.t)
    (t : AssetType) : AssetEntity.t :=
  let assetPath := path_normalize env (ILibraryFileJob.assetPath job) in
  {| AssetEntity.ownerId := ILibraryFileJob.ownerId job;
     AssetEntity.libraryId := ILibraryFileJob.id job;
     AssetEntity.checksum := hashSha1 env ("path:" +:+ assetPath);
     AssetEntity.originalPath := assetPath;
     AssetEntity.deviceAssetId := removeWhiteSpace (path_basename env assetPath);
     AssetEntity.deviceId := "Library Import";
     AssetEntity.fileCreatedAt := Stats.mtime stats;
     AssetEntity.fileModifiedAt := Stats.mtime stats;
     AssetEntity.localDateTime := Stats.mtime stats;
     AssetEntity.type := t;
     AssetEntity.originalFileName := path_parse_name env assetPath;
     AssetEntity.sidecarPath :=
       if checkFileExists env (assetPath +:+ ".xmp")
       then Some (assetPath +:+ ".xmp") else None;
     AssetEntity.isReadOnly := true;
     AssetEntity.isExternal := true;
     AssetEntity.isOffline := false |}.

(** What a scan pushes, read off [handleQueueAssetRefresh]: the crawled
    paths that match the expression, one offline mark for every asset of the
    library whose path is not among them, and one per-path job for every
    candidate. *)
Definition crawledAssetPaths (env : Env) (library : LibraryEntity.t)
    (re : string → bool) : list string :=
  List.filter re
    (path_normalize env <$>
       crawl env (LibraryEntity.importPaths library) (LibraryEntity.exclusionPatterns library)).

Definition offlineJobs (job : ILibraryRefreshJob.t) (crawled : list string)
    (st : Store) : list JobItem :=
  (λ asset : string * AssetEntity.t,
     LIBRARY_MARK_ASSET_OFFLINE
       {| IOfflineLibraryFileJob.id := ILibraryRefreshJob.id job;
          IOfflineLibraryFileJob.assetPath := AssetEntity.originalPath asset.2 |})
  <$> filter (λ asset : string * AssetEntity.t,
                AssetEntity.originalPath asset.2 ∉ crawled)
             (map_to_list
                (filter (λ kv : string * AssetEntity.t,
                           AssetEntity.libraryId kv.2 ∈ [ILibraryRefreshJob.id job])
                        (assets st))).

Definition onlineAssetPaths (libraryId : string) (st : Store) : list string :=
  AssetEntity.originalPath <$>
    (map_to_list
       (filter (λ kv : string * AssetEntity.t,
                  AssetEntity.libraryId kv.2 = libraryId
                  ∧ AssetEntity.isOffline kv.2 = false)
               (assets st))).*2.

Definition fileJobs (env : Env) (job : ILibraryRefreshJob.t) (library : LibraryEntity.t)
    (crawled : list string) (st : Store) : list JobItem :=
  (λ assetPath,
     LIBRARY_SCAN_ASSET
       {| ILibraryFileJob.id := ILibraryRefreshJob.id job;
          ILibraryFileJob.assetPath := path_normalize env assetPath;
          ILibraryFileJob.ownerId := LibraryEntity.ownerId library;
          ILibraryFileJob.force := ILibraryRefreshJob.refreshAllFiles job |})
  <$> (if ILibraryRefreshJob.refreshAllFiles job || ILibraryRefreshJob.refreshModifiedFiles job
       then crawled
       else filter (λ assetPath, assetPath ∉ onlineAssetPaths (ILibraryRefreshJob.id job) st)
                   crawled).

(** The jobs a handler pushed: what the queue holds beyond what it held. *)
Definition pushed (before after : Store) : list JobItem :=
  drop (length (jobs before)) (jobs after).

(** Modelled from the spec: the task queue hands a library job to its
    handler; a job of another service leaves these tables alone; a handler
    that throws has failed its job, and what it wrote before stays. *)
Definition runJob (env : Env) (st : Store) (item : JobItem) : Store :=
  match item with
  | LIBRARY_SCAN_ASSET data => (LibraryService.handleAssetRefresh env data st).2
  | LIBRARY_MARK_ASSET_OFFLINE data => (LibraryService.handleOfflineAsset data st).2
  | _ => st
  end.

Definition runJobs (env : Env) (items : list JobItem) (st : Store) : Store :=
  fold_left (runJob env) items st.

(** The ids of the assets a library owns, in the order [getAssetIds] lists
    them. *)
Definition assetIdsOf (libraryId : string) (st : Store) : list string :=
  (map_to_list
     (filter (λ kv : string * AssetEntity.t, AssetEntity.libraryId kv.2 = libraryId)
             (assets st))).*1.

(** The ids of the libraries awaiting removal, as [getAllDeleted] lists them. *)
Definition pendingDeletion (st : Store) : list string :=
  (map_to_list
     (filter (λ kv : string * LibraryEntity.t, is_Some (LibraryEntity.deletedAt kv.2))
             (libraries st))).*1.

(** The catalog holds an online asset of the library at the path. *)
Definition online (libraryId path : string) (catalog : gmap string AssetEntity.t) : Prop :=
  ∃ id a,
    catalog !! id = Some a
    ∧ AssetEntity.libraryId a = libraryId
    ∧ AssetEntity.originalPath a = path
    ∧ AssetEntity.isOffline a = false.

(** The scan gets past its guards: the library is there, alive and
    external, its owner has an external root, and [crawled] is what the
    crawl leaves after the containment filter.  The expression is only built
    when the crawl found something. *)
Definition scans (env : Env) (job : ILibraryRefreshJob.t) (st : Store)
    (library : LibraryEntity.t) (crawled : list string) : Prop :=
  repository.get (ILibraryRefreshJob.id job) false st = (Return (Some library), st)
  ∧ LibraryEntity.type library = EXTERNAL
  ∧ ∃ externalPath,
      truthy_string ((users st !! LibraryEntity.ownerId library)?.UserEntity.externalPath)
        = Some externalPath
      ∧ match RegExp env ("^" +:+ path_normalize env externalPath) with
        | Some re => crawled = crawledAssetPaths env library re
        | None =>
            crawl env (LibraryEntity.importPaths library)
                      (LibraryEntity.exclusionPatterns library) = []
            ∧ crawled = []
        end.

(** ** Vocabulary of the statements about the rest of the service *)

(** The catalog constraint: at most one asset per library and path. *)
Definition uniquePaths (catalog : gmap string AssetEntity.t) : Prop :=
  ∀ id1 id2 a1 a2,
    catalog !! id1 = Some a1 → catalog !! id2 = Some a2 →
    AssetEntity.libraryId a1 = AssetEntity.libraryId a2 →
    AssetEntity.originalPath a1 = AssetEntity.originalPath a2 →
    id1 = id2.

(** [a'] is [a] but for the two file dates and the offline flag. *)
Definition sameAsset (a a' : AssetEntity.t) : Prop :=
  a' = AssetEntity.with_isOffline (AssetEntity.isOffline a')
         (AssetEntity.with_fileDates (AssetEntity.fileCreatedAt a')
            (AssetEntity.fileModifiedAt a') a).

(** The number [getUploadLibraryCount] reports. *)
Definition uploadLibraryCount (ownerId : string) (st : Store) : nat :=
  size (filter (λ kv : string * LibraryEntity.t,
                  LibraryEntity.ownerId kv.2 = ownerId
                  ∧ LibraryEntity.type kv.2 = UPLOAD
                  ∧ LibraryEntity.deletedAt kv.2 = None)
               (libraries st)).

(** The ids of the library's assets flagged offline, in the order the
    paginated query lists them. *)
Definition offlineAssetIds (libraryId : string) (st : Store) : list string :=
  (map_to_list
     (filter (λ kv : string * AssetEntity.t,
                AssetEntity.isOffline kv.2 = true
                ∧ AssetEntity.libraryId kv.2 = libraryId)
             (assets st))).*1.

(** The ids of the external libraries, in the order [getAll(true, EXTERNAL)]
    lists them. *)
Definition externalLibraryIds (st : Store) : list string :=
  (map_to_list
     (filter (λ kv : string * LibraryEntity.t,
                LibraryEntity.type kv.2 = EXTERNAL
                ∧ (true = true ∨ LibraryEntity.deletedAt kv.2 = None))
             (libraries st))).*1.

(** The scan job [handleQueueAllScan] pushes for a library. *)
Definition scheduledScan (job : IBaseJob.t) (id : string) : ILibraryRefreshJob.t :=
  {| ILibraryRefreshJob.id := id;
     ILibraryRefreshJob.refreshModifiedFiles := negb (truthy_bool (IBaseJob.force job));
     ILibraryRefreshJob.refreshAllFiles := default false (IBaseJob.force job) |}.

(** The operations of the service embedded here, and the store each one
    leaves. *)
Inductive Operation :=
  | Get (authUser : AuthUserDto.t) (id : string)
  | Create (authUser : AuthUserDto.t) (dto : CreateLibraryDto.t)
  | Delete (authUser : AuthUserDto.t) (id : string)
  | QueueScan (authUser : AuthUserDto.t) (id : string) (dto : ScanLibraryDto.t)
  | QueueRemoveOffline (authUser : AuthUserDto.t) (id : string)
  | HandleQueueCleanup
  | HandleDeleteLibrary (job : IEntityJob.t)
  | HandleAssetRefresh (job : ILibraryFileJob.t)
  | HandleQueueAllScan (job : IBaseJob.t)
  | HandleOfflineRemoval (fuel : nat) (job : IEntityJob.t)
  | HandleQueueAssetRefresh (job : ILibraryRefreshJob.t)
  | HandleOfflineAsset (job : IOfflineLibraryFileJob.t).

Definition perform (env : Env) {LibraryResponseDto : Type}
    (mapLibrary : string * LibraryEntity.t → LibraryResponseDto)
    (JOBS_ASSET_PAGINATION_SIZE : nat) (op : Operation) (st : Store) : Store :=
  match op with
  | Get authUser id => (LibraryService.get env mapLibrary authUser id st).2
  | Create authUser dto => (LibraryService.create mapLibrary authUser dto st).2
  | Delete authUser id => (LibraryService.delete env authUser id st).2
  | QueueScan authUser id dto => (LibraryService.queueScan env authUser id dto st).2
  | QueueRemoveOffline authUser id => (LibraryService.queueRemoveOffline env authUser id st).2
  | HandleQueueCleanup => (LibraryService.handleQueueCleanup st).2
  | HandleDeleteLibrary job => (LibraryService.handleDeleteLibrary job st).2
  | HandleAssetRefresh job => (LibraryService.handleAssetRefresh env job st).2
  | HandleQueueAllScan job => (LibraryService.handleQueueAllScan job st).2
  | HandleOfflineRemoval fuel job =>
      (LibraryService.handleOfflineRemoval JOBS_ASSET_PAGINATION_SIZE fuel job st).2
  | HandleQueueAssetRefresh job => (LibraryService.handleQueueAssetRefresh env job st).2
  | HandleOfflineAsset job => (LibraryService.handleOfflineAsset job st).2
  end.

(** ** A worked installation

    One user whose external root is [/data/photos], a second user without
    one, and a disk with two images and a video below the root, a text file
    below it, and an image in the sibling directory [/data/photos2]. *)

Module demo.

Definition disk : posix.Disk :=
  [("/data/photos/a.jpg", 1000%Z);
   ("/data/photos/b.mp4", 2000%Z);
   ("/data/photos/notes.txt", 3000%Z);
   ("/data/photos/d.png", 3500%Z);
   ("/data/photos2/c.jpg", 4000%Z)].

Definition env : Env :=
  posix.env disk [("u1", "L1"); ("u1", "L2"); ("u1", "U1"); ("u2", "L3")] 5000.

Definition users : gmap string UserEntity.t :=
  {[ "u1" := UserEntity.mk (Some "/data/photos");
     "u2" := UserEntity.mk None ]}.

Definition external (ownerId : string) (importPaths : list string)
    (deletedAt : option Z) : LibraryEntity.t :=
  LibraryEntity.mk ownerId EXTERNAL "Photos" importPaths [] true None deletedAt.

Definition upload (ownerId : string) : LibraryEntity.t :=
  LibraryEntity.mk ownerId UPLOAD "Uploads" [] [] true None None.

(** [L1] crawls the root, [L2] crawls the sibling directory, [L3] belongs to
    the user without a root, [U1] is the first user's only upload library. *)
Definition libraries : gmap string LibraryEntity.t :=
  {[ "L1" := external "u1" ["/data/photos"] None;
     "L2" := external "u1" ["/data/photos2"] None;
     "L3" := external "u2" ["/data/photos"] None;
     "U1" := upload "u1" ]}.

Definition asset (libraryId path : string) (modified : Z) (t : AssetType)
    (isOffline : bool) : AssetEntity.t :=
  AssetEntity.mk "u1" libraryId ("sha1:path:" +:+ path) path
    (posix.basename path) "Library Import" modified modified modified t
    (posix.parse_name path) None true true isOffline.

Definition store (libraries : gmap string LibraryEntity.t)
    (assets : gmap string AssetEntity.t) : Store :=
  mkStore libraries assets users [].

(** Nothing imported yet. *)
Definition empty : Store := store libraries ∅.

(** [a.jpg] imported and up to date. *)
Definition imported : Store :=
  store libraries {[ "a1" := asset "L1" "/data/photos/a.jpg" 1000 IMAGE false ]}.

(** [b.mp4] and [notes.txt] known and flagged offline, a third asset whose
    file is gone. *)
Definition offline : Store :=
  store libraries
    {[ "a2" := asset "L1" "/data/photos/b.mp4" 2000 VIDEO true;
       "a3" := asset "L1" "/data/photos/notes.txt" 3000 IMAGE true;
       "a4" := asset "L1" "/data/photos/gone.jpg" 900 IMAGE false ]}.

(** [L1] soft-deleted, with and without assets left. *)
Definition deleting : Store :=
  store (<["L1" := external "u1" ["/data/photos"] (Some 4500%Z)]> libraries)
    {[ "a1" := asset "L1" "/data/photos/a.jpg" 1000 IMAGE false;
       "a2" := asset "L1" "/data/photos/b.mp4" 2000 VIDEO true ]}.

Definition fileJob (libraryId path : string) (force : bool) : ILibraryFileJob.t :=
  ILibraryFileJob.mk libraryId path "u1" force.

Definition scanJob (libraryId : string) : ILibraryRefreshJob.t :=
  ILibraryRefreshJob.mk libraryId false false.

(** A request for an upload library that names an import path, and one for
    an external library under the empty name. *)
Definition uploadWithPaths : CreateLibraryDto.t :=
  CreateLibraryDto.mk UPLOAD None None (Some ["/data/photos"]) None.

Definition unnamedExternal : CreateLibraryDto.t :=
  CreateLibraryDto.mk EXTERNAL (Some "") None (Some ["/data/photos"]) None.

(** The installation as the creator of the next library sees it: the first
    user is let through to the id the library table hands out next. *)
Definition creatorEnv : Env := posix.env disk [("u1", "0")] 5000.

(** [L4] crawls a directory with no file in it; one asset of it is known. *)
Definition unmounted : Store :=
  store (<["L4" := external "u1" ["/mnt/gone"] None]> libraries)
        {[ "a5" := asset "L4" "/mnt/gone/x.jpg" 100 IMAGE false ]}.

(** The installation on a day when the crawler lists [d.png] but the file
    cannot be read: [stat] fails on it, everything else is as in [env]. *)
Definition unreadable : Env :=
  mkEnv (path_normalize env) (path_basename env) (path_parse_name env) (RegExp env)
    (hashSha1 env)
    (λ path, if bool_decide (path = "/data/photos/d.png") then None else stat env path)
    (checkFileExists env) (crawl env) (isImage env) (isVideo env) (hasPermission env)
    (now env).

(** A disk whose one file has white space in its name: two spaces, then a
    tab. *)
Definition spacedName : string :=
  "my  holiday" +:+ String (ascii_of_nat 9) "pic 1.jpg".

Definition spaced : Env :=
  posix.env [("/data/photos/" +:+ spacedName, 1200%Z)] [("u1", "L1")] 5000.

End demo.

(** * Properties *)

(** ** Reading the tables *)

Section queries.
Context (st : Store).

Lemma getByLibraryIdAndOriginalPath_Some libraryId path id a :
  assetRepository.getByLibraryIdAndOriginalPath libraryId path st
    = (Return (Some (id, a)), st) →
  assets st !! id = Some a
  ∧ AssetEntity.libraryId a = libraryId
  ∧ AssetEntity.originalPath a = path.
Proof.
  unfold assetRepository.getByLibraryIdAndOriginalPath, gets.
  intros [= Hhead].
  apply head_Some_elem_of, elem_of_map_to_list in Hhead.
  apply map_lookup_filter_Some in Hhead as [? [? ?]]. auto.
Qed.

Lemma getByLibraryIdAndOriginalPath_None libraryId path :
  assetRepository.getByLibraryIdAndOriginalPath libraryId path st
    = (Return None, st) →
  ∀ id a, assets st !! id = Some a →
    ¬ (AssetEntity.libraryId a = libraryId ∧ AssetEntity.originalPath a = path).
Proof.
  unfold assetRepository.getByLibraryIdAndOriginalPath, gets.
  intros [= Hhead] id a Ha Hmatch.
  apply head_None in Hhead. apply map_to_list_empty_iff in Hhead.
  assert (filter (λ kv : string * AssetEntity.t,
                    AssetEntity.libraryId kv.2 = libraryId
                    ∧ AssetEntity.originalPath kv.2 = path) (assets st) !! id = Some a)
    as Hin by (apply map_lookup_filter_Some; auto).
  rewrite Hhead in Hin. by rewrite lookup_empty in Hin.
Qed.
End queries.

(** Symbolic execution: unfold the monad and the table operations, keep
    the table queries' results as they are. *)
Ltac exec :=
  cbv [LibraryService.handleAssetRefresh LibraryService.handleQueueAssetRefresh
       LibraryService.handleOfflineAsset LibraryService.handleDeleteLibrary
       LibraryService.handleQueueCleanup LibraryService.delete
       LibraryService.findOrFail LibraryService.newRegExp
       access.requirePermission
       userRepository.get jobRepository.queue
       repository.softDelete repository.delete repository.update_refreshedAt
       assetRepository.save_isOffline assetRepository.updateAll_fileDates
       assetRepository.create
       mbind Async_bind bind mret Async_ret ret throw gets modify].

(** Case analysis on the MIME classification of the path. *)
Ltac classes H :=
  unfold classify in H;
  destruct (isImage _ _);
    [first [injection H as <- | discriminate H]
    |destruct (isVideo _ _);
       [first [injection H as <- | discriminate H] | try discriminate H]].

(** Normal form of the store after the pushes on the queue. *)
Ltac queue_nf :=
  cbn; unfold set_jobs, set_assets, set_libraries, processingJobs; cbn;
  rewrite ?bool_decide_eq_true_2, ?bool_decide_eq_false_2 by done; cbn;
  rewrite <- ?app_assoc; cbn.

Ltac step := cbn [negb andb orb fst snd opt_chain]; cbv beta iota zeta.

Section handleAssetRefresh.
Context (env : Env) (job : ILibraryFileJob.t) (st : Store).

Let assetPath := path_normalize env (ILibraryFileJob.assetPath job).
Let libraryId := ILibraryFileJob.id job.

(** *** The guards *)

Lemma handleAssetRefresh_no_externalPath :
  truthy_string ((users st !! ILibraryFileJob.ownerId job)?.UserEntity.externalPath) = None →
  LibraryService.handleAssetRefresh env job st = (Return false, st).
Proof. intros Hext. exec. by rewrite Hext. Qed.

Lemma handleAssetRefresh_SyntaxError externalPath :
  truthy_string ((users st !! ILibraryFileJob.ownerId job)?.UserEntity.externalPath)
    = Some externalPath →
  RegExp env ("^" +:+ path_normalize env externalPath) = None →
  LibraryService.handleAssetRefresh env job st
    = (Throw (SyntaxError ("^" +:+ path_normalize env externalPath)), st).
Proof. intros Hext Hre. exec. by rewrite Hext, Hre. Qed.

Lemma handleAssetRefresh_outside externalPath re :
  truthy_string ((users st !! ILibraryFileJob.ownerId job)?.UserEntity.externalPath)
    = Some externalPath →
  RegExp env ("^" +:+ path_normalize env externalPath) = Some re →
  re (path_normalize env assetPath) = false →
  LibraryService.handleAssetRefresh env job st = (Return false, st).
Proof. intros Hext Hre Hmatch. exec. subst assetPath. by rewrite Hext, Hre, Hmatch. Qed.

(** Whatever the guards decide, a handler that does not get past them
    leaves the store as it is. *)
Lemma handleAssetRefresh_guards :
  passesGuards env job st
  ∨ (¬ passesGuards env job st
     ∧ (LibraryService.handleAssetRefresh env job st).2 = st).
Proof.
  destruct (truthy_string
              ((users st !! ILibraryFileJob.ownerId job)?.UserEntity.externalPath))
    as [ext|] eqn:Hext.
  2: { right. split; [|by rewrite handleAssetRefresh_no_externalPath].
       intros (? & ? & ? & _). congruence. }
  destruct (RegExp env ("^" +:+ path_normalize env ext)) as [re|] eqn:Hre.
  2: { right. split; [|by erewrite handleAssetRefresh_SyntaxError].
       intros (? & ? & ? & ? & _). congruence. }
  destruct (re (path_normalize env assetPath)) eqn:Hmatch.
  2: { right. split; [|by erewrite handleAssetRefresh_outside].
       intros (? & ? & ? & ? & ?). subst assetPath. congruence. }
  left. by exists ext, re.
Qed.

(** *** Past the guards *)

Context (Hguards : passesGuards env job st).

Ltac guards :=
  destruct Hguards as (ext & re & Hext & Hre & Hmatch);
  exec; cbv [for_of]; exec; subst assetPath libraryId; rewrite Hext, Hre, Hmatch; step.

Lemma handleAssetRefresh_stat_failure_known id a :
  stat env assetPath = None →
  assetRepository.getByLibraryIdAndOriginalPath libraryId assetPath st
    = (Return (Some (id, a)), st) →
  LibraryService.handleAssetRefresh env job st
    = (Return true, set_assets (alter (AssetEntity.with_isOffline true) id) st).
Proof. intros Hstat Hfind. guards. by rewrite Hfind, Hstat. Qed.

Lemma handleAssetRefresh_stat_failure_unknown :
  stat env assetPath = None →
  assetRepository.getByLibraryIdAndOriginalPath libraryId assetPath st
    = (Return None, st) →
  LibraryService.handleAssetRefresh env job st
    = (Throw (BadRequestException "Can't access file"), st).
Proof. intros Hstat Hfind. guards. by rewrite Hfind, Hstat. Qed.

Context (stats : Stats.t) (Hstat : stat env assetPath = Some stats).

Lemma handleAssetRefresh_up_to_date id a :
  assetRepository.getByLibraryIdAndOriginalPath libraryId assetPath st
    = (Return (Some (id, a)), st) →
  needsRefresh (ILibraryFileJob.force job) stats a = false →
  LibraryService.handleAssetRefresh env job st = (Return true, st).
Proof.
  intros Hfind Hneeds. guards. rewrite Hfind, Hstat.
  unfold needsRefresh in Hneeds.
  destruct (ILibraryFileJob.force job), (AssetEntity.isOffline a),
    (Stats.mtime stats =? AssetEntity.fileModifiedAt a)%Z;
    try discriminate Hneeds. by step.
Qed.

Lemma handleAssetRefresh_refresh id a t :
  assetRepository.getByLibraryIdAndOriginalPath libraryId assetPath st
    = (Return (Some (id, a)), st) →
  needsRefresh (ILibraryFileJob.force job) stats a = true →
  classify env assetPath = Some t →
  LibraryService.handleAssetRefresh env job st
    = (Return true,
       {| libraries := libraries st;
          assets :=
            alter (AssetEntity.with_fileDates (Stats.mtime stats) (Stats.mtime stats)) id
              (if AssetEntity.isOffline a
               then alter (AssetEntity.with_isOffline false) id (assets st)
               else assets st);
          users := users st;
          jobs := jobs st ++ processingJobs id t |}).
Proof.
  intros Hfind Hneeds Hclass. guards.
  rewrite Hfind, Hstat. step.
  unfold needsRefresh in Hneeds. classes Hclass.
  all: destruct (ILibraryFileJob.force job), (AssetEntity.isOffline a),
    (Stats.mtime stats =? AssetEntity.fileModifiedAt a)%Z;
    try discriminate Hneeds; step; by queue_nf.
Qed.

Lemma handleAssetRefresh_refresh_unsupported id a :
  assetRepository.getByLibraryIdAndOriginalPath libraryId assetPath st
    = (Return (Some (id, a)), st) →
  needsRefresh (ILibraryFileJob.force job) stats a = true →
  classify env assetPath = None →
  LibraryService.handleAssetRefresh env job st
    = (Throw (BadRequestException ("Unsupported file type " +:+ assetPath)),
       if AssetEntity.isOffline a
       then set_assets (alter (AssetEntity.with_isOffline false) id) st
       else st).
Proof.
  intros Hfind Hneeds Hclass. guards.
  rewrite Hfind, Hstat. step.
  unfold needsRefresh in Hneeds. classes Hclass.
  destruct (ILibraryFileJob.force job), (AssetEntity.isOffline a),
    (Stats.mtime stats =? AssetEntity.fileModifiedAt a)%Z;
    try discriminate Hneeds; reflexivity.
Qed.

Context (Hnew : assetRepository.getByLibraryIdAndOriginalPath libraryId assetPath st
                = (Return None, st)).

Lemma handleAssetRefresh_import_unsupported :
  classify env assetPath = None →
  LibraryService.handleAssetRefresh env job st
    = (Throw (BadRequestException ("Unsupported file type " +:+ assetPath)), st).
Proof.
  intros Hclass. guards. rewrite Hnew, Hstat. step.
  classes Hclass. by destruct (ILibraryFileJob.force job).
Qed.

Lemma handleAssetRefresh_import_deleted t deletedAt :
  classify env assetPath = Some t →
  (libraries st !! libraryId)?.LibraryEntity.deletedAt = Some deletedAt →
  LibraryService.handleAssetRefresh env job st = (Return false, st).
Proof.
  intros Hclass Hdel. guards. rewrite Hnew, Hstat. step.
  destruct (libraries st !! ILibraryFileJob.id job) as [library|] eqn:Hlib;
    [|discriminate Hdel]. cbn in Hdel.
  assert (repository.get (ILibraryFileJob.id job) true st = (Return (Some library), st))
    as Hget by (unfold repository.get, gets; by rewrite Hlib).
  classes Hclass.
  all: destruct (ILibraryFileJob.force job); step; rewrite Hget; step; by rewrite Hdel.
Qed.

Lemma handleAssetRefresh_import t :
  classify env assetPath = Some t →
  (libraries st !! libraryId)?.LibraryEntity.deletedAt = None →
  LibraryService.handleAssetRefresh env job st
    = (Return true,
       {| libraries := libraries st;
          assets := <[fresh (dom (assets st)) := importedAsset env job stats t]> (assets st);
          users := users st;
          jobs := jobs st ++ processingJobs (fresh (dom (assets st))) t |}).
Proof.
  intros Hclass Hlib. guards. rewrite Hnew, Hstat. step.
  assert (∃ l, repository.get (ILibraryFileJob.id job) true st = (Return l, st)
               ∧ l?.LibraryEntity.deletedAt = None)
    as (l & Hget & Hdel).
  { eexists. split; [reflexivity|]. by destruct (libraries st !! _). }
  classes Hclass.
  all: destruct (ILibraryFileJob.force job); step; rewrite Hget; step; rewrite Hdel;
    by queue_nf.
Qed.
End handleAssetRefresh.

(** ** The queue *)

Lemma for_of_push {A} (f : A → JobItem) (l : list A) (st : Store) :
  for_of l (λ x st, (Return (), set_jobs (λ q, q ++ [f x]) st)) st
    = (Return (), mkStore (libraries st) (assets st) (users st) (jobs st ++ (f <$> l))).
Proof.
  revert st. induction l as [|x l IH]; intros st.
  - destruct st. cbn. by rewrite app_nil_r.
  - cbn [for_of]. unfold mbind, Async_bind, bind. cbn.
    rewrite IH. cbn. by rewrite <- app_assoc.
Qed.

Lemma pushed_app (st : Store) libs ass us (l : list JobItem) :
  pushed st (mkStore libs ass us (jobs st ++ l)) = l.
Proof. unfold pushed. cbn. by rewrite drop_app_length. Qed.

(** ** The scan *)

(** The scan from the diff against the catalog onwards, for any list of
    crawled paths. *)
Ltac scan_tail :=
  let crawled := fresh "crawled" in
  let Hc := fresh "Hc" in
  intros crawled;
  unfold assetRepository.getByLibraryId, gets; step;
  rewrite for_of_push; step; unfold offlineJobs;
  destruct crawled as [|q crawled'] eqn:Hc;
  [cbn; unfold set_libraries, fileJobs; cbn;
   destruct (_ || _); cbn; by rewrite app_nil_r
  |rewrite <- Hc; replace (0 <? length crawled)%nat with true by (by rewrite Hc);
   unfold fileJobs;
   destruct (_ || _);
   [|unfold repository.getOnlineAssetPaths, gets; step];
   rewrite for_of_push; cbn; unfold set_libraries; cbn;
   by rewrite <- app_assoc].

Ltac scan_tail_nil :=
  unfold assetRepository.getByLibraryId, gets; step;
  rewrite for_of_push; step; unfold offlineJobs, fileJobs, set_libraries; cbn;
  destruct (_ || _); cbn; by rewrite app_nil_r.

Section handleQueueAssetRefresh.
Context (env : Env) (job : ILibraryRefreshJob.t) (st : Store).

Let id := ILibraryRefreshJob.id job.

Lemma handleQueueAssetRefresh_no_library :
  repository.get id false st = (Return None, st) →
  LibraryService.handleQueueAssetRefresh env job st = (Return false, st).
Proof. intros Hget. exec. subst id. by rewrite Hget. Qed.

Context (library : LibraryEntity.t)
        (Hget : repository.get id false st = (Return (Some library), st)).

Lemma handleQueueAssetRefresh_not_external :
  LibraryEntity.type library ≠ EXTERNAL →
  LibraryService.handleQueueAssetRefresh env job st = (Return false, st).
Proof.
  intros Htype. exec. subst id. rewrite Hget. step.
  by rewrite bool_decide_eq_false_2.
Qed.

Context (Htype : LibraryEntity.type library = EXTERNAL).

Lemma handleQueueAssetRefresh_no_externalPath :
  truthy_string ((users st !! LibraryEntity.ownerId library)?.UserEntity.externalPath) = None →
  LibraryService.handleQueueAssetRefresh env job st = (Return false, st).
Proof.
  intros Hext. exec. subst id. rewrite Hget. step.
  rewrite bool_decide_eq_true_2 by done. step. by rewrite Hext.
Qed.

Context (externalPath : string)
        (Hext : truthy_string
                  ((users st !! LibraryEntity.ownerId library)?.UserEntity.externalPath)
                = Some externalPath).

Lemma handleQueueAssetRefresh_SyntaxError :
  RegExp env ("^" +:+ path_normalize env externalPath) = None →
  crawl env (LibraryEntity.importPaths library) (LibraryEntity.exclusionPatterns library) ≠ [] →
  LibraryService.handleQueueAssetRefresh env job st
    = (Throw (SyntaxError ("^" +:+ path_normalize env externalPath)), st).
Proof.
  intros Hre Hcrawl. exec. subst id. rewrite Hget. step.
  rewrite bool_decide_eq_true_2 by done. step. rewrite Hext.
  destruct (crawl env _ _); [done|]. cbn. by rewrite Hre.
Qed.

Lemma handleQueueAssetRefresh_run crawled :
  match RegExp env ("^" +:+ path_normalize env externalPath) with
  | Some re => crawled = crawledAssetPaths env library re
  | None =>
      crawl env (LibraryEntity.importPaths library) (LibraryEntity.exclusionPatterns library) = []
      ∧ crawled = []
  end →
  LibraryService.handleQueueAssetRefresh env job st
    = (Return true,
       {| libraries :=
            alter (LibraryEntity.with_refreshedAt (Some (now env))) id (libraries st);
          assets := assets st;
          users := users st;
          jobs := jobs st ++ offlineJobs job crawled st ++ fileJobs env job library crawled st |}).
Proof.
  intros Hcrawled. exec. subst id. rewrite Hget. step.
  rewrite bool_decide_eq_true_2 by done. step. rewrite Hext.
  unfold crawledAssetPaths in Hcrawled.
  destruct (RegExp env _) as [re|].
  - subst crawled.
    destruct (path_normalize env <$> crawl env _ _) as [|p mapped].
    + cbn [List.filter]. step. scan_tail_nil.
    + step. generalize (List.filter re (p :: mapped)). scan_tail.
  - destruct Hcrawled as [-> ->]. cbn [fmap list_fmap]. step.
    scan_tail_nil.
Qed.
End handleQueueAssetRefresh.

(** ** Deleting a library *)

Lemma NoDup_assetIdsOf libraryId st : NoDup (assetIdsOf libraryId st).
Proof. apply NoDup_fst_map_to_list. Qed.

Lemma elem_of_assetIdsOf libraryId st id :
  id ∈ assetIdsOf libraryId st
  ↔ ∃ a, assets st !! id = Some a ∧ AssetEntity.libraryId a = libraryId.
Proof.
  unfold assetIdsOf. rewrite list_elem_of_fmap. split.
  - intros ([id' a] & -> & Hin). apply elem_of_map_to_list in Hin.
    apply map_lookup_filter_Some in Hin as [? ?]. eauto.
  - intros (a & Ha & Hlib). exists (id, a). split; [done|].
    apply elem_of_map_to_list, map_lookup_filter_Some. auto.
Qed.

Lemma NoDup_pendingDeletion st : NoDup (pendingDeletion st).
Proof. apply NoDup_fst_map_to_list. Qed.

Lemma elem_of_pendingDeletion st id :
  id ∈ pendingDeletion st
  ↔ ∃ l, libraries st !! id = Some l ∧ is_Some (LibraryEntity.deletedAt l).
Proof.
  unfold pendingDeletion. rewrite list_elem_of_fmap. split.
  - intros ([id' l] & -> & Hin). apply elem_of_map_to_list in Hin.
    apply map_lookup_filter_Some in Hin as [? ?]. eauto.
  - intros (l & Hl & Hdel). exists (id, l). split; [done|].
    apply elem_of_map_to_list, map_lookup_filter_Some. auto.
Qed.

Lemma handleQueueCleanup_run st :
  LibraryService.handleQueueCleanup st
    = (Return true,
       mkStore (libraries st) (assets st) (users st)
               (jobs st ++ (LIBRARY_DELETE <$> pendingDeletion st))).
Proof.
  exec. unfold repository.getAllDeleted, gets. step.
  rewrite for_of_push. step. unfold pendingDeletion.
  by rewrite <- list_fmap_compose.
Qed.

Lemma handleDeleteLibrary_absent job st :
  libraries st !! IEntityJob.id job = None →
  LibraryService.handleDeleteLibrary job st = (Return false, st).
Proof.
  intros Hlib. exec. unfold repository.get, gets. by rewrite Hlib.
Qed.

Lemma handleDeleteLibrary_run job st library :
  libraries st !! IEntityJob.id job = Some library →
  LibraryService.handleDeleteLibrary job st
    = (Return true,
       {| libraries :=
            if bool_decide (assetIdsOf (IEntityJob.id job) st = [])
            then base.delete (IEntityJob.id job) (libraries st)
            else libraries st;
          assets := assets st;
          users := users st;
          jobs := jobs st
                  ++ ((λ assetId, ASSET_DELETION assetId true)
                        <$> assetIdsOf (IEntityJob.id job) st) |}).
Proof.
  intros Hlib. exec. unfold repository.get, repository.getAssetIds, gets.
  rewrite Hlib. step. rewrite for_of_push. step.
  fold (assetIdsOf (IEntityJob.id job) st).
  destruct (assetIdsOf (IEntityJob.id job) st) as [|a l]; cbn;
    rewrite ?bool_decide_eq_true_2, ?bool_decide_eq_false_2 by done; done.
Qed.

(** ** What a per-path job does to the tables *)

(** Every way through [handleAssetRefresh], one goal each. *)
Ltac handle_cases env job st :=
  let p := constr:(path_normalize env (ILibraryFileJob.assetPath job)) in
  let Hg := fresh "Hg" in
  let Hstat := fresh "Hstat" in
  let Hfind := fresh "Hfind" in
  let Hneeds := fresh "Hneeds" in
  let Hclass := fresh "Hclass" in
  let Hdel := fresh "Hdel" in
  let stats := fresh "stats" in
  let id := fresh "id" in
  let a := fresh "a" in
  destruct (handleAssetRefresh_guards env job st) as [Hg|Hg];
  [assert (∃ x, assetRepository.getByLibraryIdAndOriginalPath
                  (ILibraryFileJob.id job) p st = (Return x, st))
     as [[[id a]|] Hfind] by (eexists; reflexivity);
   (destruct (stat env p) as [stats|] eqn:Hstat;
    [|first [erewrite handleAssetRefresh_stat_failure_known by eassumption
            |erewrite handleAssetRefresh_stat_failure_unknown by eassumption]]);
   [destruct (needsRefresh (ILibraryFileJob.force job) stats a) eqn:Hneeds;
    [destruct (classify env p) eqn:Hclass;
     [erewrite handleAssetRefresh_refresh by eassumption
     |erewrite handleAssetRefresh_refresh_unsupported by eassumption]
    |erewrite handleAssetRefresh_up_to_date by eassumption]
   |
   |destruct (classify env p) eqn:Hclass;
    [destruct ((libraries st !! ILibraryFileJob.id job)?.LibraryEntity.deletedAt) eqn:Hdel;
     [erewrite handleAssetRefresh_import_deleted by eassumption
     |erewrite handleAssetRefresh_import by eassumption]
    |erewrite handleAssetRefresh_import_unsupported by eassumption]
   |]
  |rewrite (proj2 Hg)].

Lemma handleAssetRefresh_frame env job st :
  libraries (LibraryService.handleAssetRefresh env job st).2 = libraries st
  ∧ users (LibraryService.handleAssetRefresh env job st).2 = users st.
Proof.
  handle_cases env job st; cbn; try done.
  by destruct (AssetEntity.isOffline _).
Qed.

Lemma elem_of_onlineAssetPaths libraryId st path :
  path ∈ onlineAssetPaths libraryId st ↔ online libraryId path (assets st).
Proof.
  unfold onlineAssetPaths, online. rewrite list_elem_of_fmap. split.
  - intros (a & -> & Hin). apply list_elem_of_fmap in Hin as ([id a'] & -> & Hin).
    apply elem_of_map_to_list, map_lookup_filter_Some in Hin as (? & ? & ?).
    exists id, a'. auto.
  - intros (id & a & Ha & Hlib & Hpath & Hon). exists a. split; [done|].
    apply list_elem_of_fmap. exists (id, a). split; [done|].
    apply elem_of_map_to_list, map_lookup_filter_Some. auto.
Qed.

Lemma online_alter f id libraryId path (catalog : gmap string AssetEntity.t) :
  (∀ a, AssetEntity.libraryId (f a) = AssetEntity.libraryId a
        ∧ AssetEntity.originalPath (f a) = AssetEntity.originalPath a
        ∧ (AssetEntity.isOffline a = false → AssetEntity.isOffline (f a) = false)) →
  online libraryId path catalog →
  online libraryId path (alter f id catalog).
Proof.
  intros Hf (id0 & a & Ha & Hlib & Hpath & Hon).
  destruct (Hf a) as (Hl & Hp & Ho).
  destruct (decide (id = id0)) as [->|Hne].
  - exists id0, (f a). rewrite lookup_alter_eq, Ha. cbn.
    repeat split; [congruence..|auto].
  - exists id0, a. by rewrite lookup_alter_ne.
Qed.

Lemma online_insert_fresh a libraryId path (catalog : gmap string AssetEntity.t) :
  online libraryId path catalog →
  online libraryId path (<[fresh (dom catalog) := a]> catalog).
Proof.
  intros (id0 & a0 & Ha & Hrest). exists id0, a0. split; [|done].
  rewrite lookup_insert_ne; [done|].
  intros <-. pose proof (is_fresh (dom catalog)) as Hfresh.
  apply Hfresh, elem_of_dom. eauto.
Qed.

Lemma with_isOffline_false_keeps a :
  AssetEntity.libraryId (AssetEntity.with_isOffline false a) = AssetEntity.libraryId a
  ∧ AssetEntity.originalPath (AssetEntity.with_isOffline false a) = AssetEntity.originalPath a
  ∧ (AssetEntity.isOffline a = false
     → AssetEntity.isOffline (AssetEntity.with_isOffline false a) = false).
Proof. done. Qed.

Lemma with_fileDates_keeps c m a :
  AssetEntity.libraryId (AssetEntity.with_fileDates c m a) = AssetEntity.libraryId a
  ∧ AssetEntity.originalPath (AssetEntity.with_fileDates c m a) = AssetEntity.originalPath a
  ∧ (AssetEntity.isOffline a = false
     → AssetEntity.isOffline (AssetEntity.with_fileDates c m a) = false).
Proof. done. Qed.

(** A per-path job whose file can be read takes no asset offline. *)
Lemma handleAssetRefresh_keeps_online env job st libraryId path :
  stat env (path_normalize env (ILibraryFileJob.assetPath job)) ≠ None →
  online libraryId path (assets st) →
  online libraryId path (assets (LibraryService.handleAssetRefresh env job st).2).
Proof.
  intros Hreadable Hon.
  handle_cases env job st; cbn; try done.
  - apply online_alter; [apply with_fileDates_keeps|].
    destruct (AssetEntity.isOffline _); [|done].
    by apply online_alter; [apply with_isOffline_false_keeps|].
  - destruct (AssetEntity.isOffline _); [|done]. cbn.
    by apply online_alter; [apply with_isOffline_false_keeps|].
  - by apply online_insert_fresh.
Qed.

(** A per-path job that gets past the guards, reads its file, knows its
    type and finds its library alive leaves the path online. *)
Lemma handleAssetRefresh_makes_online env job st :
  passesGuards env job st →
  stat env (path_normalize env (ILibraryFileJob.assetPath job)) ≠ None →
  classify env (path_normalize env (ILibraryFileJob.assetPath job)) ≠ None →
  (libraries st !! ILibraryFileJob.id job)?.LibraryEntity.deletedAt = None →
  online (ILibraryFileJob.id job) (path_normalize env (ILibraryFileJob.assetPath job))
         (assets (LibraryService.handleAssetRefresh env job st).2).
Proof.
  intros Hguards Hreadable Hknown Halive.
  handle_cases env job st; cbn; try congruence;
    try (apply getByLibraryIdAndOriginalPath_Some in Hfind as (Ha & Hlib & Hpath)).
  - exists id.
    destruct (AssetEntity.isOffline a) eqn:Hoff; eexists;
      rewrite lookup_alter_eq, ?lookup_alter_eq, Ha; by repeat split.
  - exists id, a. repeat split; try done.
    unfold needsRefresh in Hneeds. by apply orb_false_iff in Hneeds as [_ ?].
  - eexists _, _. rewrite lookup_insert_eq. by repeat split.
  - by destruct Hg.
Qed.

(** At-least-once delivery of an import: the job that created the asset,
    delivered again unforced, finds the asset it created and leaves the
    store alone. *)
Lemma redelivered_import_is_noop env job st stats t :
  let assetPath := path_normalize env (ILibraryFileJob.assetPath job) in
  let imported := (LibraryService.handleAssetRefresh env job st).2 in
  passesGuards env job st →
  assetRepository.getByLibraryIdAndOriginalPath (ILibraryFileJob.id job) assetPath st
    = (Return None, st) →
  stat env assetPath = Some stats →
  classify env assetPath = Some t →
  (libraries st !! ILibraryFileJob.id job)?.LibraryEntity.deletedAt = None →
  ILibraryFileJob.force job = false →
  LibraryService.handleAssetRefresh env job imported = (Return true, imported).
Proof.
  intros assetPath imported Hguards Hnew Hstat Hclass Halive Hforce.
  subst imported assetPath.
  rewrite (handleAssetRefresh_import env job st Hguards stats Hstat Hnew t Hclass Halive).
  cbn [snd]. set (imported := mkStore _ _ _ _).
  assert (passesGuards env job imported) as Hguards' by exact Hguards.
  apply (handleAssetRefresh_up_to_date env job imported Hguards' stats Hstat
           (fresh (dom (assets st))) (importedAsset env job stats t)).
  - unfold assetRepository.getByLibraryIdAndOriginalPath, gets in *.
    injection Hnew as Hnew. apply head_None, map_to_list_empty_iff in Hnew.
    f_equal. cbn [assets imported].
    rewrite map_filter_insert_True by done. rewrite Hnew.
    by rewrite insert_empty, map_to_list_singleton.
  - unfold needsRefresh. rewrite Hforce. cbn. by rewrite Z.eqb_refl.
Qed.

(** ** What an offline mark does to the tables *)

Lemma handleOfflineAsset_run job st :
  LibraryService.handleOfflineAsset job st
    = (Return true,
       match (assetRepository.getByLibraryIdAndOriginalPath
                (IOfflineLibraryFileJob.id job) (IOfflineLibraryFileJob.assetPath job) st).1 with
       | Return (Some (id, _)) =>
           set_assets (alter (AssetEntity.with_isOffline true) id) st
       | _ => st
       end).
Proof.
  exec. unfold assetRepository.getByLibraryIdAndOriginalPath, gets. step.
  by destruct (head _) as [[? ?]|].
Qed.

Lemma handleOfflineAsset_frame job st :
  libraries (LibraryService.handleOfflineAsset job st).2 = libraries st
  ∧ users (LibraryService.handleOfflineAsset job st).2 = users st.
Proof.
  rewrite handleOfflineAsset_run. cbn.
  by destruct (head _) as [[? ?]|].
Qed.

Lemma handleOfflineAsset_keeps_online job st libraryId path :
  (IOfflineLibraryFileJob.id job, IOfflineLibraryFileJob.assetPath job) ≠ (libraryId, path) →
  online libraryId path (assets st) →
  online libraryId path (assets (LibraryService.handleOfflineAsset job st).2).
Proof.
  intros Hother (id0 & a0 & Ha0 & Hlib0 & Hpath0 & Hon).
  rewrite handleOfflineAsset_run. cbn.
  destruct (head _) as [[id a]|] eqn:Hhead; [|by exists id0, a0].
  assert (assetRepository.getByLibraryIdAndOriginalPath
            (IOfflineLibraryFileJob.id job) (IOfflineLibraryFileJob.assetPath job) st
          = (Return (Some (id, a)), st)) as Hfind
    by (unfold assetRepository.getByLibraryIdAndOriginalPath, gets; by rewrite Hhead).
  apply getByLibraryIdAndOriginalPath_Some in Hfind as (Ha & Hlib & Hpath).
  exists id0, a0. cbn. rewrite lookup_alter_ne; [done|].
  intros ->. apply Hother. congruence.
Qed.

(** ** A scan, its jobs, and the scan after *)

Lemma handleQueueAssetRefresh_scans env job st library crawled :
  scans env job st library crawled →
  LibraryService.handleQueueAssetRefresh env job st
    = (Return true,
       {| libraries :=
            alter (LibraryEntity.with_refreshedAt (Some (now env)))
                  (ILibraryRefreshJob.id job) (libraries st);
          assets := assets st;
          users := users st;
          jobs := jobs st ++ offlineJobs job crawled st
                          ++ fileJobs env job library crawled st |}).
Proof.
  intros (Hget & Htype & ext & Hext & Hcrawled).
  by eapply handleQueueAssetRefresh_run.
Qed.

(** A scan either gets past its guards or leaves the store as it is. *)
Lemma handleQueueAssetRefresh_cases env job st :
  (∃ library crawled, scans env job st library crawled)
  ∨ ((∀ library crawled, ¬ scans env job st library crawled)
     ∧ (LibraryService.handleQueueAssetRefresh env job st).2 = st
     ∧ (LibraryService.handleQueueAssetRefresh env job st).1 ≠ Return true).
Proof.
  assert (∃ l, repository.get (ILibraryRefreshJob.id job) false st = (Return l, st))
    as [[library|] Hget] by (eexists; reflexivity).
  2: { right. rewrite handleQueueAssetRefresh_no_library by done.
       split; [|done]. intros ? ? (? & _). congruence. }
  destruct (decide (LibraryEntity.type library = EXTERNAL)) as [Htype|Htype].
  2: { right. erewrite handleQueueAssetRefresh_not_external by done.
       split; [|done]. intros ? ? (? & ? & _). congruence. }
  destruct (truthy_string
              ((users st !! LibraryEntity.ownerId library)?.UserEntity.externalPath))
    as [ext|] eqn:Hext.
  2: { right. erewrite handleQueueAssetRefresh_no_externalPath by done.
       split; [|done]. intros ? ? (? & ? & ? & ? & _). congruence. }
  destruct (RegExp env ("^" +:+ path_normalize env ext)) as [re|] eqn:Hre.
  { left. exists library, (crawledAssetPaths env library re).
    split; [done|]. split; [done|]. exists ext. by rewrite Hre. }
  destruct (crawl env (LibraryEntity.importPaths library)
              (LibraryEntity.exclusionPatterns library)) as [|x l] eqn:Hcrawl.
  { left. exists library, []. split; [done|]. split; [done|].
    exists ext. by rewrite Hre. }
  right. erewrite handleQueueAssetRefresh_SyntaxError; [|done..|by rewrite Hcrawl].
  split; [|done].
  intros library' crawled (Hget' & _ & ext' & Hext' & Hcr).
  assert (library' = library) as -> by congruence.
  assert (ext' = ext) as -> by congruence.
  rewrite Hre in Hcr. destruct Hcr as [? _]. congruence.
Qed.

Lemma repository_get_alive id st library :
  repository.get id false st = (Return (Some library), st) →
  libraries st !! id = Some library ∧ LibraryEntity.deletedAt library = None.
Proof.
  unfold repository.get, gets. intros [= Hget].
  destruct (libraries st !! id) as [l|]; [|done].
  destruct (LibraryEntity.deletedAt l) eqn:Hdel; [done|].
  by injection Hget as ->.
Qed.

Lemma elem_of_offlineJobs job crawled st item :
  item ∈ offlineJobs job crawled st →
  ∃ path, (path ∉ crawled)
    ∧ item = LIBRARY_MARK_ASSET_OFFLINE
               (IOfflineLibraryFileJob.mk (ILibraryRefreshJob.id job) path).
Proof.
  unfold offlineJobs. rewrite list_elem_of_fmap.
  intros (asset & -> & Hin). apply list_elem_of_filter in Hin as [Hout _].
  eauto.
Qed.

Lemma elem_of_fileJobs env job library crawled st item :
  item ∈ fileJobs env job library crawled st →
  ∃ path, path ∈ crawled
    ∧ item = LIBRARY_SCAN_ASSET
               (ILibraryFileJob.mk (ILibraryRefreshJob.id job) (path_normalize env path)
                  (LibraryEntity.ownerId library) (ILibraryRefreshJob.refreshAllFiles job)).
Proof.
  unfold fileJobs. rewrite list_elem_of_fmap.
  intros (path & -> & Hin). exists path. split; [|done].
  destruct (_ || _); [done|]. by apply list_elem_of_filter in Hin as [_ ?].
Qed.

Lemma runJob_frame env st item :
  libraries (runJob env st item) = libraries st
  ∧ users (runJob env st item) = users st.
Proof.
  destruct item; cbn; try done.
  - apply handleAssetRefresh_frame.
  - apply handleOfflineAsset_frame.
Qed.

Section settle.
Context (env : Env) (job : ILibraryRefreshJob.t) (st : Store).
Context (library : LibraryEntity.t) (crawled : list string).
Context (Hscans : scans env job st library crawled).
Context (Hidempotent : ∀ p, path_normalize env (path_normalize env p) = path_normalize env p).
Context (Hmedia : ∀ roots exclusions p, p ∈ crawl env roots exclusions →
           stat env (path_normalize env p) ≠ None
           ∧ classify env (path_normalize env p) ≠ None).

Let id := ILibraryRefreshJob.id job.

Let fileJob (path : string) : JobItem :=
  LIBRARY_SCAN_ASSET
    (ILibraryFileJob.mk id (path_normalize env path)
       (LibraryEntity.ownerId library) (ILibraryRefreshJob.refreshAllFiles job)).

Lemma crawled_path path :
  path ∈ crawled →
  path_normalize env path = path
  ∧ stat env path ≠ None
  ∧ classify env path ≠ None
  ∧ ∃ externalPath re,
      truthy_string ((users st !! LibraryEntity.ownerId library)?.UserEntity.externalPath)
        = Some externalPath
      ∧ RegExp env ("^" +:+ path_normalize env externalPath) = Some re
      ∧ re path = true.
Proof.
  destruct Hscans as (_ & _ & ext & Hext & Hcrawled). intros Hin.
  destruct (RegExp env _) as [re|] eqn:Hre;
    [|destruct Hcrawled as [_ ->]; by apply elem_of_nil in Hin].
  subst crawled. unfold crawledAssetPaths in Hin.
  apply list_elem_of_In, filter_In in Hin as [Hin Hmatch].
  apply list_elem_of_In, list_elem_of_fmap in Hin as (x & -> & Hx).
  destruct (Hmedia _ _ _ Hx) as [? ?].
  rewrite Hidempotent. repeat split; try done. by exists ext, re.
Qed.

(** The tables a delivered job runs against: the library and user tables
    are those the first scan left. *)
Let framed (s : Store) : Prop :=
  libraries s = alter (LibraryEntity.with_refreshedAt (Some (now env))) id (libraries st)
  ∧ users s = users st.

Lemma settle_path path delivered s :
  path ∈ crawled →
  framed s →
  (∀ item, item ∈ delivered →
     item ∈ offlineJobs job crawled st ++ fileJobs env job library crawled st) →
  online id path (assets s) ∨ fileJob path ∈ delivered →
  online id path (assets (runJobs env delivered s)).
Proof.
  intros Hpath. revert s.
  induction delivered as [|item rest IH]; intros s Hframed Hsub Hcase.
  { destruct Hcase as [?|Hin]; [done|by apply elem_of_nil in Hin]. }
  cbn. apply IH.
  - destruct Hframed as [Hl Hu]. unfold framed.
    destruct (runJob_frame env s item) as [-> ->]. done.
  - intros item' Hin. apply Hsub. by right.
  - destruct (crawled_path path Hpath) as (Hnorm & Hstat & Hclass & ext & re & Hext & Hre & Hmatch).
    assert (item ∈ offlineJobs job crawled st ++ fileJobs env job library crawled st)
      as Hitem by (apply Hsub; left).
    apply elem_of_app in Hitem as [Hitem|Hitem].
    + (* an offline mark, for another path *)
      apply elem_of_offlineJobs in Hitem as (q & Hq & ->).
      destruct Hcase as [Hon|Hin].
      * left. cbn. apply handleOfflineAsset_keeps_online; [|done].
        cbn. intros [= ->]. done.
      * right. apply elem_of_cons in Hin as [Hin|Hin]; [discriminate Hin|done].
    + (* a per-path job, for a crawled path *)
      apply elem_of_fileJobs in Hitem as (q & Hq & ->).
      destruct (crawled_path q Hq) as (Hqnorm & Hqstat & Hqclass & _).
      destruct Hcase as [Hon|Hin].
      * left. cbn. apply handleAssetRefresh_keeps_online; [|done].
        cbn. by rewrite !Hqnorm.
      * apply elem_of_cons in Hin as [Hin|Hin]; [|by right].
        left. unfold fileJob in Hin. injection Hin as Hin.
        rewrite Hnorm, Hqnorm in Hin. subst q. cbn.
        set (data := ILibraryFileJob.mk _ _ _ _).
        assert (path_normalize env (ILibraryFileJob.assetPath data) = path) as Hdata
          by (cbn; by rewrite !Hnorm).
        rewrite <- Hdata at 1. destruct Hframed as [Hl Hu].
        apply handleAssetRefresh_makes_online.
        -- exists ext, re. cbn. rewrite Hu, !Hnorm. done.
        -- by rewrite Hdata.
        -- by rewrite Hdata.
        -- cbn. rewrite Hl. unfold id. rewrite lookup_alter_eq.
           destruct Hscans as (Hget & _).
           apply repository_get_alive in Hget as [Hlookup Halive].
           by rewrite Hlookup.
Qed.
End settle.

Lemma runJobs_frame env items st :
  libraries (runJobs env items st) = libraries st
  ∧ users (runJobs env items st) = users st.
Proof.
  revert st. induction items as [|item rest IH]; intros st; [done|].
  change (runJobs env (item :: rest) st) with (runJobs env rest (runJob env st item)).
  destruct (IH (runJob env st item)) as [-> ->]. apply runJob_frame.
Qed.

Lemma pushed_nothing st : pushed st st = [].
Proof. unfold pushed. apply drop_all. Qed.

(** After the jobs of a scan with both flags off were delivered, every
    crawled path has its online asset, so the next scan has no candidate. *)
Lemma rescan_pushes_no_file_job env job st delivered :
  ILibraryRefreshJob.refreshModifiedFiles job = false →
  ILibraryRefreshJob.refreshAllFiles job = false →
  (∀ p, path_normalize env (path_normalize env p) = path_normalize env p) →
  (∀ roots exclusions p, p ∈ crawl env roots exclusions →
     stat env (path_normalize env p) ≠ None
     ∧ classify env (path_normalize env p) ≠ None) →
  let first := (LibraryService.handleQueueAssetRefresh env job st).2 in
  (∀ item, item ∈ pushed st first → item ∈ delivered) →
  (∀ item, item ∈ delivered → item ∈ pushed st first) →
  let settled := runJobs env delivered first in
  ∀ data,
    LIBRARY_SCAN_ASSET data
      ∉ pushed settled (LibraryService.handleQueueAssetRefresh env job settled).2.
Proof.
  intros Hmodified Hall Hidempotent Hmedia first Hevery Honly settled data.
  destruct (handleQueueAssetRefresh_cases env job st)
    as [(library & crawled & Hscans)|(_ & Hst & _)].
  2: { (* the first scan stopped at a guard: nothing was pushed *)
       subst first settled. rewrite Hst in *. rewrite pushed_nothing in Honly.
       destruct delivered as [|item rest];
         [|exfalso; eapply not_elem_of_nil, (Honly item); by left].
       cbn. rewrite Hst, pushed_nothing. apply not_elem_of_nil. }
  pose proof (handleQueueAssetRefresh_scans _ _ _ _ _ Hscans) as Hfirst.
  subst settled first. rewrite Hfirst in *. cbn [snd] in *.
  rewrite pushed_app in Hevery, Honly.
  set (first := mkStore _ _ _ _) in *.
  set (settled := runJobs env delivered first).
  destruct (runJobs_frame env delivered first) as [Hlibs Husers].
  fold settled in Hlibs, Husers. cbn [libraries users first] in Hlibs, Husers.
  destruct Hscans as (Hget & Htype & ext & Hext & Hcrawled).
  pose proof (repository_get_alive _ _ _ Hget) as [Hlookup Halive].
  set (library' := LibraryEntity.with_refreshedAt (Some (now env)) library).
  assert (scans env job settled library' crawled) as Hagain.
  { split; [|split; [done|]].
    - unfold repository.get, gets. rewrite Hlibs, lookup_alter_eq, Hlookup. cbn.
      by rewrite Halive.
    - exists ext. by rewrite Husers. }
  rewrite (handleQueueAssetRefresh_scans _ _ _ _ _ Hagain). cbn [snd].
  rewrite pushed_app. intros Hin.
  apply elem_of_app in Hin as [Hin|Hin].
  { apply elem_of_offlineJobs in Hin as (? & _ & ?). discriminate. }
  unfold fileJobs in Hin. rewrite Hall, Hmodified in Hin. cbn [orb] in Hin.
  apply list_elem_of_fmap in Hin as (path & _ & Hin).
  apply list_elem_of_filter in Hin as [Hnew Hpath].
  apply Hnew, elem_of_onlineAssetPaths.
  apply (settle_path env job st library crawled); try done.
  - split; [done|split; [done|by exists ext]].
  - destruct (decide (path ∈ onlineAssetPaths (ILibraryRefreshJob.id job) st)) as [Hon|Hoff].
    + left. by apply elem_of_onlineAssetPaths.
    + right. apply Hevery, elem_of_app. right.
      unfold fileJobs. rewrite Hall, Hmodified. cbn [orb].
      apply list_elem_of_fmap. exists path. split; [done|].
      by apply list_elem_of_filter.
Qed.

(** * The claims *)

(** ** Stat failure *)

(** C3.  Stat-failure handling in [handleAssetRefresh] (processPath), for a
    job that got past the guards to the [stat] call on the normalised path:
    when the stat fails and an asset exists at (libraryId, path), that asset
    is saved with [isOffline = true] and the handler returns [true]: the
    record under the asset's id has the flag set and every other field as it
    was, no other asset changes, and libraries, users and queue are what they
    were; when the stat fails and no asset exists, the handler throws the
    recoverable "Can't access file" error and the store (catalog and queue)
    is exactly what it was. *)
Theorem stat_failure_marks_offline_or_fails
    (env : Env) (job : ILibraryFileJob.t) (st : Store) :
  let assetPath := path_normalize env (ILibraryFileJob.assetPath job) in
  let found :=
    assetRepository.getByLibraryIdAndOriginalPath (ILibraryFileJob.id job) assetPath st in
  let result := LibraryService.handleAssetRefresh env job st in
  passesGuards env job st →
  stat env assetPath = None →
  (∀ id a,
     found = (Return (Some (id, a)), st) →
     result = (Return true, set_assets (alter (AssetEntity.with_isOffline true) id) st)
     ∧ assets result.2 !! id = Some (AssetEntity.with_isOffline true a)
     ∧ (∃ a', assets result.2 !! id = Some a'
              ∧ AssetEntity.isOffline a' = true
              ∧ a' = {| AssetEntity.ownerId := AssetEntity.ownerId a;
                        AssetEntity.libraryId := AssetEntity.libraryId a;
                        AssetEntity.checksum := AssetEntity.checksum a;
                        AssetEntity.originalPath := AssetEntity.originalPath a;
                        AssetEntity.deviceAssetId := AssetEntity.deviceAssetId a;
                        AssetEntity.deviceId := AssetEntity.deviceId a;
                        AssetEntity.fileCreatedAt := AssetEntity.fileCreatedAt a;
                        AssetEntity.fileModifiedAt := AssetEntity.fileModifiedAt a;
                        AssetEntity.localDateTime := AssetEntity.localDateTime a;
                        AssetEntity.type := AssetEntity.type a;
                        AssetEntity.originalFileName := AssetEntity.originalFileName a;
                        AssetEntity.sidecarPath := AssetEntity.sidecarPath a;
                        AssetEntity.isReadOnly := AssetEntity.isReadOnly a;
                        AssetEntity.isExternal := AssetEntity.isExternal a;
                        AssetEntity.isOffline := true |})
     ∧ (∀ other, other ≠ id → assets result.2 !! other = assets st !! other)
     ∧ libraries result.2 = libraries st
     ∧ users result.2 = users st
     ∧ jobs result.2 = jobs st)
  ∧ (found = (Return None, st) →
     result = (Throw (BadRequestException "Can't access file"), st)).
Proof.
  intros assetPath found result Hguards Hstat. subst result. split.
  - intros id a Hfound.
    rewrite (handleAssetRefresh_stat_failure_known env job st Hguards id a Hstat Hfound).
    split; [done|]. cbn [snd set_assets assets libraries users jobs].
    apply getByLibraryIdAndOriginalPath_Some in Hfound as (Ha & _).
    assert (alter (AssetEntity.with_isOffline true) id (assets st) !! id
            = Some (AssetEntity.with_isOffline true a)) as Hmarked
      by (by rewrite lookup_alter_eq, Ha).
    split; [done|]. split.
    + exists (AssetEntity.with_isOffline true a). by split.
    + split; [|done]. intros other Hother. by rewrite lookup_alter_ne.
  - intros Hfound.
    apply (handleAssetRefresh_stat_failure_unknown env job st Hguards Hstat Hfound).
Qed.

(** ** Recovery of an offline asset *)

(** C4 (as amended).  Offline recovery in [handleAssetRefresh], for a job
    that got past the guards: when the asset found at (libraryId, path) is
    flagged offline and the stat succeeds, the store the handler leaves has
    the asset with [isOffline = false], whatever the force flag and whatever
    the stored modification time (no hypothesis mentions either: the
    comparison of times plays no part).  When the path has a media type the
    handler then returns [true], the record has both file dates equal to the
    stat time and every other field as it was, and the queue has grown by
    exactly one metadata-extraction job for the asset (followed by one
    video-conversion job when the type is VIDEO).  When the path has no
    media type the handler throws the unsupported-file-type error instead:
    the flag is cleared, the dates are left as they were and no job is
    pushed. *)
Theorem offline_asset_recovers
    (env : Env) (job : ILibraryFileJob.t) (st : Store)
    (id : string) (a : AssetEntity.t) (stats : Stats.t) :
  let assetPath := path_normalize env (ILibraryFileJob.assetPath job) in
  let result := LibraryService.handleAssetRefresh env job st in
  let online (created modified : Z) : AssetEntity.t :=
    {| AssetEntity.ownerId := AssetEntity.ownerId a;
       AssetEntity.libraryId := AssetEntity.libraryId a;
       AssetEntity.checksum := AssetEntity.checksum a;
       AssetEntity.originalPath := AssetEntity.originalPath a;
       AssetEntity.deviceAssetId := AssetEntity.deviceAssetId a;
       AssetEntity.deviceId := AssetEntity.deviceId a;
       AssetEntity.fileCreatedAt := created;
       AssetEntity.fileModifiedAt := modified;
       AssetEntity.localDateTime := AssetEntity.localDateTime a;
       AssetEntity.type := AssetEntity.type a;
       AssetEntity.originalFileName := AssetEntity.originalFileName a;
       AssetEntity.sidecarPath := AssetEntity.sidecarPath a;
       AssetEntity.isReadOnly := AssetEntity.isReadOnly a;
       AssetEntity.isExternal := AssetEntity.isExternal a;
       AssetEntity.isOffline := false |} in
  passesGuards env job st →
  assetRepository.getByLibraryIdAndOriginalPath (ILibraryFileJob.id job) assetPath st
    = (Return (Some (id, a)), st) →
  AssetEntity.isOffline a = true →
  stat env assetPath = Some stats →
  (∃ a', assets result.2 !! id = Some a'
         ∧ AssetEntity.isOffline a' = false)
  ∧ (∀ t, classify env assetPath = Some t →
       result
         = (Return true,
            {| libraries := libraries st;
               assets :=
                 alter (AssetEntity.with_fileDates (Stats.mtime stats) (Stats.mtime stats)) id
                   (alter (AssetEntity.with_isOffline false) id (assets st));
               users := users st;
               jobs := jobs st
                       ++ METADATA_EXTRACTION id "upload"
                          :: match t with
                             | VIDEO => [VIDEO_CONVERSION id]
                             | IMAGE => []
                             end |})
       ∧ assets result.2 !! id
         = Some (AssetEntity.with_fileDates (Stats.mtime stats) (Stats.mtime stats)
                   (AssetEntity.with_isOffline false a))
       ∧ (∃ a', assets result.2 !! id = Some a'
                ∧ AssetEntity.isOffline a' = false
                ∧ AssetEntity.fileCreatedAt a' = Stats.mtime stats
                ∧ AssetEntity.fileModifiedAt a' = Stats.mtime stats
                ∧ a' = online (Stats.mtime stats) (Stats.mtime stats))
       ∧ (∀ other, other ≠ id → assets result.2 !! other = assets st !! other)
       ∧ pushed st result.2
         = METADATA_EXTRACTION id "upload"
           :: match t with
              | VIDEO => [VIDEO_CONVERSION id]
              | IMAGE => []
              end)
  ∧ (classify env assetPath = None →
     result.1 = Throw (BadRequestException ("Unsupported file type " +:+ assetPath))
     ∧ assets result.2 !! id
       = Some (online (AssetEntity.fileCreatedAt a) (AssetEntity.fileModifiedAt a))
     ∧ pushed st result.2 = []).
Proof.
  intros assetPath result online Hguards Hfound Hoffline Hstat. subst result online.
  assert (needsRefresh (ILibraryFileJob.force job) stats a = true) as Hneeds.
  { unfold needsRefresh. rewrite Hoffline. by rewrite !orb_true_r. }
  pose proof (getByLibraryIdAndOriginalPath_Some _ _ _ _ _ Hfound) as (Ha & _).
  assert (∀ t, classify env assetPath = Some t →
            LibraryService.handleAssetRefresh env job st
            = (Return true,
               {| libraries := libraries st;
                  assets :=
                    alter (AssetEntity.with_fileDates (Stats.mtime stats) (Stats.mtime stats)) id
                      (alter (AssetEntity.with_isOffline false) id (assets st));
                  users := users st;
                  jobs := jobs st
                          ++ METADATA_EXTRACTION id "upload"
                             :: match t with
                                | VIDEO => [VIDEO_CONVERSION id]
                                | IMAGE => []
                                end |})) as Hrefresh.
  { intros t Hclass.
    rewrite (handleAssetRefresh_refresh env job st Hguards stats Hstat id a t
               Hfound Hneeds Hclass).
    rewrite Hoffline. by destruct t. }
  assert (classify env assetPath = None →
            LibraryService.handleAssetRefresh env job st
            = (Throw (BadRequestException ("Unsupported file type " +:+ assetPath)),
               set_assets (alter (AssetEntity.with_isOffline false) id) st)) as Hthrows.
  { intros Hclass.
    rewrite (handleAssetRefresh_refresh_unsupported env job st Hguards stats Hstat id a
               Hfound Hneeds Hclass).
    by rewrite Hoffline. }
  split; [|split].
  - destruct (classify env assetPath) as [t|] eqn:Hclass.
    + rewrite (Hrefresh t eq_refl). cbn.
      rewrite !lookup_alter_eq, Ha. cbn. eauto.
    + rewrite (Hthrows eq_refl). cbn. rewrite lookup_alter_eq, Ha. cbn. eauto.
  - intros t Hclass. rewrite (Hrefresh t Hclass). split; [done|].
    cbn [snd assets]. rewrite pushed_app.
    assert (alter (AssetEntity.with_fileDates (Stats.mtime stats) (Stats.mtime stats)) id
              (alter (AssetEntity.with_isOffline false) id (assets st)) !! id
            = Some (AssetEntity.with_fileDates (Stats.mtime stats) (Stats.mtime stats)
                      (AssetEntity.with_isOffline false a))) as Hafter
      by (by rewrite !lookup_alter_eq, Ha).
    split; [done|]. split; [|split; [|done]].
    + eexists. split; [exact Hafter|]. done.
    + intros other Hother. by rewrite !lookup_alter_ne.
  - intros Hclass. rewrite (Hthrows Hclass). split; [done|].
    cbn [snd set_assets assets]. split; [by rewrite lookup_alter_eq, Ha|].
    unfold pushed. cbn. apply drop_all.
Qed.

(** ** The error path that keeps its write *)

(** C10.  For a job that got past the guards, an existing asset flagged
    offline whose stat succeeds but whose path is neither image nor video:
    the handler saves [isOffline = false] on the asset and then throws the
    unsupported-file-type error; the write stays, so the store the failed
    call leaves differs from the one it started in. *)
Theorem unsupported_type_keeps_online_mark
    (env : Env) (job : ILibraryFileJob.t) (st : Store)
    (id : string) (a : AssetEntity.t) (stats : Stats.t) :
  let assetPath := path_normalize env (ILibraryFileJob.assetPath job) in
  passesGuards env job st →
  assetRepository.getByLibraryIdAndOriginalPath (ILibraryFileJob.id job) assetPath st
    = (Return (Some (id, a)), st) →
  AssetEntity.isOffline a = true →
  stat env assetPath = Some stats →
  isImage env assetPath = false →
  isVideo env assetPath = false →
  LibraryService.handleAssetRefresh env job st
    = (Throw (BadRequestException ("Unsupported file type " +:+ assetPath)),
       set_assets (alter (AssetEntity.with_isOffline false) id) st)
  ∧ assets st !! id = Some a
  ∧ assets (LibraryService.handleAssetRefresh env job st).2 !! id
    = Some (AssetEntity.with_isOffline false a)
  ∧ (LibraryService.handleAssetRefresh env job st).2 ≠ st.
Proof.
  intros assetPath Hguards Hfound Hoffline Hstat Himage Hvideo.
  assert (needsRefresh (ILibraryFileJob.force job) stats a = true) as Hneeds.
  { unfold needsRefresh. rewrite Hoffline. by rewrite !orb_true_r. }
  assert (classify env assetPath = None) as Hclass
    by (unfold classify; by rewrite Himage, Hvideo).
  pose proof (getByLibraryIdAndOriginalPath_Some _ _ _ _ _ Hfound) as (Ha & _).
  rewrite (handleAssetRefresh_refresh_unsupported env job st Hguards stats Hstat id a
             Hfound Hneeds Hclass).
  rewrite Hoffline. cbn.
  assert (alter (AssetEntity.with_isOffline false) id (assets st) !! id
          = Some (AssetEntity.with_isOffline false a)) as Hafter
    by (by rewrite lookup_alter_eq, Ha).
  repeat split; try done.
  intros Hsame. apply (f_equal assets) in Hsame. cbn in Hsame.
  rewrite Hsame, Ha in Hafter. injection Hafter as Hafter.
  apply (f_equal AssetEntity.isOffline) in Hafter. cbn in Hafter. congruence.
Qed.

(** ** Import *)

(** C7 (as amended).  Import in [handleAssetRefresh], for a job that got
    past the guards, whose file was read, and for whose path the catalog
    holds no asset (the decided action is import).  When the path has a
    media type and the target library has [deletedAt] set, the handler
    returns [false] without throwing and the store is what it was (no asset
    created, no job pushed).  When the path has a media type and the library
    is not soft-deleted, the handler returns [true] and the one asset it
    adds, under an id the catalog did not use, has [isReadOnly = true] and
    [isExternal = true].  When the path has no media type, the handler
    throws the unsupported-file-type error before it looks at the library,
    soft-deleted or not, and the store is what it was. *)
Theorem import_checks_library_deletion
    (env : Env) (job : ILibraryFileJob.t) (st : Store) (stats : Stats.t) :
  let assetPath := path_normalize env (ILibraryFileJob.assetPath job) in
  let result := LibraryService.handleAssetRefresh env job st in
  passesGuards env job st →
  assetRepository.getByLibraryIdAndOriginalPath (ILibraryFileJob.id job) assetPath st
    = (Return None, st) →
  stat env assetPath = Some stats →
  (∀ t library deletedAt,
     classify env assetPath = Some t →
     libraries st !! ILibraryFileJob.id job = Some library →
     LibraryEntity.deletedAt library = Some deletedAt →
     result = (Return false, st))
  ∧ (∀ t,
       classify env assetPath = Some t →
       (libraries st !! ILibraryFileJob.id job)?.LibraryEntity.deletedAt = None →
       ∃ id a,
         result
           = (Return true,
              {| libraries := libraries st;
                 assets := <[id := a]> (assets st);
                 users := users st;
                 jobs := jobs st
                         ++ METADATA_EXTRACTION id "upload"
                            :: match t with
                               | VIDEO => [VIDEO_CONVERSION id]
                               | IMAGE => []
                               end |})
         ∧ assets st !! id = None
         ∧ AssetEntity.isReadOnly a = true
         ∧ AssetEntity.isExternal a = true
         ∧ AssetEntity.libraryId a = ILibraryFileJob.id job
         ∧ AssetEntity.originalPath a = assetPath
         ∧ AssetEntity.type a = t)
  ∧ (classify env assetPath = None →
     result = (Throw (BadRequestException ("Unsupported file type " +:+ assetPath)), st)).
Proof.
  intros assetPath result Hguards Hnew Hstat. subst result. split; [|split].
  - intros t library deletedAt Hclass Hlib Hdel.
    apply (handleAssetRefresh_import_deleted env job st Hguards stats Hstat Hnew t deletedAt
             Hclass).
    by rewrite Hlib.
  - intros t Hclass Halive.
    exists (fresh (dom (assets st))), (importedAsset env job stats t).
    rewrite (handleAssetRefresh_import env job st Hguards stats Hstat Hnew t Hclass Halive).
    split; [by destruct t|].
    split; [|done].
    apply not_elem_of_dom, is_fresh.
  - intros Hclass.
    by apply (handleAssetRefresh_import_unsupported env job st Hguards stats Hstat Hnew).
Qed.

(** ** Jobs pushed for an asset *)

(** C9.  Downstream fan-out of [handleAssetRefresh], for a job that got
    past the guards and whose file was read.  When the handler completes an
    import (no asset at the path, a media type, a library not soft-deleted)
    or a refresh (an asset at the path that is forced, changed or offline,
    and a media type), the jobs it pushed are exactly one
    metadata-extraction job for the asset id, followed by exactly one
    video-conversion job exactly when the type is VIDEO: one job for an
    image, two for a video.  On the no-op path (an online asset, unchanged,
    not forced) it pushes nothing. *)
Theorem processing_jobs_fan_out
    (env : Env) (job : ILibraryFileJob.t) (st : Store) (stats : Stats.t) :
  let assetPath := path_normalize env (ILibraryFileJob.assetPath job) in
  let found :=
    assetRepository.getByLibraryIdAndOriginalPath (ILibraryFileJob.id job) assetPath st in
  let result := LibraryService.handleAssetRefresh env job st in
  let fanOut (id : string) (t : AssetType) : list JobItem :=
    match t with
    | IMAGE => [METADATA_EXTRACTION id "upload"]
    | VIDEO => [METADATA_EXTRACTION id "upload"; VIDEO_CONVERSION id]
    end in
  passesGuards env job st →
  stat env assetPath = Some stats →
  (∀ t, found = (Return None, st) →
        classify env assetPath = Some t →
        (libraries st !! ILibraryFileJob.id job)?.LibraryEntity.deletedAt = None →
        ∃ id, result.1 = Return true
              ∧ assets st !! id = None
              ∧ (∃ a, assets result.2 !! id = Some a ∧ AssetEntity.type a = t)
              ∧ pushed st result.2 = fanOut id t)
  ∧ (∀ id a t, found = (Return (Some (id, a)), st) →
               needsRefresh (ILibraryFileJob.force job) stats a = true →
               classify env assetPath = Some t →
               result.1 = Return true ∧ pushed st result.2 = fanOut id t)
  ∧ (∀ id a, found = (Return (Some (id, a)), st) →
             needsRefresh (ILibraryFileJob.force job) stats a = false →
             result = (Return true, st) ∧ pushed st result.2 = []).
Proof.
  intros assetPath found result fanOut Hguards Hstat. subst result. repeat split.
  - intros t Hnew Hclass Halive. exists (fresh (dom (assets st))).
    rewrite (handleAssetRefresh_import env job st Hguards stats Hstat Hnew t Hclass Halive).
    cbn [fst snd]. rewrite pushed_app. repeat split.
    + apply not_elem_of_dom, is_fresh.
    + eexists. cbn. by rewrite lookup_insert_eq.
    + by destruct t.
  - rewrite (handleAssetRefresh_refresh env job st Hguards stats Hstat id a t) by done.
    done.
  - rewrite (handleAssetRefresh_refresh env job st Hguards stats Hstat id a t) by done.
    cbn [snd]. rewrite pushed_app. by destruct t.
  - by rewrite (handleAssetRefresh_up_to_date env job st Hguards stats Hstat id a).
  - rewrite (handleAssetRefresh_up_to_date env job st Hguards stats Hstat id a) by done.
    apply pushed_nothing.
Qed.

(** ** Deleting a library *)

(** C5.  [handleDeleteLibrary] (handleLibraryDeletion).  The ids it works on
    are exactly the ids of the assets the library owns, offline or not, each
    once.  When no row has the id, soft-deleted rows included, it returns
    [false] and changes nothing.  Otherwise it returns [true], pushes one
    asset-deletion job with [fromExternal = true] per id, in order, and
    removes the library row exactly when the list of ids is empty; the asset
    table is not touched.  When the list is not empty the row stays as it
    was, and if it is soft-deleted the cleanup sweep run afterwards pushes a
    library-deletion job for it again. *)
Theorem handleDeleteLibrary_converges (job : IEntityJob.t) (st : Store) :
  let id := IEntityJob.id job in
  let assetIds := assetIdsOf id st in
  let after := (LibraryService.handleDeleteLibrary job st).2 in
  NoDup assetIds
  ∧ (∀ assetId, assetId ∈ assetIds
                ↔ ∃ a, assets st !! assetId = Some a ∧ AssetEntity.libraryId a = id)
  ∧ (libraries st !! id = None →
     LibraryService.handleDeleteLibrary job st = (Return false, st))
  ∧ (∀ library, libraries st !! id = Some library →
       LibraryService.handleDeleteLibrary job st
         = (Return true,
            {| libraries :=
                 if bool_decide (assetIds = []) then base.delete id (libraries st)
                 else libraries st;
               assets := assets st;
               users := users st;
               jobs := jobs st ++ ((λ assetId, ASSET_DELETION assetId true) <$> assetIds) |})
       ∧ (assetIds = [] → libraries after !! id = None)
       ∧ (assetIds ≠ [] → libraries after !! id = Some library)
       ∧ (assetIds ≠ [] → is_Some (LibraryEntity.deletedAt library) →
          ∃ pending,
            NoDup pending ∧ id ∈ pending
            ∧ pushed after (LibraryService.handleQueueCleanup after).2
              = LIBRARY_DELETE <$> pending)).
Proof.
  intros id assetIds after.
  split; [apply NoDup_assetIdsOf|].
  split; [apply elem_of_assetIdsOf|].
  split; [apply handleDeleteLibrary_absent|].
  intros library Hlib. subst after.
  rewrite (handleDeleteLibrary_run job st library Hlib). fold id assetIds. cbn [snd].
  split; [done|]. repeat split.
  - intros ->. cbn. apply lookup_delete_eq.
  - intros Hsome. cbn. by rewrite bool_decide_eq_false_2.
  - intros Hsome Hdeleted. rewrite handleQueueCleanup_run. cbn [snd].
    rewrite pushed_app. eexists. split; [apply NoDup_pendingDeletion|]. split; [|done].
    apply elem_of_pendingDeletion. exists library. split; [|done].
    cbn. by rewrite bool_decide_eq_false_2.
Qed.

(** C6.  Last-upload-library protection in [delete].  For a delete request
    on a library of type UPLOAD whose owner has at most one upload library,
    where the access check lets only the owner through: the call throws a
    bad-request error and the store is exactly what it was, so the row keeps
    its [deletedAt] and no library-deletion job is pushed.  When the request
    passes the access check and the row is not soft-deleted already, the
    error is the validation error 'Cannot delete the last upload library'. *)
Theorem delete_last_upload_library_rejected
    (env : Env) (authUser : AuthUserDto.t) (id : string) (st : Store)
    (library : LibraryEntity.t) (uploadCount : nat) :
  libraries st !! id = Some library →
  LibraryEntity.type library = UPLOAD →
  repository.getUploadLibraryCount (LibraryEntity.ownerId library) st
    = (Return uploadCount, st) →
  (uploadCount ≤ 1)%nat →
  (hasPermission env authUser Permission.LIBRARY_DELETE id = true →
   AuthUserDto.id authUser = LibraryEntity.ownerId library) →
  ∃ message,
    LibraryService.delete env authUser id st = (Throw (BadRequestException message), st)
    ∧ libraries (LibraryService.delete env authUser id st).2 !! id = Some library
    ∧ jobs (LibraryService.delete env authUser id st).2 = jobs st
    ∧ (hasPermission env authUser Permission.LIBRARY_DELETE id = true →
       LibraryEntity.deletedAt library = None →
       message = "Cannot delete the last upload library").
Proof.
  intros Hlib Htype Hcount Hle Howner.
  unfold LibraryService.delete, access.requirePermission.
  destruct (hasPermission env authUser Permission.LIBRARY_DELETE id) eqn:Hperm.
  2: { eexists. exec. cbn. split; [done|]. split; [done|]. split; [done|]. done. }
  rewrite (Howner eq_refl). exec. unfold repository.get, gets. rewrite Hlib. step.
  destruct (LibraryEntity.deletedAt library) eqn:Hdel.
  { eexists. split; [done|]. split; [done|]. split; [done|]. done. }
  rewrite Hcount. step. rewrite Htype.
  rewrite bool_decide_eq_true_2 by done.
  replace (uploadCount <=? 1)%nat with true by (symmetry; by apply Nat.leb_le).
  eexists. split; [done|]. split; [done|]. split; [done|]. done.
Qed.

(** ** The scan *)

(** C8 (as amended).  Every invocation of [handleQueueAssetRefresh]
    (scanLibrary) leaves the asset and user tables as they were, only adds
    jobs at the end of the queue, and leaves the library table either as it
    was or with the single write [refreshedAt = now] on the scanned library.
    An invocation that gets past the guards (the library is there, alive and
    external, its owner has an external root, and the containment expression
    is well formed or the crawl found nothing) returns [true] and makes that
    write, whatever the crawl and the diff came to: the row of the library
    has [refreshedAt = now] and every other field as it was, and every other
    row is what it was.  An invocation stopped by a guard (no row under the
    id, or a soft-deleted one, or one that is not EXTERNAL, or an owner
    without an external root) returns [false] and leaves the whole store as
    it was, timestamp included.  An invocation that cannot build the
    containment expression for a crawl that found something throws and
    leaves the whole store as it was.  There is no other case. *)
Theorem scan_writes_only_queue_and_timestamp
    (env : Env) (job : ILibraryRefreshJob.t) (st : Store) :
  let id := ILibraryRefreshJob.id job in
  let result := LibraryService.handleQueueAssetRefresh env job st in
  let stamp :=
    alter (LibraryEntity.with_refreshedAt (Some (now env))) (ILibraryRefreshJob.id job) in
  let externalPathOf (library : LibraryEntity.t) : option string :=
    truthy_string ((users st !! LibraryEntity.ownerId library)?.UserEntity.externalPath) in
  assets result.2 = assets st
  ∧ users result.2 = users st
  ∧ (∃ items, jobs result.2 = jobs st ++ items)
  ∧ (libraries result.2 = libraries st ∨ libraries result.2 = stamp (libraries st))
  ∧ (∀ library crawled,
       scans env job st library crawled →
       result.1 = Return true
       ∧ libraries result.2 = stamp (libraries st)
       ∧ libraries result.2 !! ILibraryRefreshJob.id job
         = Some (LibraryEntity.with_refreshedAt (Some (now env)) library))
  ∧ ((∀ library crawled, ¬ scans env job st library crawled) →
     result.2 = st ∧ result.1 ≠ Return true)
  ∧ (∀ library crawled,
       scans env job st library crawled →
       (∃ library',
          libraries result.2 !! id = Some library'
          ∧ LibraryEntity.refreshedAt library' = Some (now env)
          ∧ library'
            = {| LibraryEntity.ownerId := LibraryEntity.ownerId library;
                 LibraryEntity.type := LibraryEntity.type library;
                 LibraryEntity.name := LibraryEntity.name library;
                 LibraryEntity.importPaths := LibraryEntity.importPaths library;
                 LibraryEntity.exclusionPatterns := LibraryEntity.exclusionPatterns library;
                 LibraryEntity.isVisible := LibraryEntity.isVisible library;
                 LibraryEntity.refreshedAt := Some (now env);
                 LibraryEntity.deletedAt := LibraryEntity.deletedAt library |})
       ∧ (∀ other, other ≠ id → libraries result.2 !! other = libraries st !! other))
  ∧ ((∀ library,
        libraries st !! id = Some library →
        LibraryEntity.deletedAt library ≠ None
        ∨ LibraryEntity.type library ≠ EXTERNAL
        ∨ externalPathOf library = None) →
     result = (Return false, st))
  ∧ (∀ library externalPath,
       libraries st !! id = Some library →
       LibraryEntity.deletedAt library = None →
       LibraryEntity.type library = EXTERNAL →
       externalPathOf library = Some externalPath →
       RegExp env ("^" +:+ path_normalize env externalPath) = None →
       crawl env (LibraryEntity.importPaths library) (LibraryEntity.exclusionPatterns library)
         ≠ [] →
       result = (Throw (SyntaxError ("^" +:+ path_normalize env externalPath)), st))
  ∧ ((∃ library crawled, scans env job st library crawled)
     ∨ result = (Return false, st)
     ∨ ∃ pattern, result = (Throw (SyntaxError pattern), st)).
Proof.
  intros id result stamp externalPathOf.
  assert (∀ library,
            libraries st !! id = Some library →
            LibraryEntity.deletedAt library = None →
            repository.get id false st = (Return (Some library), st)) as Hlive.
  { intros library Hlib Halive. unfold repository.get, gets. rewrite Hlib. cbn.
    by rewrite Halive. }
  assert ((∀ library,
             libraries st !! id = Some library →
             LibraryEntity.deletedAt library ≠ None
             ∨ LibraryEntity.type library ≠ EXTERNAL
             ∨ externalPathOf library = None) →
          result = (Return false, st)) as Hstopped.
  { intros Hguard. subst result.
    destruct (libraries st !! id) as [library|] eqn:Hlib.
    2: { apply handleQueueAssetRefresh_no_library.
         unfold repository.get, gets. fold id. by rewrite Hlib. }
    destruct (LibraryEntity.deletedAt library) as [deleted|] eqn:Hdel.
    { apply handleQueueAssetRefresh_no_library.
      unfold repository.get, gets. fold id. rewrite Hlib. cbn. by rewrite Hdel. }
    pose proof (Hlive library eq_refl Hdel) as Hget.
    destruct (Hguard library eq_refl) as [Hdeleted|[Htype|Hext]]; [done| |].
    - by apply (handleQueueAssetRefresh_not_external env job st library).
    - destruct (decide (LibraryEntity.type library = EXTERNAL)) as [Htype|Htype].
      + by apply (handleQueueAssetRefresh_no_externalPath env job st library).
      + by apply (handleQueueAssetRefresh_not_external env job st library). }
  assert (∀ library externalPath,
            libraries st !! id = Some library →
            LibraryEntity.deletedAt library = None →
            LibraryEntity.type library = EXTERNAL →
            externalPathOf library = Some externalPath →
            RegExp env ("^" +:+ path_normalize env externalPath) = None →
            crawl env (LibraryEntity.importPaths library)
                  (LibraryEntity.exclusionPatterns library) ≠ [] →
            result = (Throw (SyntaxError ("^" +:+ path_normalize env externalPath)), st))
    as Hthrows.
  { intros library externalPath Hlib Halive Htype Hext Hre Hcrawl. subst result.
    by apply (handleQueueAssetRefresh_SyntaxError env job st library (Hlive _ Hlib Halive)
                Htype externalPath Hext). }
  assert ((∃ library crawled, scans env job st library crawled)
          ∨ result = (Return false, st)
          ∨ ∃ pattern, result = (Throw (SyntaxError pattern), st)) as Hcases.
  { destruct (libraries st !! id) as [library|] eqn:Hlib.
    2: { right. left. apply Hstopped. intros ? [=]. }
    destruct (LibraryEntity.deletedAt library) as [deleted|] eqn:Hdel.
    { right. left. apply Hstopped. intros ? [= <-]. left. by rewrite Hdel. }
    destruct (decide (LibraryEntity.type library = EXTERNAL)) as [Htype|Htype].
    2: { right. left. apply Hstopped. intros ? [= <-]. right. by left. }
    destruct (externalPathOf library) as [externalPath|] eqn:Hext.
    2: { right. left. apply Hstopped. intros ? [= <-]. right. by right. }
    destruct (RegExp env ("^" +:+ path_normalize env externalPath)) as [re|] eqn:Hre.
    { left. exists library, (crawledAssetPaths env library re).
      split; [by apply Hlive|]. split; [done|]. exists externalPath. by rewrite Hre. }
    destruct (crawl env (LibraryEntity.importPaths library)
                (LibraryEntity.exclusionPatterns library)) as [|x l] eqn:Hcrawl.
    { left. exists library, []. split; [by apply Hlive|]. split; [done|].
      exists externalPath. by rewrite Hre. }
    right. right. eexists. apply (Hthrows library externalPath); try done.
    by rewrite Hcrawl. }
  assert (∀ library crawled,
            scans env job st library crawled →
            result.1 = Return true
            ∧ libraries result.2 = stamp (libraries st)
            ∧ libraries st !! id = Some library) as Hpast.
  { intros library crawled Hscans. subst result.
    rewrite (handleQueueAssetRefresh_scans env job st library crawled Hscans).
    destruct Hscans as (Hget & _).
    by apply repository_get_alive in Hget as [Hlookup _]. }
  clear Hlive. subst result.
  destruct (handleQueueAssetRefresh_cases env job st)
    as [(library & crawled & Hscans)|(Hnot & Hst & Hfalse)].
  - rewrite (handleQueueAssetRefresh_scans env job st library crawled Hscans) in *.
    cbn [fst snd libraries assets users jobs] in *.
    split; [done|]. split; [done|]. split; [by eexists|]. split; [by right|].
    split; [|split; [|split; [|done]]].
    + intros library' crawled' Hscans'.
      destruct (Hpast library' crawled' Hscans') as (_ & _ & Hlookup).
      split; [done|]. split; [done|].
      unfold stamp. fold id. by rewrite lookup_alter_eq, Hlookup.
    + intros Hnone. by destruct (Hnone library crawled).
    + intros library' crawled' Hscans'.
      destruct (Hpast library' crawled' Hscans') as (_ & _ & Hlookup).
      split.
      * exists (LibraryEntity.with_refreshedAt (Some (now env)) library').
        fold id. by rewrite lookup_alter_eq, Hlookup.
      * intros other Hother. fold id. by rewrite lookup_alter_ne.
  - rewrite Hst in *.
    split; [done|]. split; [done|].
    split; [exists []; by rewrite app_nil_r|]. split; [by left|].
    split; [|split; [|split; [|done]]].
    + intros library crawled Hscans. by destruct (Hnot library crawled).
    + done.
    + intros library crawled Hscans. by destruct (Hnot library crawled).
Qed.

(** ** A second run with nothing changed *)

(** C2 (as amended).  The no-change re-run.  (1) [handleAssetRefresh] on
    an asset that exists and is not offline, whose stat succeeds with the
    stored modification time, with [force = false]: the store the handler
    leaves is the store it started in, no catalog write and no job; past the
    guards it returns [true]; and so it is after any number of deliveries of
    the same job.  (2) A scan with [refreshModifiedFiles = false] and
    [refreshAllFiles = false], then the delivery of the jobs it pushed (each
    at least once, in any order, nothing else in between), then the same
    scan again in the same environment: the second scan pushes no per-path
    job.  The environment is one where [path.normalize] is idempotent and
    where every crawled file can be read and has a media type. *)
Theorem unchanged_rerun_is_noop (env : Env) :
  (∀ job st id a stats,
     let assetPath := path_normalize env (ILibraryFileJob.assetPath job) in
     assetRepository.getByLibraryIdAndOriginalPath (ILibraryFileJob.id job) assetPath st
       = (Return (Some (id, a)), st) →
     AssetEntity.isOffline a = false →
     stat env assetPath = Some stats →
     Stats.mtime stats = AssetEntity.fileModifiedAt a →
     ILibraryFileJob.force job = false →
     (LibraryService.handleAssetRefresh env job st).2 = st
     ∧ (passesGuards env job st →
        LibraryService.handleAssetRefresh env job st = (Return true, st))
     ∧ (∀ deliveries,
          Nat.iter deliveries (λ s, (LibraryService.handleAssetRefresh env job s).2) st = st))
  ∧ (∀ job st delivered,
       ILibraryRefreshJob.refreshModifiedFiles job = false →
       ILibraryRefreshJob.refreshAllFiles job = false →
       (∀ p, path_normalize env (path_normalize env p) = path_normalize env p) →
       (∀ roots exclusions p, p ∈ crawl env roots exclusions →
          stat env (path_normalize env p) ≠ None
          ∧ classify env (path_normalize env p) ≠ None) →
       let first := (LibraryService.handleQueueAssetRefresh env job st).2 in
       (∀ item, item ∈ pushed st first → item ∈ delivered) →
       (∀ item, item ∈ delivered → item ∈ pushed st first) →
       let settled := runJobs env delivered first in
       ∀ data,
         LIBRARY_SCAN_ASSET data
           ∉ pushed settled (LibraryService.handleQueueAssetRefresh env job settled).2).
Proof.
  split.
  - intros job st id a stats assetPath Hfound Honline Hstat Hmtime Hforce.
    assert (needsRefresh (ILibraryFileJob.force job) stats a = false) as Hneeds.
    { unfold needsRefresh. by rewrite Hforce, Honline, Hmtime, Z.eqb_refl. }
    assert (passesGuards env job st →
            LibraryService.handleAssetRefresh env job st = (Return true, st)) as Hnoop.
    { intros Hguards.
      by apply (handleAssetRefresh_up_to_date env job st Hguards stats Hstat id a). }
    assert ((LibraryService.handleAssetRefresh env job st).2 = st) as Hsame.
    { destruct (handleAssetRefresh_guards env job st) as [Hguards|[_ Hsame]]; [|done].
      by rewrite (Hnoop Hguards). }
    split; [done|]. split; [done|].
    intros deliveries. induction deliveries as [|n IH]; [done|].
    by rewrite Nat.iter_succ, IH.
  - intros job st delivered. apply rescan_pushes_no_file_job.
Qed.

(** ** The reference [path.normalize] is idempotent *)

Section posix_normalize.
Import posix.

Lemma split_not_nil s : split s ≠ [].
Proof.
  destruct s as [|c s]; [done|]. cbn.
  destruct (Ascii.eqb c "/"); [done|]. by destruct (split s).
Qed.

Lemma split_app_slash a b : split (a +:+ String "/" b) = split a ++ split b.
Proof.
  induction a as [|c a IH]; [done|].
  change (String c a +:+ String "/" b) with (String c (a +:+ String "/" b)).
  cbn [split]. rewrite IH.
  destruct (Ascii.eqb c "/"); [done|].
  pose proof (split_not_nil a). by destruct (split a).
Qed.

Lemma split_noSlash seg : noSlash seg = true → split seg = [seg].
Proof.
  induction seg as [|c seg IH]; [done|]. cbn.
  destruct (Ascii.eqb c "/"); [done|]. cbn. intros H. by rewrite IH.
Qed.

Lemma split_Forall_noSlash s : Forall (λ seg, noSlash seg = true) (split s).
Proof.
  induction s as [|c s IH]; [by repeat constructor|]. cbn.
  destruct (Ascii.eqb c "/") eqn:Hc; [by constructor|].
  destruct (split s) as [|seg rest]; [by repeat constructor; cbn; rewrite Hc|].
  apply Forall_cons in IH as [Hseg Hrest]. constructor; [|done].
  cbn. by rewrite Hc.
Qed.

Lemma split_join segs :
  segs ≠ [] → Forall (λ seg, noSlash seg = true) segs → split (join segs) = segs.
Proof.
  induction segs as [|seg [|seg' rest] IH]; [done|..]; intros _ Hall.
  - apply split_noSlash. by apply Forall_cons in Hall as [? _].
  - apply Forall_cons in Hall as [Hseg Hrest].
    change (join (seg :: seg' :: rest)) with (seg +:+ String "/" (join (seg' :: rest))).
    rewrite split_app_slash, split_noSlash by done.
    by rewrite IH.
Qed.

Lemma fold_step_ordinary allow rest stack :
  Forall ordinary rest →
  fold_left (step allow) rest stack = reverse rest ++ stack.
Proof.
  revert stack. induction rest as [|seg rest IH]; intros stack Hall; [done|].
  apply Forall_cons in Hall as [(Hempty & Hdot & Hdots & _) Hrest].
  cbn [fold_left]. rewrite IH, reverse_cons, <- app_assoc by done. unfold step.
  by rewrite !bool_decide_eq_false_2 by done.
Qed.

Lemma fold_step_dots k j :
  fold_left (step true) (replicate k "..") (replicate j "..") = replicate (k + j) "..".
Proof.
  revert j. induction k as [|k IH]; intros j; [done|].
  cbn [replicate fold_left].
  replace (step true (replicate j "..") "..") with (replicate (S j) "..")
    by (by destruct j).
  rewrite IH. f_equal. lia.
Qed.

Lemma step_canonical allow stack seg :
  noSlash seg = true → canonical allow stack → canonical allow (step allow stack seg).
Proof.
  intros Hseg (k & rest & -> & Hrest & Hk). unfold step.
  destruct (bool_decide (seg = "")) eqn:Hempty; [by exists k, rest|].
  destruct (bool_decide (seg = ".")) eqn:Hdot; [by exists k, rest|].
  apply bool_decide_eq_false in Hempty, Hdot. cbn.
  destruct (bool_decide (seg = "..")) eqn:Hdots.
  - destruct rest as [|top rest]; cbn.
    + destruct k as [|k]; cbn.
      * destruct allow; [by exists 1, []|by exists 0, []].
      * rewrite bool_decide_eq_true_2 by done.
        destruct allow; [by exists (S (S k)), []|by exists (S k), []].
    + apply Forall_cons in Hrest as [(_ & _ & Htop & _) Hrest].
      rewrite bool_decide_eq_false_2 by done. by exists k, rest.
  - apply bool_decide_eq_false in Hdots. exists k, (seg :: rest).
    split; [done|]. split; [|done]. by constructor.
Qed.

Lemma fold_step_canonical allow segs stack :
  Forall (λ seg, noSlash seg = true) segs →
  canonical allow stack →
  canonical allow (fold_left (step allow) segs stack).
Proof.
  revert stack. induction segs as [|seg segs IH]; intros stack Hall Hstack; [done|].
  apply Forall_cons in Hall as [Hseg Hsegs]. cbn.
  apply IH; [done|]. by apply step_canonical.
Qed.

(** Running [normalizeString] over segments it produced gives them back. *)
Lemma fold_step_reverse allow stack :
  canonical allow stack →
  fold_left (step allow) (reverse stack) [] = stack.
Proof.
  intros (k & rest & -> & Hrest & Hk).
  rewrite reverse_app, fold_left_app, reverse_replicate.
  assert (fold_left (step allow) (replicate k "..") [] = replicate k "..") as ->.
  { destruct allow; [|by rewrite Hk].
    change (@nil string) with (replicate 0 "..") at 1.
    rewrite (fold_step_dots k 0). f_equal. lia. }
  rewrite fold_step_ordinary, reverse_involutive; [done|].
  by apply Forall_reverse.
Qed.

Lemma canonical_nil allow : canonical allow [].
Proof. by exists 0, []. Qed.

Lemma canonical_segments allow stack :
  canonical allow stack →
  Forall (λ seg, seg ≠ "" ∧ noSlash seg = true) stack.
Proof.
  intros (k & rest & -> & Hrest & _). apply Forall_app. split.
  - eapply Forall_impl; [done|]. by intros seg (? & _ & _ & ?).
  - by apply Forall_replicate.
Qed.

Lemma join_head seg rest :
  seg ≠ "" → ∃ c tail, seg = String c tail ∧ ∃ more, join (seg :: rest) = String c more.
Proof.
  intros Hseg. destruct seg as [|c tail]; [done|].
  exists c, tail. split; [done|]. destruct rest; by eexists.
Qed.

Lemma prefix_slash c s :
  String.prefix "/" (String c s) = Ascii.eqb c "/".
Proof.
  change (String.prefix "/" (String c s))
    with (if ascii_dec "/" c then String.prefix "" s else false).
  destruct (ascii_dec "/" c) as [<-|Hne]; [by destruct s|].
  symmetry. apply Ascii.eqb_neq. congruence.
Qed.

Lemma append_empty_r s : s +:+ "" = s.
Proof.
  induction s as [|c s IH]; [done|].
  change (String c s +:+ "") with (String c (s +:+ "")). by rewrite IH.
Qed.

Lemma posix_normalize_idempotent path : normalize (normalize path) = normalize path.
Proof.
  unfold normalize at 2 3.
  destruct (bool_decide (path = "")); [by vm_compute|].
  set (isAbsolute := String.prefix "/" path).
  set (trailingSeparator := endsWithSlash path).
  unfold normalizeString.
  set (stack := fold_left (step (negb isAbsolute)) (split path) []).
  assert (canonical (negb isAbsolute) stack) as Hstack
    by (apply fold_step_canonical; [apply split_Forall_noSlash|apply canonical_nil]).
  destruct (bool_decide (join (reverse stack) = "")) eqn:Hbody;
    [by destruct isAbsolute, trailingSeparator; vm_compute|].
  apply bool_decide_eq_false in Hbody.
  pose proof (canonical_segments _ _ Hstack) as Hsegs.
  apply Forall_reverse in Hsegs.
  pose proof (fold_step_reverse _ _ Hstack) as Hagain.
  set (segs := reverse stack) in *.
  destruct segs as [|seg rest] eqn:Hlist; [done|]. rewrite <- Hlist in *.
  assert (Forall (λ seg, noSlash seg = true) segs) as Hslash
    by (eapply Forall_impl; [done|]; by intros ? [_ ?]).
  assert (split (join segs) = segs) as Hsplit
    by (apply split_join; [by rewrite Hlist|done]).
  set (body := join segs) in *.
  (* the segments of the result *)
  assert (split ((if isAbsolute then "/" else "") +:+ body
                 +:+ (if trailingSeparator then "/" else ""))
          = (if isAbsolute then [""] else []) ++ segs
            ++ (if trailingSeparator then [""] else [])) as Hparts.
  { assert (split (body +:+ (if trailingSeparator then "/" else ""))
            = segs ++ (if trailingSeparator then [""] else [])) as Htail.
    { destruct trailingSeparator.
      - by rewrite (split_app_slash body ""), Hsplit.
      - by rewrite append_empty_r, app_nil_r. }
    destruct isAbsolute.
    - change ("/" +:+ body +:+ _) with ("" +:+ String "/" (body +:+ (if trailingSeparator then "/" else ""))).
      by rewrite split_app_slash, Htail.
    - done. }
  (* its first character *)
  assert (Hfirst : ∃ c more, body = String c more ∧ Ascii.eqb c "/" = false).
  { pose proof Hsegs as Hhead. rewrite Hlist in Hhead.
    apply Forall_cons in Hhead as [[Hne Hns] _].
    destruct (join_head seg rest Hne) as (c & tail & Hseg & more & Hjoin).
    exists c, more. unfold body. rewrite Hlist. split; [done|].
    rewrite Hseg in Hns. cbn in Hns.
    by destruct (Ascii.eqb c "/"). }
  destruct Hfirst as (c & more & Hc & Hnotslash).
  set (result := (if isAbsolute then "/" else "") +:+ body
                 +:+ (if trailingSeparator then "/" else "")) in *.
  assert (bool_decide (result = "") = false) as Hnonempty.
  { apply bool_decide_eq_false. unfold result. rewrite Hc. by destruct isAbsolute. }
  assert (String.prefix "/" result = isAbsolute) as Habs.
  { unfold result. destruct isAbsolute.
    - change ("/" +:+ ?x) with (String "/" x). by rewrite prefix_slash.
    - rewrite Hc.
      change ("" +:+ String c more +:+ ?x) with (String c (more +:+ x)).
      by rewrite prefix_slash. }
  assert (endsWithSlash result = trailingSeparator) as Htrail.
  { unfold endsWithSlash. rewrite Hparts, !last_app.
    destruct trailingSeparator; [done|]. cbn [last].
    rewrite Hlist. rewrite <- Hlist.
    destruct (last segs) as [final|] eqn:Hlast.
    - apply last_Some_elem_of in Hlast.
      rewrite Forall_forall in Hsegs. destruct (Hsegs final Hlast) as [Hne _].
      by destruct final.
    - apply last_None in Hlast. by rewrite Hlist in Hlast. }
  unfold normalize. rewrite Hnonempty, Habs, Htrail. unfold normalizeString.
  rewrite Hparts, !fold_left_app.
  assert (fold_left (step (negb isAbsolute)) (if isAbsolute then [""] else []) [] = [])
    as -> by (by destruct isAbsolute).
  rewrite Hagain.
  assert (fold_left (step (negb isAbsolute)) (if trailingSeparator then [""] else []) stack
          = stack) as -> by (by destruct trailingSeparator).
  fold segs. fold body.
  by rewrite bool_decide_eq_false_2.
Qed.
End posix_normalize.

(** * The worked installation *)

Lemma demo_passesGuards libraryId path force st :
  users st = demo.users →
  posix.matchHere "/data/photos" (posix.normalize (posix.normalize path)) = true →
  passesGuards demo.env (demo.fileJob libraryId path force) st.
Proof.
  intros Husers Hmatch. exists "/data/photos", (posix.matchHere "/data/photos").
  split; [by rewrite Husers|]. split; [by vm_compute|]. exact Hmatch.
Defined.

(** Every file the reference crawler lists can be read and has a media
    type. *)
Lemma demo_crawl_media roots exclusions p :
  p ∈ crawl demo.env roots exclusions →
  stat demo.env (path_normalize demo.env p) ≠ None
  ∧ classify demo.env (path_normalize demo.env p) ≠ None.
Proof.
  intros Hin. apply list_elem_of_filter in Hin as [[_ Hmedia] Hin].
  cbn in Hin.
  repeat (apply elem_of_cons in Hin as [->|Hin]);
    try (by apply elem_of_nil in Hin);
    try (by vm_compute in Hmedia);
    by split; vm_compute.
Defined.

(** C3, on the installation: [gone.jpg] is in the catalog and not on the
    disk, [lost.jpg] is in neither. *)
Lemma stat_failure_marks_offline_or_fails_witness :
  let known := demo.fileJob "L1" "/data/photos/gone.jpg" false in
  let unknown := demo.fileJob "L1" "/data/photos/lost.jpg" false in
  passesGuards demo.env known demo.offline
  ∧ stat demo.env "/data/photos/gone.jpg" = None
  ∧ passesGuards demo.env unknown demo.offline
  ∧ stat demo.env "/data/photos/lost.jpg" = None
  ∧ assets demo.offline !! "a4"
    = Some (demo.asset "L1" "/data/photos/gone.jpg" 900 IMAGE false)
  ∧ (LibraryService.handleAssetRefresh demo.env known demo.offline).1 = Return true
  ∧ assets (LibraryService.handleAssetRefresh demo.env known demo.offline).2 !! "a4"
    = Some (demo.asset "L1" "/data/photos/gone.jpg" 900 IMAGE true)
  ∧ LibraryService.handleAssetRefresh demo.env unknown demo.offline
      = (Throw (BadRequestException "Can't access file"), demo.offline).
Proof.
  intros known unknown.
  assert (passesGuards demo.env known demo.offline) as Hknown
    by (by apply demo_passesGuards).
  assert (passesGuards demo.env unknown demo.offline) as Hunknown
    by (by apply demo_passesGuards).
  assert (stat demo.env "/data/photos/gone.jpg" = None) as Hgone by reflexivity.
  assert (stat demo.env "/data/photos/lost.jpg" = None) as Hlost by reflexivity.
  assert (assets demo.offline !! "a4"
          = Some (demo.asset "L1" "/data/photos/gone.jpg" 900 IMAGE false)) as Hbefore
    by reflexivity.
  do 5 (split; [assumption|]).
  destruct (stat_failure_marks_offline_or_fails demo.env known demo.offline Hknown Hgone)
    as [Hmarks _].
  destruct (Hmarks "a4" (demo.asset "L1" "/data/photos/gone.jpg" 900 IMAGE false))
    as (Hrun & _ & (a' & Hafter & _ & Hrecord) & _); [by vm_compute|].
  split; [by rewrite Hrun|]. split.
  - rewrite Hafter, Hrecord. reflexivity.
  - refine (proj2 (stat_failure_marks_offline_or_fails demo.env unknown demo.offline
                     Hunknown Hlost) _).
    by vm_compute.
Defined.

(** C4 as claimed fails on the installation: [notes.txt] is flagged
    offline and its file can be read, but a text file has no media type; the
    unforced job throws and pushes no job. *)
Lemma offline_asset_of_unsupported_type_is_not_refreshed :
  assets demo.offline !! "a3"
    = Some (demo.asset "L1" "/data/photos/notes.txt" 3000 IMAGE true)
  ∧ stat demo.env "/data/photos/notes.txt" = Some (Stats.mk 3000 0)
  ∧ (LibraryService.handleAssetRefresh demo.env
       (demo.fileJob "L1" "/data/photos/notes.txt" false) demo.offline).1
    = Throw (BadRequestException "Unsupported file type /data/photos/notes.txt")
  ∧ pushed demo.offline
      (LibraryService.handleAssetRefresh demo.env
         (demo.fileJob "L1" "/data/photos/notes.txt" false) demo.offline).2
    = []
  ∧ assets
      (LibraryService.handleAssetRefresh demo.env
         (demo.fileJob "L1" "/data/photos/notes.txt" false) demo.offline).2 !! "a3"
    = Some (demo.asset "L1" "/data/photos/notes.txt" 3000 IMAGE false).
Proof. repeat split; by vm_compute. Qed.

(** C4 as amended, on the installation: [b.mp4] is flagged offline, its
    file is back with the stored modification time, and the job does not
    force. *)
Lemma offline_asset_recovers_witness :
  let job := demo.fileJob "L1" "/data/photos/b.mp4" false in
  let a := demo.asset "L1" "/data/photos/b.mp4" 2000 VIDEO true in
  passesGuards demo.env job demo.offline
  ∧ assets demo.offline !! "a2" = Some a
  ∧ AssetEntity.isOffline a = true
  ∧ stat demo.env "/data/photos/b.mp4" = Some (Stats.mk (AssetEntity.fileModifiedAt a) 0)
  ∧ (LibraryService.handleAssetRefresh demo.env job demo.offline).1 = Return true
  ∧ assets (LibraryService.handleAssetRefresh demo.env job demo.offline).2 !! "a2"
    = Some (demo.asset "L1" "/data/photos/b.mp4" 2000 VIDEO false)
  ∧ pushed demo.offline (LibraryService.handleAssetRefresh demo.env job demo.offline).2
    = [METADATA_EXTRACTION "a2" "upload"; VIDEO_CONVERSION "a2"].
Proof.
  intros job a.
  assert (passesGuards demo.env job demo.offline) as Hguards
    by (by apply demo_passesGuards).
  assert (assets demo.offline !! "a2" = Some a) as Hbefore by reflexivity.
  assert (stat demo.env "/data/photos/b.mp4"
          = Some (Stats.mk (AssetEntity.fileModifiedAt a) 0)) as Hstat by reflexivity.
  assert (AssetEntity.isOffline a = true) as Hoffline by reflexivity.
  do 4 (split; [assumption|]).
  destruct (offline_asset_recovers demo.env job demo.offline "a2" a _
              Hguards eq_refl Hoffline Hstat) as (_ & Hrefresh & _).
  destruct (Hrefresh VIDEO eq_refl)
    as (Hrun & _ & (a' & Hafter & _ & _ & _ & Hrecord) & _ & Hpushed).
  split; [by rewrite Hrun|]. split; [|exact Hpushed].
  rewrite Hafter, Hrecord. reflexivity.
Defined.

(** C10, on the installation: [notes.txt] is flagged offline, its file is
    there, and a text file is neither image nor video. *)
Lemma unsupported_type_keeps_online_mark_witness :
  let job := demo.fileJob "L1" "/data/photos/notes.txt" false in
  let a := demo.asset "L1" "/data/photos/notes.txt" 3000 IMAGE true in
  passesGuards demo.env job demo.offline
  ∧ isImage demo.env "/data/photos/notes.txt" = false
  ∧ isVideo demo.env "/data/photos/notes.txt" = false
  ∧ LibraryService.handleAssetRefresh demo.env job demo.offline
      = (Throw (BadRequestException "Unsupported file type /data/photos/notes.txt"),
         set_assets (alter (AssetEntity.with_isOffline false) "a3") demo.offline)
  ∧ assets demo.offline !! "a3" = Some a
  ∧ assets (LibraryService.handleAssetRefresh demo.env job demo.offline).2 !! "a3"
    = Some (AssetEntity.with_isOffline false a).
Proof.
  intros job a.
  assert (passesGuards demo.env job demo.offline) as Hguards
    by (by apply demo_passesGuards).
  assert (isImage demo.env "/data/photos/notes.txt" = false) as Himage by reflexivity.
  assert (isVideo demo.env "/data/photos/notes.txt" = false) as Hvideo by reflexivity.
  assert (assetRepository.getByLibraryIdAndOriginalPath "L1" "/data/photos/notes.txt"
            demo.offline
          = (Return (Some ("a3", a)), demo.offline)) as Hfound by (by vm_compute).
  do 3 (split; [assumption|]).
  destruct (unsupported_type_keeps_online_mark demo.env job demo.offline "a3" a
              (Stats.mk 3000 0) Hguards Hfound eq_refl eq_refl Himage Hvideo)
    as (Hthrows & Hbefore & Hafter & _).
  split; [exact Hthrows|]. split; [exact Hbefore|exact Hafter].
Defined.

(** C7 as claimed fails on the installation: [L1] is soft-deleted and
    [notes.txt] is on the disk and not in the catalog, so the decided action
    is import; the handler does not return [false], it throws. *)
Lemma unsupported_file_in_deleted_library_throws :
  libraries demo.deleting !! "L1"
    = Some (demo.external "u1" ["/data/photos"] (Some 4500%Z))
  ∧ assetRepository.getByLibraryIdAndOriginalPath "L1" "/data/photos/notes.txt" demo.deleting
    = (Return None, demo.deleting)
  ∧ stat demo.env "/data/photos/notes.txt" = Some (Stats.mk 3000 0)
  ∧ LibraryService.handleAssetRefresh demo.env
      (demo.fileJob "L1" "/data/photos/notes.txt" false) demo.deleting
    = (Throw (BadRequestException "Unsupported file type /data/photos/notes.txt"),
       demo.deleting).
Proof. repeat split; by vm_compute. Qed.

(** C7 as amended, on the installation: [d.png] is new; once for the
    soft-deleted [L1], once for the live one; and [notes.txt] for the
    soft-deleted one. *)
Lemma import_checks_library_deletion_witness :
  let job := demo.fileJob "L1" "/data/photos/d.png" false in
  let text := demo.fileJob "L1" "/data/photos/notes.txt" false in
  passesGuards demo.env job demo.deleting
  ∧ passesGuards demo.env job demo.imported
  ∧ passesGuards demo.env text demo.deleting
  ∧ stat demo.env "/data/photos/d.png" = Some (Stats.mk 3500 0)
  ∧ classify demo.env "/data/photos/d.png" = Some IMAGE
  ∧ classify demo.env "/data/photos/notes.txt" = None
  ∧ LibraryService.handleAssetRefresh demo.env job demo.deleting
      = (Return false, demo.deleting)
  ∧ (∃ id a,
       LibraryService.handleAssetRefresh demo.env job demo.imported
         = (Return true,
            {| libraries := demo.libraries;
               assets := <[id := a]> (assets demo.imported);
               users := demo.users;
               jobs := [METADATA_EXTRACTION id "upload"] |})
       ∧ AssetEntity.isReadOnly a = true
       ∧ AssetEntity.isExternal a = true)
  ∧ LibraryService.handleAssetRefresh demo.env text demo.deleting
    = (Throw (BadRequestException "Unsupported file type /data/photos/notes.txt"),
       demo.deleting).
Proof.
  intros job text.
  assert (passesGuards demo.env job demo.deleting) as Hdeleting
    by (by apply demo_passesGuards).
  assert (passesGuards demo.env job demo.imported) as Himported
    by (by apply demo_passesGuards).
  assert (passesGuards demo.env text demo.deleting) as Htext
    by (by apply demo_passesGuards).
  assert (stat demo.env "/data/photos/d.png" = Some (Stats.mk 3500 0)) as Hstat
    by reflexivity.
  assert (classify demo.env "/data/photos/d.png" = Some IMAGE) as Hclass by reflexivity.
  assert (classify demo.env "/data/photos/notes.txt" = None) as Hnone by reflexivity.
  do 6 (split; [assumption|]). split; [|split].
  - refine (proj1 (import_checks_library_deletion demo.env job demo.deleting
                     (Stats.mk 3500 0) Hdeleting _ Hstat)
              IMAGE (demo.external "u1" ["/data/photos"] (Some 4500%Z)) 4500%Z Hclass _ _);
      by vm_compute.
  - destruct (proj1 (proj2 (import_checks_library_deletion demo.env job demo.imported
                              (Stats.mk 3500 0) Himported eq_refl Hstat))
                IMAGE Hclass eq_refl)
      as (id & a & Hrun & _ & Hro & Hext & _).
    exists id, a. split; [exact Hrun|]. split; assumption.
  - refine (proj2 (proj2 (import_checks_library_deletion demo.env text demo.deleting
                            (Stats.mk 3000 0) Htext _ _)) Hnone);
      by vm_compute.
Defined.

(** C9, on the installation: [b.mp4] imported, [a.jpg] refreshed by force,
    [a.jpg] left alone. *)
Lemma processing_jobs_fan_out_witness :
  let video := demo.fileJob "L1" "/data/photos/b.mp4" false in
  let forced := demo.fileJob "L1" "/data/photos/a.jpg" true in
  let unforced := demo.fileJob "L1" "/data/photos/a.jpg" false in
  passesGuards demo.env video demo.imported
  ∧ passesGuards demo.env forced demo.imported
  ∧ passesGuards demo.env unforced demo.imported
  ∧ stat demo.env "/data/photos/b.mp4" = Some (Stats.mk 2000 0)
  ∧ stat demo.env "/data/photos/a.jpg" = Some (Stats.mk 1000 0)
  ∧ (∃ id, pushed demo.imported
             (LibraryService.handleAssetRefresh demo.env video demo.imported).2
           = [METADATA_EXTRACTION id "upload"; VIDEO_CONVERSION id])
  ∧ pushed demo.imported
      (LibraryService.handleAssetRefresh demo.env forced demo.imported).2
    = [METADATA_EXTRACTION "a1" "upload"]
  ∧ pushed demo.imported
      (LibraryService.handleAssetRefresh demo.env unforced demo.imported).2
    = [].
Proof.
  intros video forced unforced.
  assert (passesGuards demo.env video demo.imported) as Hvideo
    by (by apply demo_passesGuards).
  assert (passesGuards demo.env forced demo.imported) as Hforced
    by (by apply demo_passesGuards).
  assert (passesGuards demo.env unforced demo.imported) as Hunforced
    by (by apply demo_passesGuards).
  assert (stat demo.env "/data/photos/b.mp4" = Some (Stats.mk 2000 0)) as Hb by reflexivity.
  assert (stat demo.env "/data/photos/a.jpg" = Some (Stats.mk 1000 0)) as Ha by reflexivity.
  do 5 (split; [assumption|]). split; [|split].
  - destruct (proj1 (processing_jobs_fan_out demo.env video demo.imported _ Hvideo Hb)
                VIDEO eq_refl eq_refl eq_refl) as (id & _ & _ & _ & Hpushed).
    exists id. exact Hpushed.
  - refine (proj2 (proj1 (proj2 (processing_jobs_fan_out demo.env forced demo.imported _
                                    Hforced Ha))
                     "a1" (demo.asset "L1" "/data/photos/a.jpg" 1000 IMAGE false) IMAGE
                     _ _ _));
      by vm_compute.
  - refine (proj2 (proj2 (proj2 (processing_jobs_fan_out demo.env unforced demo.imported _
                                    Hunforced Ha))
                     "a1" (demo.asset "L1" "/data/photos/a.jpg" 1000 IMAGE false)
                     _ _));
      by vm_compute.
Defined.

(** C5, on the installation: [L1] soft-deleted with two assets left, one of
    them offline; the same library once its assets are gone; an id no
    library has. *)
Lemma handleDeleteLibrary_converges_witness :
  let emptied :=
    demo.store (<["L1" := demo.external "u1" ["/data/photos"] (Some 4500%Z)]> demo.libraries)
               ∅ in
  LibraryService.handleDeleteLibrary (IEntityJob.mk "nowhere") demo.deleting
    = (Return false, demo.deleting)
  ∧ (∃ assetIds,
       assetIds ≡ₚ ["a1"; "a2"]
       ∧ pushed demo.deleting
           (LibraryService.handleDeleteLibrary (IEntityJob.mk "L1") demo.deleting).2
         = (λ assetId, ASSET_DELETION assetId true) <$> assetIds)
  ∧ libraries (LibraryService.handleDeleteLibrary (IEntityJob.mk "L1") demo.deleting).2 !! "L1"
    = Some (demo.external "u1" ["/data/photos"] (Some 4500%Z))
  ∧ libraries (LibraryService.handleDeleteLibrary (IEntityJob.mk "L1") emptied).2 !! "L1"
    = None.
Proof.
  intros emptied.
  pose proof (handleDeleteLibrary_converges (IEntityJob.mk "nowhere") demo.deleting)
    as (_ & _ & Habsent & _).
  pose proof (handleDeleteLibrary_converges (IEntityJob.mk "L1") demo.deleting)
    as (_ & _ & _ & Hleft).
  pose proof (handleDeleteLibrary_converges (IEntityJob.mk "L1") emptied)
    as (_ & _ & _ & Hgone).
  destruct (Hleft (demo.external "u1" ["/data/photos"] (Some 4500%Z)) eq_refl)
    as (Hrun & _ & Hstays & _).
  destruct (Hgone (demo.external "u1" ["/data/photos"] (Some 4500%Z)) eq_refl)
    as (_ & Hremoved & _).
  split; [exact (Habsent eq_refl)|]. split; [|split].
  - exists (assetIdsOf "L1" demo.deleting). split; [by vm_compute|].
    rewrite Hrun. apply pushed_app.
  - apply Hstays. by vm_compute.
  - apply Hremoved. by vm_compute.
Defined.

(** C6, on the installation: the first user asks to delete [U1], the only
    upload library they have. *)
Lemma delete_last_upload_library_rejected_witness :
  libraries demo.empty !! "U1" = Some (demo.upload "u1")
  ∧ repository.getUploadLibraryCount "u1" demo.empty = (Return 1, demo.empty)
  ∧ LibraryService.delete demo.env (AuthUserDto.mk "u1") "U1" demo.empty
    = (Throw (BadRequestException "Cannot delete the last upload library"), demo.empty).
Proof.
  assert (libraries demo.empty !! "U1" = Some (demo.upload "u1")) as Hlib by reflexivity.
  assert (repository.getUploadLibraryCount "u1" demo.empty = (Return 1, demo.empty))
    as Hcount by (by vm_compute).
  do 2 (split; [assumption|]).
  destruct (delete_last_upload_library_rejected demo.env (AuthUserDto.mk "u1") "U1"
              demo.empty (demo.upload "u1") 1 Hlib eq_refl Hcount (le_n 1)
              (λ _, eq_refl))
    as (message & Hthrows & _ & _ & Hmessage).
  rewrite Hthrows. by rewrite (Hmessage eq_refl eq_refl).
Defined.

(** C8 as claimed fails on the installation: [L3] is there, alive and
    external, but its owner has no external root; the scan returns [false]
    and the library has no [refreshedAt] afterwards. *)
Lemma scan_without_external_root_leaves_no_timestamp :
  libraries demo.empty !! "L3" = Some (demo.external "u2" ["/data/photos"] None)
  ∧ LibraryService.handleQueueAssetRefresh demo.env (demo.scanJob "L3") demo.empty
    = (Return false, demo.empty)
  ∧ ¬ ∃ library,
        libraries
          (LibraryService.handleQueueAssetRefresh demo.env (demo.scanJob "L3") demo.empty).2
          !! "L3" = Some library
        ∧ LibraryEntity.refreshedAt library = Some (now demo.env).
Proof.
  split; [reflexivity|]. split; [by vm_compute|].
  intros (library & Hlib & Hstamp).
  vm_compute in Hlib. injection Hlib as <-. discriminate Hstamp.
Qed.

(** C8 as amended, on the installation: the scan of [L1] gets past the
    guards and stamps it; the scan of [L3], whose owner has no external
    root, returns [false] and writes nothing. *)
Lemma scan_writes_only_queue_and_timestamp_witness :
  scans demo.env (demo.scanJob "L1") demo.empty
        (demo.external "u1" ["/data/photos"] None)
        ["/data/photos/a.jpg"; "/data/photos/b.mp4"; "/data/photos/d.png"]
  ∧ (LibraryService.handleQueueAssetRefresh demo.env (demo.scanJob "L1") demo.empty).1
    = Return true
  ∧ libraries
      (LibraryService.handleQueueAssetRefresh demo.env (demo.scanJob "L1") demo.empty).2
      !! "L1"
    = Some (LibraryEntity.mk "u1" EXTERNAL "Photos" ["/data/photos"] [] true
              (Some 5000%Z) None)
  ∧ libraries demo.empty !! "L3" = Some (demo.external "u2" ["/data/photos"] None)
  ∧ users demo.empty !! "u2" = Some (UserEntity.mk None)
  ∧ LibraryService.handleQueueAssetRefresh demo.env (demo.scanJob "L3") demo.empty
    = (Return false, demo.empty).
Proof.
  assert (scans demo.env (demo.scanJob "L1") demo.empty
            (demo.external "u1" ["/data/photos"] None)
            ["/data/photos/a.jpg"; "/data/photos/b.mp4"; "/data/photos/d.png"]) as Hscans.
  { split; [by vm_compute|]. split; [reflexivity|].
    exists "/data/photos". split; [reflexivity|]. by vm_compute. }
  assert (libraries demo.empty !! "L3" = Some (demo.external "u2" ["/data/photos"] None))
    as Hlib by reflexivity.
  assert (users demo.empty !! "u2" = Some (UserEntity.mk None)) as Huser by reflexivity.
  pose proof (scan_writes_only_queue_and_timestamp demo.env (demo.scanJob "L1") demo.empty)
    as (_ & _ & _ & _ & Hpast & _ & Hstamp & _).
  pose proof (scan_writes_only_queue_and_timestamp demo.env (demo.scanJob "L3") demo.empty)
    as (_ & _ & _ & _ & _ & _ & _ & Hstopped & _).
  split; [exact Hscans|]. split; [exact (proj1 (Hpast _ _ Hscans))|]. split.
  - destruct (Hstamp _ _ Hscans) as [(library' & Hafter & _ & Hrecord) _].
    cbn [ILibraryRefreshJob.id demo.scanJob] in Hafter. rewrite Hafter, Hrecord.
    reflexivity.
  - split; [exact Hlib|]. split; [exact Huser|].
    apply Hstopped. cbn [ILibraryRefreshJob.id demo.scanJob]. rewrite Hlib.
    intros library [= <-]. right. right. reflexivity.
Defined.

(** C2 as claimed fails on the installation, where nothing on the disk
    changes between two scans of [L1] with both flags off.  When no job of
    the first scan has been delivered yet, the second scan pushes the same
    three per-path jobs again.  And on the day [d.png] cannot be read, with
    every job of the first scan delivered, the job for [d.png] has failed
    and left no asset, and the second scan pushes it again. *)
Lemma rescan_pushes_the_jobs_again :
  pushed demo.empty
    (LibraryService.handleQueueAssetRefresh demo.env (demo.scanJob "L1") demo.empty).2
  = [LIBRARY_SCAN_ASSET (demo.fileJob "L1" "/data/photos/a.jpg" false);
     LIBRARY_SCAN_ASSET (demo.fileJob "L1" "/data/photos/b.mp4" false);
     LIBRARY_SCAN_ASSET (demo.fileJob "L1" "/data/photos/d.png" false)]
  ∧ pushed
      (LibraryService.handleQueueAssetRefresh demo.env (demo.scanJob "L1") demo.empty).2
      (LibraryService.handleQueueAssetRefresh demo.env (demo.scanJob "L1")
         (LibraryService.handleQueueAssetRefresh demo.env (demo.scanJob "L1") demo.empty).2).2
    = [LIBRARY_SCAN_ASSET (demo.fileJob "L1" "/data/photos/a.jpg" false);
       LIBRARY_SCAN_ASSET (demo.fileJob "L1" "/data/photos/b.mp4" false);
       LIBRARY_SCAN_ASSET (demo.fileJob "L1" "/data/photos/d.png" false)]
  ∧ pushed demo.empty
      (LibraryService.handleQueueAssetRefresh demo.unreadable (demo.scanJob "L1")
         demo.empty).2
    = [LIBRARY_SCAN_ASSET (demo.fileJob "L1" "/data/photos/a.jpg" false);
       LIBRARY_SCAN_ASSET (demo.fileJob "L1" "/data/photos/b.mp4" false);
       LIBRARY_SCAN_ASSET (demo.fileJob "L1" "/data/photos/d.png" false)]
  ∧ (LibraryService.handleAssetRefresh demo.unreadable
       (demo.fileJob "L1" "/data/photos/d.png" false)
       (LibraryService.handleQueueAssetRefresh demo.unreadable (demo.scanJob "L1")
          demo.empty).2).1
    = Throw (BadRequestException "Can't access file")
  ∧ pushed
      (runJobs demo.unreadable
         (pushed demo.empty
            (LibraryService.handleQueueAssetRefresh demo.unreadable (demo.scanJob "L1")
               demo.empty).2)
         (LibraryService.handleQueueAssetRefresh demo.unreadable (demo.scanJob "L1")
            demo.empty).2)
      (LibraryService.handleQueueAssetRefresh demo.unreadable (demo.scanJob "L1")
         (runJobs demo.unreadable
            (pushed demo.empty
               (LibraryService.handleQueueAssetRefresh demo.unreadable (demo.scanJob "L1")
                  demo.empty).2)
            (LibraryService.handleQueueAssetRefresh demo.unreadable (demo.scanJob "L1")
               demo.empty).2)).2
    = [LIBRARY_SCAN_ASSET (demo.fileJob "L1" "/data/photos/d.png" false)].
Proof. repeat split; by vm_compute. Qed.

(** C2 as amended, on the installation: [a.jpg] is imported and
    unchanged; and a first scan of [L1] over an empty catalog, its jobs
    delivered in the order they were pushed, then a second scan. *)
Lemma unchanged_rerun_is_noop_witness :
  LibraryService.handleAssetRefresh demo.env
      (demo.fileJob "L1" "/data/photos/a.jpg" false) demo.imported
    = (Return true, demo.imported)
  ∧ (∀ data,
       LIBRARY_SCAN_ASSET data
         ∉ pushed
             (runJobs demo.env
                (pushed demo.empty
                   (LibraryService.handleQueueAssetRefresh demo.env (demo.scanJob "L1")
                      demo.empty).2)
                (LibraryService.handleQueueAssetRefresh demo.env (demo.scanJob "L1")
                   demo.empty).2)
             (LibraryService.handleQueueAssetRefresh demo.env (demo.scanJob "L1")
                (runJobs demo.env
                   (pushed demo.empty
                      (LibraryService.handleQueueAssetRefresh demo.env (demo.scanJob "L1")
                         demo.empty).2)
                   (LibraryService.handleQueueAssetRefresh demo.env (demo.scanJob "L1")
                      demo.empty).2)).2).
Proof.
  destruct (unchanged_rerun_is_noop demo.env) as [Hnoop Hrescan].
  split.
  - refine (proj1 (proj2 (Hnoop (demo.fileJob "L1" "/data/photos/a.jpg" false) demo.imported
                            "a1" (demo.asset "L1" "/data/photos/a.jpg" 1000 IMAGE false)
                            (Stats.mk 1000 0) _ eq_refl eq_refl eq_refl eq_refl)) _).
    + by vm_compute.
    + by apply demo_passesGuards.
  - exact (Hrescan (demo.scanJob "L1") demo.empty _ eq_refl eq_refl
             posix_normalize_idempotent demo_crawl_media (λ _ H, H) (λ _ H, H)).
Defined.

(** ** Containment *)

(** On a root without syntax characters the reference engine's anchored
    expression is the string-prefix test. *)
Lemma posix_matchHere_prefix root s :
  forallb (λ c, negb (posix.isSyntaxCharacter c)) (list_ascii_of_string root) = true →
  posix.matchHere root s = String.prefix root s.
Proof.
  revert s. induction root as [|p root IH]; intros s Hordinary; [by destruct s|].
  cbn in Hordinary. apply andb_true_iff in Hordinary as [Hp Hroot].
  destruct s as [|c s]; [done|].
  change (String.prefix (String p root) (String c s))
    with (if ascii_dec p c then String.prefix root s else false).
  cbn [posix.matchHere].
  assert (Ascii.eqb p "." = false) as ->.
  { destruct (Ascii.eqb p ".") eqn:Hdot; [|done].
    apply Ascii.eqb_eq in Hdot. subst p. discriminate Hp. }
  destruct (ascii_dec p c) as [->|Hne].
  - rewrite Ascii.eqb_refl. by apply IH.
  - by apply Ascii.eqb_neq in Hne as ->.
Qed.

Lemma posix_RegExp_prefix root :
  forallb (λ c, negb (posix.isSyntaxCharacter c)) (list_ascii_of_string root) = true →
  ∃ re, posix.RegExp ("^" +:+ root) = Some re ∧ ∀ s, re s = String.prefix root s.
Proof.
  intros Hordinary. exists (posix.matchHere root). split.
  - change ("^" +:+ root) with (String "^" root). cbn [posix.RegExp].
    replace (forallb _ (list_ascii_of_string root)) with true; [done|].
    symmetry. rewrite forallb_forall in *. intros c Hc.
    by rewrite (Hordinary c Hc), orb_true_r.
  - intros s. by apply posix_matchHere_prefix.
Qed.

(** What the guard of [handleAssetRefresh] does guarantee: a path the
    expression does not match is turned away with the store untouched. *)
Lemma unmatched_path_is_rejected env job st externalPath re :
  truthy_string ((users st !! ILibraryFileJob.ownerId job)?.UserEntity.externalPath)
    = Some externalPath →
  RegExp env ("^" +:+ path_normalize env externalPath) = Some re →
  re (path_normalize env (path_normalize env (ILibraryFileJob.assetPath job))) = false →
  LibraryService.handleAssetRefresh env job st = (Return false, st).
Proof. apply handleAssetRefresh_outside. Qed.

(** And what the scan guarantees: every per-path job it pushes carries a
    crawled path that the expression matched. *)
Lemma scanned_paths_match env job st library crawled data :
  scans env job st library crawled →
  LIBRARY_SCAN_ASSET data
    ∈ pushed st (LibraryService.handleQueueAssetRefresh env job st).2 →
  ∃ externalPath re path,
    truthy_string ((users st !! LibraryEntity.ownerId library)?.UserEntity.externalPath)
      = Some externalPath
    ∧ RegExp env ("^" +:+ path_normalize env externalPath) = Some re
    ∧ re path = true
    ∧ ILibraryFileJob.assetPath data = path_normalize env path
    ∧ path ∈ path_normalize env <$>
               crawl env (LibraryEntity.importPaths library)
                         (LibraryEntity.exclusionPatterns library).
Proof.
  intros Hscans.
  rewrite (handleQueueAssetRefresh_scans env job st library crawled Hscans). cbn [snd].
  rewrite pushed_app. intros Hin.
  apply elem_of_app in Hin as [Hin|Hin];
    [apply elem_of_offlineJobs in Hin as (? & _ & ?); discriminate|].
  apply elem_of_fileJobs in Hin as (path & Hpath & [= ->]).
  destruct Hscans as (_ & _ & ext & Hext & Hcrawled).
  destruct (RegExp env _) as [re|] eqn:Hre;
    [|destruct Hcrawled as [_ ->]; by apply elem_of_nil in Hpath].
  subst crawled. apply list_elem_of_In, filter_In in Hpath as [Hin Hmatch].
  exists ext, re, path. repeat split; try done. by apply list_elem_of_In.
Qed.

(** C1, where the code parts from the claim.  The external root is
    [/data/photos]; the library [L2] crawls the sibling directory
    [/data/photos2].  The file [/data/photos2/c.jpg] does not lie under the
    root, yet the expression [^/data/photos] matches it: the scan pushes a
    per-path job for it, and the handler run on that job returns [true] and
    creates an asset record for the path. *)
Theorem sibling_directory_passes_containment :
  UserEntity.externalPath <$> users demo.empty !! "u1" = Some (Some "/data/photos")
  ∧ liesUnder "/data/photos" "/data/photos2/c.jpg" = false
  ∧ pushed demo.empty
      (LibraryService.handleQueueAssetRefresh demo.env (demo.scanJob "L2") demo.empty).2
    = [LIBRARY_SCAN_ASSET (demo.fileJob "L2" "/data/photos2/c.jpg" false)]
  ∧ (LibraryService.handleAssetRefresh demo.env
       (demo.fileJob "L2" "/data/photos2/c.jpg" false) demo.empty).1
    = Return true
  ∧ assets demo.empty = ∅
  ∧ ∃ id a,
      assets (LibraryService.handleAssetRefresh demo.env
                (demo.fileJob "L2" "/data/photos2/c.jpg" false) demo.empty).2 !! id
      = Some a
      ∧ AssetEntity.originalPath a = "/data/photos2/c.jpg"
      ∧ AssetEntity.ownerId a = "u1".
Proof.
  split; [reflexivity|]. split; [reflexivity|]. split; [by vm_compute|].
  split; [by vm_compute|]. split; [reflexivity|].
  exists "0". eexists. split; [by vm_compute|]. split; reflexivity.
Qed.

(** * The rest of the service *)

(** Symbolic execution of the request handlers. *)
Ltac run :=
  cbv [LibraryService.get LibraryService.create LibraryService.queueScan
       LibraryService.queueRemoveOffline LibraryService.handleQueueAllScan
       LibraryService.handleOfflineRemoval LibraryService.delete
       LibraryService.findOrFail access.requirePermission
       jobRepository.queue repository.softDelete repository.create
       mbind Async_bind bind mret Async_ret ret throw gets modify].

(** ** Creating a library *)

Section create.
Context {LibraryResponseDto : Type}
        (mapLibrary : string * LibraryEntity.t → LibraryResponseDto).
Context (authUser : AuthUserDto.t) (dto : CreateLibraryDto.t) (st : Store).

Lemma create_rejected :
  CreateLibraryDto.type dto = UPLOAD →
  nonEmpty (CreateLibraryDto.importPaths dto)
  || nonEmpty (CreateLibraryDto.exclusionPatterns dto) = true →
  LibraryService.create mapLibrary authUser dto st
    = (Throw (BadRequestException
                (if nonEmpty (CreateLibraryDto.importPaths dto)
                 then "Upload libraries cannot have import paths"
                 else "Upload libraries cannot have exclusion patterns")), st).
Proof.
  intros Htype Hpaths. run. rewrite Htype.
  destruct (nonEmpty (CreateLibraryDto.importPaths dto)); [done|].
  cbn in Hpaths. by rewrite Hpaths.
Qed.

Lemma create_accepted :
  (CreateLibraryDto.type dto = UPLOAD →
   nonEmpty (CreateLibraryDto.importPaths dto) = false
   ∧ nonEmpty (CreateLibraryDto.exclusionPatterns dto) = false) →
  LibraryService.create mapLibrary authUser dto st
    = (Return (mapLibrary
                 (fresh (dom (libraries st)),
                  LibraryEntity.mk (AuthUserDto.id authUser) (CreateLibraryDto.type dto)
                    (default (match CreateLibraryDto.type dto with
                              | EXTERNAL => "New External Library"
                              | UPLOAD => "New Upload Library"
                              end)
                             (truthy_string (CreateLibraryDto.name dto)))
                    (default [] (CreateLibraryDto.importPaths dto))
                    (default [] (CreateLibraryDto.exclusionPatterns dto))
                    (default true (CreateLibraryDto.isVisible dto)) None None)),
       set_libraries
         (insert (fresh (dom (libraries st)))
            (LibraryEntity.mk (AuthUserDto.id authUser) (CreateLibraryDto.type dto)
               (default (match CreateLibraryDto.type dto with
                         | EXTERNAL => "New External Library"
                         | UPLOAD => "New Upload Library"
                         end)
                        (truthy_string (CreateLibraryDto.name dto)))
               (default [] (CreateLibraryDto.importPaths dto))
               (default [] (CreateLibraryDto.exclusionPatterns dto))
               (default true (CreateLibraryDto.isVisible dto)) None None))
         st).
Proof.
  intros Hpaths. run.
  destruct (CreateLibraryDto.type dto); [done|].
  destruct (Hpaths eq_refl) as [-> ->]. done.
Qed.
End create.

Lemma nonEmpty_false {A} (xs : option (list A)) :
  nonEmpty xs = false → default [] xs = [].
Proof. by destruct xs as [[|x l]|]. Qed.

(** ** Deleting a library on request *)

Lemma getUploadLibraryCount_run ownerId st :
  repository.getUploadLibraryCount ownerId st = (Return (uploadLibraryCount ownerId st), st).
Proof. done. Qed.

Lemma repository_get_hidden id st library deletedAt :
  libraries st !! id = Some library →
  LibraryEntity.deletedAt library = Some deletedAt →
  repository.get id false st = (Return None, st).
Proof.
  intros Hlib Hdel. unfold repository.get, gets. by rewrite Hlib, Hdel.
Qed.

Lemma repository_get_live id st library :
  libraries st !! id = Some library →
  LibraryEntity.deletedAt library = None →
  repository.get id false st = (Return (Some library), st).
Proof.
  intros Hlib Hdel. unfold repository.get, gets. by rewrite Hlib, Hdel.
Qed.

Section delete.
Context (env : Env) (authUser : AuthUserDto.t) (id : string) (st : Store).

Lemma delete_refused :
  hasPermission env authUser Permission.LIBRARY_DELETE id = false →
  LibraryService.delete env authUser id st
    = (Throw (BadRequestException "Not found or no access"), st).
Proof. intros Hperm. run. by rewrite Hperm. Qed.

Context (Hperm : hasPermission env authUser Permission.LIBRARY_DELETE id = true).

Lemma delete_not_found :
  repository.get id false st = (Return None, st) →
  LibraryService.delete env authUser id st
    = (Throw (BadRequestException "Library not found"), st).
Proof. intros Hget. run. by rewrite Hperm, Hget. Qed.

Context (library : LibraryEntity.t)
        (Hget : repository.get id false st = (Return (Some library), st)).

Lemma delete_last_upload :
  LibraryEntity.type library = UPLOAD →
  (uploadLibraryCount (AuthUserDto.id authUser) st ≤ 1)%nat →
  LibraryService.delete env authUser id st
    = (Throw (BadRequestException "Cannot delete the last upload library"), st).
Proof.
  intros Htype Hcount. run. rewrite Hperm, Hget. step.
  rewrite getUploadLibraryCount_run. step.
  rewrite bool_decide_eq_true_2 by done.
  by replace (_ <=? 1)%nat with true by (symmetry; by apply Nat.leb_le).
Qed.

Lemma delete_run :
  (LibraryEntity.type library = UPLOAD →
   (2 ≤ uploadLibraryCount (AuthUserDto.id authUser) st)%nat) →
  LibraryService.delete env authUser id st
    = (Return (),
       {| libraries := alter (LibraryEntity.with_deletedAt (Some (now env))) id (libraries st);
          assets := assets st;
          users := users st;
          jobs := jobs st ++ [LIBRARY_DELETE id] |}).
Proof.
  intros Hcount. run. rewrite Hperm, Hget. step.
  rewrite getUploadLibraryCount_run. step.
  destruct (decide (LibraryEntity.type library = UPLOAD)) as [Htype|Htype].
  - rewrite bool_decide_eq_true_2 by done.
    replace (_ <=? 1)%nat with false; [done|].
    symmetry. apply Nat.leb_gt. specialize (Hcount Htype). lia.
  - by rewrite bool_decide_eq_false_2.
Qed.
End delete.

(** Every way through [delete]. *)
Lemma delete_cases env authUser id st :
  (∃ library,
     hasPermission env authUser Permission.LIBRARY_DELETE id = true
     ∧ libraries st !! id = Some library
     ∧ LibraryEntity.deletedAt library = None
     ∧ (LibraryEntity.type library = UPLOAD →
        (2 ≤ uploadLibraryCount (AuthUserDto.id authUser) st)%nat)
     ∧ LibraryService.delete env authUser id st
       = (Return (),
          {| libraries :=
               alter (LibraryEntity.with_deletedAt (Some (now env))) id (libraries st);
             assets := assets st;
             users := users st;
             jobs := jobs st ++ [LIBRARY_DELETE id] |}))
  ∨ ∃ message,
      LibraryService.delete env authUser id st = (Throw (BadRequestException message), st).
Proof.
  destruct (hasPermission env authUser Permission.LIBRARY_DELETE id) eqn:Hperm.
  2: { right. eexists. by apply delete_refused. }
  assert (∃ l, repository.get id false st = (Return l, st))
    as [[library|] Hget] by (eexists; reflexivity).
  2: { right. eexists. by apply delete_not_found. }
  destruct (decide (LibraryEntity.type library = UPLOAD
                    ∧ (uploadLibraryCount (AuthUserDto.id authUser) st ≤ 1)%nat))
    as [[Htype Hcount]|Hok].
  { right. eexists. by eapply delete_last_upload. }
  left. exists library. pose proof (repository_get_alive _ _ _ Hget) as [Hlib Halive].
  do 3 (split; [done|]).
  assert (LibraryEntity.type library = UPLOAD →
          (2 ≤ uploadLibraryCount (AuthUserDto.id authUser) st)%nat) as Hcount.
  { intros Htype. destruct (decide (2 ≤ uploadLibraryCount (AuthUserDto.id authUser) st)%nat);
      [done|]. exfalso. apply Hok. split; [done|lia]. }
  split; [done|]. by eapply delete_run.
Qed.

(** ** Asking for a scan *)

Section queueScan.
Context (env : Env) (authUser : AuthUserDto.t) (id : string) (dto : ScanLibraryDto.t)
        (st : Store).

Lemma queueScan_refused :
  hasPermission env authUser Permission.LIBRARY_UPDATE id = false →
  LibraryService.queueScan env authUser id dto st
    = (Throw (BadRequestException "Not found or no access"), st).
Proof. intros Hperm. run. by rewrite Hperm. Qed.

Context (Hperm : hasPermission env authUser Permission.LIBRARY_UPDATE id = true).

Lemma queueScan_not_external :
  (∀ library, repository.get id false st = (Return (Some library), st) →
              LibraryEntity.type library ≠ EXTERNAL) →
  LibraryService.queueScan env authUser id dto st
    = (Throw (BadRequestException "Can only refresh external libraries"), st).
Proof.
  intros Hnot. run. rewrite Hperm.
  assert (∃ l, repository.get id false st = (Return l, st))
    as [[library|] Hget] by (eexists; reflexivity); rewrite Hget; [|done].
  step. by rewrite bool_decide_eq_false_2 by (by apply Hnot).
Qed.

Lemma queueScan_run library :
  repository.get id false st = (Return (Some library), st) →
  LibraryEntity.type library = EXTERNAL →
  LibraryService.queueScan env authUser id dto st
    = (Return (),
       {| libraries := libraries st;
          assets := assets st;
          users := users st;
          jobs := jobs st
                  ++ [LIBRARY_SCAN
                        (ILibraryRefreshJob.mk id
                           (default false (ScanLibraryDto.refreshModifiedFiles dto))
                           (default false (ScanLibraryDto.refreshAllFiles dto)))] |}).
Proof.
  intros Hget Htype. run. rewrite Hperm, Hget. step.
  by rewrite bool_decide_eq_true_2.
Qed.
End queueScan.

(** ** The scheduled scan of every library *)

Lemma NoDup_externalLibraryIds st : NoDup (externalLibraryIds st).
Proof. apply NoDup_fst_map_to_list. Qed.

Lemma elem_of_externalLibraryIds st id :
  id ∈ externalLibraryIds st
  ↔ ∃ library, libraries st !! id = Some library ∧ LibraryEntity.type library = EXTERNAL.
Proof.
  unfold externalLibraryIds. rewrite list_elem_of_fmap. split.
  - intros ([id' l] & -> & Hin). apply elem_of_map_to_list in Hin.
    apply map_lookup_filter_Some in Hin as (? & ? & _). eauto.
  - intros (l & Hl & Htype). exists (id, l). split; [done|].
    apply elem_of_map_to_list, map_lookup_filter_Some. auto.
Qed.

Lemma handleQueueAllScan_run job st :
  LibraryService.handleQueueAllScan job st
    = (Return true,
       {| libraries := libraries st;
          assets := assets st;
          users := users st;
          jobs := jobs st
                  ++ LIBRARY_QUEUE_CLEANUP
                     :: (LIBRARY_SCAN ∘ scheduledScan job <$> externalLibraryIds st) |}).
Proof.
  run. unfold repository.getAll, gets. step.
  rewrite for_of_push. cbn. unfold externalLibraryIds.
  rewrite <- list_fmap_compose, <- app_assoc. done.
Qed.

(** ** Removing the offline assets *)

Lemma NoDup_offlineAssetIds libraryId st : NoDup (offlineAssetIds libraryId st).
Proof. apply NoDup_fst_map_to_list. Qed.

Lemma elem_of_offlineAssetIds libraryId st id :
  id ∈ offlineAssetIds libraryId st
  ↔ ∃ a, assets st !! id = Some a
         ∧ AssetEntity.libraryId a = libraryId
         ∧ AssetEntity.isOffline a = true.
Proof.
  unfold offlineAssetIds. rewrite list_elem_of_fmap. split.
  - intros ([id' a] & -> & Hin). apply elem_of_map_to_list in Hin.
    apply map_lookup_filter_Some in Hin as (? & ? & ?). eauto.
  - intros (a & Ha & Hlib & Hoff). exists (id, a). split; [done|].
    apply elem_of_map_to_list, map_lookup_filter_Some. auto.
Qed.

(** The pages, from any offset on: when the fuel covers what is left, the
    loop ends and has pushed one job for every id from the offset on. *)
Lemma usePagination_offline pageSize libraryId fuel :
  ∀ skip st,
    (0 < fuel)%nat →
    (length (drop skip (offlineAssetIds libraryId st)) ≤ fuel * pageSize)%nat →
    usePagination fuel pageSize skip
      (λ take skip, assetRepository.getWith_IS_OFFLINE take skip libraryId)
      (λ assets,
         for_of assets (λ asset : string * AssetEntity.t,
           jobRepository.queue (ASSET_DELETION asset.1 true))) st
    = (Return (Some ()),
       {| libraries := libraries st;
          assets := assets st;
          users := users st;
          jobs := jobs st
                  ++ ((λ id, ASSET_DELETION id true)
                        <$> drop skip (offlineAssetIds libraryId st)) |}).
Proof.
  induction fuel as [|fuel IH]; intros skip st Hfuel Hfits; [lia|].
  cbn [usePagination]. run. unfold assetRepository.getWith_IS_OFFLINE, gets.
  cbv beta iota zeta. cbn [PaginationResult.items PaginationResult.hasNextPage].
  rewrite for_of_push.
  set (found := map_to_list _) in *.
  assert (offlineAssetIds libraryId st = found.*1) as Hids by done.
  rewrite Hids in *. clear Hids.
  rewrite <- fmap_drop in *. rewrite length_fmap in Hfits.
  set (rest := drop skip found) in *.
  case_bool_decide as Hmore.
  - (* another page follows *)
    assert (0 < fuel)%nat as Hfuel'.
    { destruct fuel; [|lia]. cbn in Hfits. lia. }
    rewrite IH; [|done|].
    + cbn [libraries assets users jobs]. f_equal. f_equal.
      unfold offlineAssetIds. cbn [assets]. fold found.
      rewrite <- app_assoc. f_equal.
      rewrite <- fmap_drop, <- drop_drop. fold rest.
      rewrite <- (take_drop pageSize rest) at 3.
      rewrite !fmap_app, <- !list_fmap_compose. done.
    + unfold offlineAssetIds. cbn [assets]. fold found.
      rewrite <- fmap_drop, length_fmap, <- drop_drop. fold rest.
      rewrite length_drop. cbn in Hfits. lia.
  - (* the last page *)
    cbn [libraries assets users jobs]. f_equal. f_equal. f_equal.
    rewrite firstn_all2 by lia. by rewrite <- list_fmap_compose.
Qed.

Lemma handleOfflineRemoval_run pageSize fuel job st :
  (0 < fuel)%nat →
  (length (offlineAssetIds (IEntityJob.id job) st) ≤ fuel * pageSize)%nat →
  LibraryService.handleOfflineRemoval pageSize fuel job st
    = (Return (Some true),
       {| libraries := libraries st;
          assets := assets st;
          users := users st;
          jobs := jobs st
                  ++ ((λ id, ASSET_DELETION id true)
                        <$> offlineAssetIds (IEntityJob.id job) st) |}).
Proof.
  intros Hfuel Hfits. unfold LibraryService.handleOfflineRemoval.
  unfold mbind at 1. unfold Async_bind, bind.
  by rewrite usePagination_offline.
Qed.

(** Whatever the fuel, the loop touches the queue only. *)
Lemma usePagination_frame pageSize libraryId fuel :
  ∀ skip st,
    let after :=
      (usePagination fuel pageSize skip
         (λ take skip, assetRepository.getWith_IS_OFFLINE take skip libraryId)
         (λ assets,
            for_of assets (λ asset : string * AssetEntity.t,
              jobRepository.queue (ASSET_DELETION asset.1 true))) st).2 in
    libraries after = libraries st ∧ assets after = assets st ∧ users after = users st
    ∧ ∃ items, jobs after = jobs st ++ items.
Proof.
  cbv zeta. cbv [jobRepository.queue modify assetRepository.getWith_IS_OFFLINE gets].
  induction fuel as [|fuel IH]; intros skip st.
  { cbn. repeat split; try done. exists []. by rewrite app_nil_r. }
  cbn [usePagination]. run. unfold assetRepository.getWith_IS_OFFLINE, gets.
  cbv beta iota zeta. cbn [PaginationResult.items PaginationResult.hasNextPage].
  rewrite for_of_push.
  case_bool_decide.
  - match goal with |- context [usePagination fuel pageSize ?k _ _ ?s] =>
      destruct (IH k s) as (Hl & Ha & Hu & items & Hj) end.
    rewrite Hl, Ha, Hu, Hj. cbn. repeat split; try done.
    eexists. by rewrite <- app_assoc.
  - cbn. repeat split; try done. by eexists.
Qed.

(** ** The catalog constraint and what stays of a record *)

Lemma sameAsset_refl a : sameAsset a a.
Proof. by destruct a. Qed.

Lemma sameAsset_trans a b c : sameAsset a b → sameAsset b c → sameAsset a c.
Proof.
  unfold sameAsset. intros Hab Hbc. rewrite Hbc at 1. rewrite Hab at 1.
  by destruct a.
Qed.

Lemma sameAsset_with_isOffline b a : sameAsset a (AssetEntity.with_isOffline b a).
Proof. by destruct a. Qed.

Lemma sameAsset_with_fileDates c m a : sameAsset a (AssetEntity.with_fileDates c m a).
Proof. by destruct a. Qed.

Lemma sameAsset_place a a' :
  sameAsset a a' →
  AssetEntity.libraryId a' = AssetEntity.libraryId a
  ∧ AssetEntity.originalPath a' = AssetEntity.originalPath a.
Proof. unfold sameAsset. intros ->. done. Qed.

(** A write that keeps library and path keeps the constraint. *)
Lemma uniquePaths_alter f id (catalog : gmap string AssetEntity.t) :
  (∀ a, sameAsset a (f a)) →
  uniquePaths catalog → uniquePaths (alter f id catalog).
Proof.
  intros Hf Hunique id1 id2 a1 a2 H1 H2 Hlib Hpath.
  assert (∀ j y, alter f id catalog !! j = Some y →
                 ∃ x, catalog !! j = Some x ∧ sameAsset x y) as Hfrom.
  { intros j y Hy. apply lookup_alter_Some in Hy as [(_ & x & Hx & ->)|[_ Hy]].
    - exists x. split; [done|]. apply Hf.
    - exists y. split; [done|]. apply sameAsset_refl. }
  destruct (Hfrom _ _ H1) as (x1 & Hx1 & Hs1).
  destruct (Hfrom _ _ H2) as (x2 & Hx2 & Hs2).
  apply sameAsset_place in Hs1 as [Hl1 Hp1]. apply sameAsset_place in Hs2 as [Hl2 Hp2].
  apply (Hunique id1 id2 x1 x2); congruence.
Qed.

(** So does a new record at a place no record has. *)
Lemma uniquePaths_insert id a (catalog : gmap string AssetEntity.t) :
  (∀ id0 a0, catalog !! id0 = Some a0 →
     ¬ (AssetEntity.libraryId a0 = AssetEntity.libraryId a
        ∧ AssetEntity.originalPath a0 = AssetEntity.originalPath a)) →
  uniquePaths catalog → uniquePaths (<[id := a]> catalog).
Proof.
  intros Hnew Hunique id1 id2 a1 a2 H1 H2 Hlib Hpath.
  apply lookup_insert_Some in H1 as [[<- <-]|[Hne1 H1]];
    apply lookup_insert_Some in H2 as [[<- <-]|[Hne2 H2]]; try done.
  - exfalso. by apply (Hnew _ _ H2).
  - exfalso. by apply (Hnew _ _ H1).
  - by apply (Hunique id1 id2 a1 a2).
Qed.

(** Under the constraint the lookup by library and path finds the record. *)
Lemma getByLibraryIdAndOriginalPath_unique st id a :
  uniquePaths (assets st) →
  assets st !! id = Some a →
  assetRepository.getByLibraryIdAndOriginalPath
    (AssetEntity.libraryId a) (AssetEntity.originalPath a) st
  = (Return (Some (id, a)), st).
Proof.
  intros Hunique Ha.
  unfold assetRepository.getByLibraryIdAndOriginalPath, gets.
  replace (filter _ (assets st)) with ({[id := a]} : gmap string AssetEntity.t);
    [by rewrite map_to_list_singleton|].
  apply map_eq. intros j. apply option_eq. intros y.
  rewrite lookup_singleton_Some, map_lookup_filter_Some. split.
  - intros [<- <-]. done.
  - intros (Hy & Hlib & Hpath). cbn in Hlib, Hpath.
    assert (j = id) as -> by (by apply (Hunique j id y a)).
    split; [done|congruence].
Qed.

(** ** What a per-path job and an offline mark leave of the catalog *)

Lemma kept_alter f id (catalog : gmap string AssetEntity.t) id0 a0 :
  (∀ a, sameAsset a (f a)) →
  catalog !! id0 = Some a0 →
  ∃ a', alter f id catalog !! id0 = Some a' ∧ sameAsset a0 a'.
Proof.
  intros Hf Ha0. rewrite lookup_alter. case_decide as Heq.
  - subst. rewrite Ha0. cbn. eauto.
  - exists a0. split; [done|apply sameAsset_refl].
Qed.

Lemma kept_insert_fresh a (catalog : gmap string AssetEntity.t) id0 a0 :
  catalog !! id0 = Some a0 →
  ∃ a', <[fresh (dom catalog) := a]> catalog !! id0 = Some a' ∧ sameAsset a0 a'.
Proof.
  intros Ha0. exists a0. split; [|apply sameAsset_refl].
  rewrite lookup_insert_ne; [done|].
  intros <-. apply (is_fresh (dom catalog)), elem_of_dom. eauto.
Qed.

Lemma sameAsset_refreshed c m a :
  sameAsset a (AssetEntity.with_fileDates c m (AssetEntity.with_isOffline false a)).
Proof. by destruct a. Qed.

Lemma handleAssetRefresh_keeps env job st id0 a0 :
  assets st !! id0 = Some a0 →
  ∃ a', assets (LibraryService.handleAssetRefresh env job st).2 !! id0 = Some a'
        ∧ sameAsset a0 a'.
Proof.
  intros Ha0.
  handle_cases env job st; cbn [snd assets];
    try (exists a0; split; [done|apply sameAsset_refl]).
  - destruct (AssetEntity.isOffline a).
    + rewrite alter_alter_eq. apply kept_alter; [|done].
      intros x. apply sameAsset_refreshed.
    + apply kept_alter; [|done]. intros x. apply sameAsset_with_fileDates.
  - destruct (AssetEntity.isOffline a); cbn.
    + apply kept_alter; [|done]. intros x. apply sameAsset_with_isOffline.
    + exists a0; split; [done|apply sameAsset_refl].
  - apply kept_alter; [|done]. intros x. apply sameAsset_with_isOffline.
  - by apply kept_insert_fresh.
Qed.

Lemma handleAssetRefresh_unique env job st :
  uniquePaths (assets st) →
  uniquePaths (assets (LibraryService.handleAssetRefresh env job st).2).
Proof.
  intros Hunique.
  handle_cases env job st; cbn [snd assets]; try done.
  - destruct (AssetEntity.isOffline a).
    + rewrite alter_alter_eq. apply uniquePaths_alter; [|done].
      intros x. apply sameAsset_refreshed.
    + apply uniquePaths_alter; [|done]. intros x. apply sameAsset_with_fileDates.
  - destruct (AssetEntity.isOffline a); cbn; [|done].
    apply uniquePaths_alter; [|done]. intros x. apply sameAsset_with_isOffline.
  - apply uniquePaths_alter; [|done]. intros x. apply sameAsset_with_isOffline.
  - apply uniquePaths_insert; [|done]. intros id0 a0 Ha0.
    exact (getByLibraryIdAndOriginalPath_None st _ _ Hfind id0 a0 Ha0).
Qed.

Lemma handleAssetRefresh_queue env job st :
  ∃ items, jobs (LibraryService.handleAssetRefresh env job st).2 = jobs st ++ items.
Proof.
  handle_cases env job st; cbn [snd jobs];
    try (by eexists); try (exists []; by rewrite app_nil_r).
  destruct (AssetEntity.isOffline _); exists []; by rewrite app_nil_r.
Qed.

Lemma handleOfflineAsset_keeps job st id0 a0 :
  assets st !! id0 = Some a0 →
  ∃ a', assets (LibraryService.handleOfflineAsset job st).2 !! id0 = Some a'
        ∧ sameAsset a0 a'.
Proof.
  intros Ha0. rewrite handleOfflineAsset_run. cbn.
  destruct (head _) as [[id a]|]; cbn.
  - apply kept_alter; [|done]. intros x. apply sameAsset_with_isOffline.
  - exists a0. split; [done|apply sameAsset_refl].
Qed.

Lemma handleOfflineAsset_unique job st :
  uniquePaths (assets st) →
  uniquePaths (assets (LibraryService.handleOfflineAsset job st).2).
Proof.
  intros Hunique. rewrite handleOfflineAsset_run. cbn.
  destruct (head _) as [[id a]|]; cbn; [|done].
  apply uniquePaths_alter; [|done]. intros x. apply sameAsset_with_isOffline.
Qed.

Lemma handleOfflineAsset_queue job st :
  jobs (LibraryService.handleOfflineAsset job st).2 = jobs st.
Proof.
  rewrite handleOfflineAsset_run. cbn. by destruct (head _) as [[id a]|].
Qed.

(** ** Every operation *)

Lemma get_cases env {LibraryResponseDto : Type}
    (mapLibrary : string * LibraryEntity.t → LibraryResponseDto) authUser id st :
  (∃ library,
     hasPermission env authUser Permission.LIBRARY_READ id = true
     ∧ libraries st !! id = Some library
     ∧ LibraryEntity.deletedAt library = None
     ∧ LibraryService.get env mapLibrary authUser id st
       = (Return (mapLibrary (id, library)), st))
  ∨ ∃ message,
      LibraryService.get env mapLibrary authUser id st
        = (Throw (BadRequestException message), st)
      ∧ (hasPermission env authUser Permission.LIBRARY_READ id = true →
         message = "Library not found").
Proof.
  run. destruct (hasPermission env authUser Permission.LIBRARY_READ id).
  2: { right. eexists. split; [done|]. done. }
  assert (∃ l, repository.get id false st = (Return l, st))
    as [[library|] Hget] by (eexists; reflexivity); rewrite Hget.
  - left. exists library. apply repository_get_alive in Hget as [? ?]. done.
  - right. eexists. done.
Qed.

Lemma create_cases {LibraryResponseDto : Type}
    (mapLibrary : string * LibraryEntity.t → LibraryResponseDto) authUser dto st :
  (∃ library,
     (LibraryService.create mapLibrary authUser dto st).2
     = set_libraries (insert (fresh (dom (libraries st))) library) st)
  ∨ (LibraryService.create mapLibrary authUser dto st).2 = st.
Proof.
  destruct (decide (CreateLibraryDto.type dto = UPLOAD
                    ∧ nonEmpty (CreateLibraryDto.importPaths dto)
                      || nonEmpty (CreateLibraryDto.exclusionPatterns dto) = true))
    as [[Htype Hpaths]|Hok].
  - right. by rewrite create_rejected.
  - left. eexists. rewrite create_accepted; [done|].
    intros Htype. apply orb_false_iff.
    destruct (_ || _); [|done]. exfalso. by apply Hok.
Qed.

Lemma queueScan_cases env authUser id dto st :
  (∃ library,
     hasPermission env authUser Permission.LIBRARY_UPDATE id = true
     ∧ libraries st !! id = Some library
     ∧ LibraryEntity.deletedAt library = None
     ∧ LibraryEntity.type library = EXTERNAL
     ∧ LibraryService.queueScan env authUser id dto st
       = (Return (),
          {| libraries := libraries st;
             assets := assets st;
             users := users st;
             jobs := jobs st
                     ++ [LIBRARY_SCAN
                           (ILibraryRefreshJob.mk id
                              (default false (ScanLibraryDto.refreshModifiedFiles dto))
                              (default false (ScanLibraryDto.refreshAllFiles dto)))] |}))
  ∨ ∃ message,
      LibraryService.queueScan env authUser id dto st
        = (Throw (BadRequestException message), st)
      ∧ (hasPermission env authUser Permission.LIBRARY_UPDATE id = true →
         message = "Can only refresh external libraries").
Proof.
  destruct (hasPermission env authUser Permission.LIBRARY_UPDATE id) eqn:Hperm.
  2: { right. eexists. split; [by apply queueScan_refused|done]. }
  assert (∃ l, repository.get id false st = (Return l, st))
    as [[library|] Hget] by (eexists; reflexivity).
  2: { right. eexists. split; [|done]. apply queueScan_not_external; [done|].
       intros library Hget'. congruence. }
  destruct (decide (LibraryEntity.type library = EXTERNAL)) as [Htype|Htype].
  - left. exists library. pose proof (repository_get_alive _ _ _ Hget) as [? ?].
    do 4 (split; [done|]). by eapply queueScan_run.
  - right. eexists. split; [|done]. apply queueScan_not_external; [done|].
    intros library' Hget'. congruence.
Qed.

Lemma queueRemoveOffline_run env authUser id st :
  LibraryService.queueRemoveOffline env authUser id st
  = if hasPermission env authUser Permission.LIBRARY_UPDATE id
    then (Return (),
          {| libraries := libraries st;
             assets := assets st;
             users := users st;
             jobs := jobs st ++ [LIBRARY_REMOVE_OFFLINE id] |})
    else (Throw (BadRequestException "Not found or no access"), st).
Proof. run. by destruct (hasPermission _ _ _ _). Qed.

Lemma handleDeleteLibrary_frame job st :
  assets (LibraryService.handleDeleteLibrary job st).2 = assets st
  ∧ users (LibraryService.handleDeleteLibrary job st).2 = users st
  ∧ ∃ items, jobs (LibraryService.handleDeleteLibrary job st).2 = jobs st ++ items.
Proof.
  destruct (libraries st !! IEntityJob.id job) as [library|] eqn:Hlib.
  - rewrite (handleDeleteLibrary_run job st library Hlib). cbn. by eauto.
  - rewrite (handleDeleteLibrary_absent job st Hlib). cbn.
    repeat split. exists []. by rewrite app_nil_r.
Qed.

Lemma handleQueueAssetRefresh_frame env job st :
  assets (LibraryService.handleQueueAssetRefresh env job st).2 = assets st
  ∧ users (LibraryService.handleQueueAssetRefresh env job st).2 = users st
  ∧ ∃ items, jobs (LibraryService.handleQueueAssetRefresh env job st).2 = jobs st ++ items.
Proof.
  destruct (handleQueueAssetRefresh_cases env job st)
    as [(library & crawled & Hscans)|(_ & -> & _)].
  - rewrite (handleQueueAssetRefresh_scans env job st library crawled Hscans). cbn.
    by eauto.
  - repeat split. exists []. by rewrite app_nil_r.
Qed.

Lemma handleOfflineRemoval_frame pageSize fuel job st :
  let after := (LibraryService.handleOfflineRemoval pageSize fuel job st).2 in
  libraries after = libraries st ∧ assets after = assets st ∧ users after = users st
  ∧ ∃ items, jobs after = jobs st ++ items.
Proof.
  cbv zeta. unfold LibraryService.handleOfflineRemoval.
  unfold mbind, Async_bind, bind.
  pose proof (usePagination_frame pageSize (IEntityJob.id job) fuel 0 st) as Hframe.
  cbv zeta in Hframe.
  destruct (usePagination _ _ _ _ _ st) as [[finished|e] after]; exact Hframe.
Qed.

(** The operations that are not the per-path job and not the offline mark
    leave the asset table as it is. *)
Lemma perform_assets env {LibraryResponseDto : Type}
    (mapLibrary : string * LibraryEntity.t → LibraryResponseDto) pageSize op st :
  (∀ job, op ≠ HandleAssetRefresh job) →
  (∀ job, op ≠ HandleOfflineAsset job) →
  assets (perform env mapLibrary pageSize op st) = assets st.
Proof.
  intros Hrefresh Hmark. destruct op; cbn [perform].
  - by destruct (get_cases env mapLibrary authUser id st)
      as [(? & _ & _ & _ & ->)|(? & -> & _)].
  - by destruct (create_cases mapLibrary authUser dto st) as [[? ->]| ->].
  - by destruct (delete_cases env authUser id st) as [(? & _ & _ & _ & _ & ->)|(? & ->)].
  - by destruct (queueScan_cases env authUser id dto st)
      as [(? & _ & _ & _ & _ & ->)|(? & -> & _)].
  - rewrite queueRemoveOffline_run. by destruct (hasPermission _ _ _ _).
  - by rewrite handleQueueCleanup_run.
  - apply handleDeleteLibrary_frame.
  - by destruct (Hrefresh job).
  - by rewrite handleQueueAllScan_run.
  - apply handleOfflineRemoval_frame.
  - apply handleQueueAssetRefresh_frame.
  - by destruct (Hmark job).
Qed.

Lemma perform_users_queue env {LibraryResponseDto : Type}
    (mapLibrary : string * LibraryEntity.t → LibraryResponseDto) pageSize op st :
  users (perform env mapLibrary pageSize op st) = users st
  ∧ ∃ items, jobs (perform env mapLibrary pageSize op st) = jobs st ++ items.
Proof.
  assert (∃ items : list JobItem, jobs st = jobs st ++ items) as Hnone
    by (exists []; by rewrite app_nil_r).
  destruct op; cbn [perform].
  - by destruct (get_cases env mapLibrary authUser id st)
      as [(? & _ & _ & _ & ->)|(? & -> & _)].
  - by destruct (create_cases mapLibrary authUser dto st) as [[? ->]| ->].
  - destruct (delete_cases env authUser id st)
      as [(? & _ & _ & _ & _ & ->)|(? & ->)]; [|done]. cbn. by eauto.
  - destruct (queueScan_cases env authUser id dto st)
      as [(? & _ & _ & _ & _ & ->)|(? & -> & _)]; [|done]. cbn. by eauto.
  - rewrite queueRemoveOffline_run. destruct (hasPermission _ _ _ _); [|done].
    cbn. by eauto.
  - rewrite handleQueueCleanup_run. cbn. by eauto.
  - apply handleDeleteLibrary_frame.
  - split; [apply handleAssetRefresh_frame|apply handleAssetRefresh_queue].
  - rewrite handleQueueAllScan_run. cbn. by eauto.
  - apply handleOfflineRemoval_frame.
  - apply handleQueueAssetRefresh_frame.
  - split; [apply handleOfflineAsset_frame|].
    rewrite handleOfflineAsset_queue. done.
Qed.

Lemma operation_kind op :
  (∃ job, op = HandleAssetRefresh job)
  ∨ (∃ job, op = HandleOfflineAsset job)
  ∨ ((∀ job, op ≠ HandleAssetRefresh job) ∧ (∀ job, op ≠ HandleOfflineAsset job)).
Proof. destruct op; eauto; right; right; by split. Qed.

(** ** Offline marks *)

(** The asset an offline mark for the place leaves in place of [a]. *)
Lemma handleOfflineAsset_lookup job st :
  uniquePaths (assets st) →
  ∀ id,
    assets (LibraryService.handleOfflineAsset job st).2 !! id
    = (λ a, if bool_decide (AssetEntity.libraryId a = IOfflineLibraryFileJob.id job
                            ∧ AssetEntity.originalPath a = IOfflineLibraryFileJob.assetPath job)
            then AssetEntity.with_isOffline true a else a) <$> assets st !! id.
Proof.
  intros Hunique id. rewrite handleOfflineAsset_run. cbn.
  destruct (head _) as [[id0 a0]|] eqn:Hhead.
  - assert (assetRepository.getByLibraryIdAndOriginalPath
              (IOfflineLibraryFileJob.id job) (IOfflineLibraryFileJob.assetPath job) st
            = (Return (Some (id0, a0)), st)) as Hfind
      by (unfold assetRepository.getByLibraryIdAndOriginalPath, gets; by rewrite Hhead).
    apply getByLibraryIdAndOriginalPath_Some in Hfind as (Ha0 & Hlib & Hpath).
    cbn. rewrite lookup_alter. case_decide as Heq.
    + subst id0. rewrite Ha0. cbn. by rewrite bool_decide_eq_true_2.
    + destruct (assets st !! id) as [a|] eqn:Ha; [|done]. cbn.
      rewrite bool_decide_eq_false_2; [done|].
      intros [Hl Hp]. apply Heq. apply (Hunique id0 id a0 a); congruence.
  - assert (assetRepository.getByLibraryIdAndOriginalPath
              (IOfflineLibraryFileJob.id job) (IOfflineLibraryFileJob.assetPath job) st
            = (Return None, st)) as Hfind
      by (unfold assetRepository.getByLibraryIdAndOriginalPath, gets; by rewrite Hhead).
    destruct (assets st !! id) as [a|] eqn:Ha; [|done]. cbn.
    rewrite bool_decide_eq_false_2; [done|].
    exact (getByLibraryIdAndOriginalPath_None st _ _ Hfind id a Ha).
Qed.

(** Offline marks for the places of one library, delivered in any number
    and order. *)
Lemma marks_delivered env libraryId paths :
  ∀ st,
    uniquePaths (assets st) →
    let after :=
      runJobs env
        ((λ path, LIBRARY_MARK_ASSET_OFFLINE (IOfflineLibraryFileJob.mk libraryId path))
           <$> paths) st in
    libraries after = libraries st ∧ users after = users st ∧ jobs after = jobs st
    ∧ ∀ id,
        assets after !! id
        = (λ a, if bool_decide (AssetEntity.libraryId a = libraryId
                                ∧ AssetEntity.originalPath a ∈ paths)
                then AssetEntity.with_isOffline true a else a) <$> assets st !! id.
Proof.
  induction paths as [|path paths IH]; intros st Hunique.
  { cbn. repeat split. intros id. destruct (assets st !! id) as [a|]; [|done]. cbn.
    rewrite bool_decide_eq_false_2; [done|]. intros [_ Hin]. by apply elem_of_nil in Hin. }
  cbn zeta. rewrite fmap_cons.
  change (runJobs env (?m :: ?ms) st) with (runJobs env ms (runJob env st m)).
  cbn [runJob].
  set (job := IOfflineLibraryFileJob.mk libraryId path).
  set (s1 := (LibraryService.handleOfflineAsset job st).2).
  destruct (IH s1 (handleOfflineAsset_unique job st Hunique)) as (Hl & Hu & Hj & Ha).
  destruct (handleOfflineAsset_frame job st) as [Hl1 Hu1].
  pose proof (handleOfflineAsset_queue job st) as Hj1.
  fold s1 in Hl1, Hu1, Hj1.
  split; [congruence|]. split; [congruence|]. split; [congruence|].
  intros id. rewrite Ha. unfold s1. rewrite handleOfflineAsset_lookup by done.
  destruct (assets st !! id) as [a|]; [|done]. cbn [fmap option_fmap option_map].
  f_equal. cbn [IOfflineLibraryFileJob.id IOfflineLibraryFileJob.assetPath job].
  destruct (decide (AssetEntity.libraryId a = libraryId
                    ∧ AssetEntity.originalPath a = path)) as [[Hlib Hpath]|Hother].
  - rewrite (bool_decide_eq_true_2
               (AssetEntity.libraryId a = libraryId ∧ AssetEntity.originalPath a = path))
      by done.
    rewrite (bool_decide_eq_true_2
               (AssetEntity.libraryId a = libraryId
                ∧ AssetEntity.originalPath a ∈ path :: paths))
      by (split; [done|]; rewrite Hpath; left).
    case_bool_decide; by destruct a.
  - rewrite (bool_decide_eq_false_2
               (AssetEntity.libraryId a = libraryId ∧ AssetEntity.originalPath a = path))
      by done.
    apply (f_equal (λ b : bool, if b then _ else _)).
    apply bool_decide_ext. split; intros [Hlib Hin]; (split; [done|]).
    + by right.
    + apply elem_of_cons in Hin as [Hin|Hin]; [by destruct Hother|done].
Qed.

(** The offline marks of a scan, by place. *)
Lemma offlineJobs_places job (crawled : list string) st :
  offlineJobs job crawled st
  = (λ path, LIBRARY_MARK_ASSET_OFFLINE
               (IOfflineLibraryFileJob.mk (ILibraryRefreshJob.id job) path))
      <$> (AssetEntity.originalPath ∘ snd
             <$> filter (λ asset : string * AssetEntity.t,
                           AssetEntity.originalPath asset.2 ∉ crawled)
                        (map_to_list
                           (filter (λ kv : string * AssetEntity.t,
                                      AssetEntity.libraryId kv.2 ∈ [ILibraryRefreshJob.id job])
                                   (assets st)))).
Proof. unfold offlineJobs. by rewrite <- list_fmap_compose. Qed.

Lemma elem_of_missing job (crawled : list string) st id a :
  (id, a) ∈ filter (λ asset : string * AssetEntity.t,
                      AssetEntity.originalPath asset.2 ∉ crawled)
                   (map_to_list
                      (filter (λ kv : string * AssetEntity.t,
                                 AssetEntity.libraryId kv.2 ∈ [ILibraryRefreshJob.id job])
                              (assets st)))
  ↔ assets st !! id = Some a
    ∧ AssetEntity.libraryId a = ILibraryRefreshJob.id job
    ∧ AssetEntity.originalPath a ∉ crawled.
Proof.
  rewrite list_elem_of_filter, elem_of_map_to_list, map_lookup_filter_Some. cbn.
  rewrite list_elem_of_singleton. tauto.
Qed.

Lemma list_filter_all {A} (P : A → Prop) `{∀ x, Decision (P x)} (l : list A) :
  (∀ x, P x) → filter P l = l.
Proof.
  intros HP. induction l as [|x l IH]; [done|]. by rewrite filter_cons_True, IH.
Qed.

(** ** Helpers on the catalog *)

Lemma NoDup_fmap_inj {A B} (f : A → B) (l : list A) x y :
  NoDup (f <$> l) → x ∈ l → y ∈ l → f x = f y → x = y.
Proof.
  induction l as [|z l IH]; intros Hnd Hx Hy Hf; [by apply elem_of_nil in Hx|].
  rewrite fmap_cons in Hnd. apply NoDup_cons in Hnd as [Hz Hnd].
  apply elem_of_cons in Hx as [->|Hx]; apply elem_of_cons in Hy as [->|Hy]; try done.
  - exfalso. apply Hz. rewrite Hf. apply list_elem_of_fmap. eauto.
  - exfalso. apply Hz. rewrite <- Hf. apply list_elem_of_fmap. eauto.
  - by apply IH.
Qed.

(** The constraint, as a check on the list of places. *)
Lemma uniquePaths_NoDup (catalog : gmap string AssetEntity.t) :
  NoDup ((λ kv : string * AssetEntity.t,
            (AssetEntity.libraryId kv.2, AssetEntity.originalPath kv.2))
           <$> map_to_list catalog) →
  uniquePaths catalog.
Proof.
  intros Hnd id1 id2 a1 a2 H1 H2 Hlib Hpath.
  apply elem_of_map_to_list in H1, H2.
  assert ((id1, a1) = (id2, a2)) as [= -> _]; [|done].
  eapply NoDup_fmap_inj; [exact Hnd|done..|]. cbn. congruence.
Qed.

Lemma with_isOffline_twice b a :
  AssetEntity.with_isOffline b (AssetEntity.with_isOffline b a)
  = AssetEntity.with_isOffline b a.
Proof. done. Qed.

Lemma alter_twice {A} (f : A → A) id (m : gmap string A) :
  (∀ a, f (f a) = f a) → alter f id (alter f id m) = alter f id m.
Proof.
  intros Hf. rewrite alter_alter_eq. apply alter_ext. intros a _. apply Hf.
Qed.

(** A per-path job that does not get past the guards does not report
    success. *)
Lemma handleAssetRefresh_stopped env job st :
  ¬ passesGuards env job st →
  (LibraryService.handleAssetRefresh env job st).1 ≠ Return true
  ∧ (LibraryService.handleAssetRefresh env job st).2 = st.
Proof.
  intros Hnot.
  destruct (truthy_string
              ((users st !! ILibraryFileJob.ownerId job)?.UserEntity.externalPath))
    as [ext|] eqn:Hext.
  2: { by rewrite handleAssetRefresh_no_externalPath. }
  destruct (RegExp env ("^" +:+ path_normalize env ext)) as [re|] eqn:Hre.
  2: { by erewrite handleAssetRefresh_SyntaxError. }
  destruct (re (path_normalize env (path_normalize env (ILibraryFileJob.assetPath job))))
    eqn:Hmatch.
  { exfalso. apply Hnot. by exists ext, re. }
  by erewrite handleAssetRefresh_outside.
Qed.

(** ** Deliveries of library-deletion jobs *)

Lemma assetIdsOf_assets libraryId st st' :
  assets st' = assets st → assetIdsOf libraryId st' = assetIdsOf libraryId st.
Proof. unfold assetIdsOf. by intros ->. Qed.

Lemma purge_delivered ids :
  ∀ st,
    NoDup ids →
    (∀ id, id ∈ ids → is_Some (libraries st !! id)) →
    let after :=
      fold_left (λ s id, (LibraryService.handleDeleteLibrary (IEntityJob.mk id) s).2)
                ids st in
    assets after = assets st
    ∧ users after = users st
    ∧ (∀ id, libraries after !! id
             = if bool_decide (id ∈ ids ∧ assetIdsOf id st = [])
               then None else libraries st !! id)
    ∧ jobs after
      = jobs st ++ (ids ≫= λ id, (λ assetId, ASSET_DELETION assetId true)
                                   <$> assetIdsOf id st).
Proof.
  induction ids as [|id ids IH]; intros st Hnd Hrows; cbn zeta.
  { cbn. do 2 (split; [done|]). split; [|by rewrite app_nil_r].
    intros id. rewrite bool_decide_eq_false_2; [done|].
    intros [Hin _]. by apply elem_of_nil in Hin. }
  apply NoDup_cons in Hnd as [Hfresh Hnd].
  destruct (Hrows id) as [library Hlib]; [left|].
  cbn [fold_left].
  rewrite (handleDeleteLibrary_run (IEntityJob.mk id) st library Hlib).
  cbn [snd IEntityJob.id]. set (s1 := mkStore _ _ _ _).
  destruct (IH s1 Hnd) as (Ha & Hu & Hl & Hj).
  { intros id' Hin. cbn [libraries s1].
    case_bool_decide; [|apply Hrows; by right].
    rewrite lookup_delete_ne; [apply Hrows; by right|]. by intros ->. }
  split; [by rewrite Ha|]. split; [by rewrite Hu|]. split.
  - intros id'. rewrite Hl. cbn [libraries s1].
    rewrite (assetIdsOf_assets id' s1 st) by done.
    destruct (decide (id' = id)) as [->|Hne].
    + rewrite bool_decide_eq_false_2 by (intros [? _]; done).
      case_bool_decide as Hempty.
      * rewrite lookup_delete_eq. rewrite bool_decide_eq_true_2; [done|].
        split; [left|done].
      * rewrite bool_decide_eq_false_2; [done|]. intros [_ ?]. done.
    + assert ((if bool_decide (assetIdsOf id st = [])
               then base.delete id (libraries st) else libraries st) !! id'
              = libraries st !! id') as ->.
      { case_bool_decide; [|done]. by rewrite lookup_delete_ne. }
      apply (f_equal (λ b : bool, if b then _ else _)).
      apply bool_decide_ext. rewrite elem_of_cons. tauto.
  - rewrite Hj. cbn [jobs s1]. by rewrite <- app_assoc.
Qed.

(** * Further properties of the service *)

(** ** Creating a library *)

(** X1.  [create] on a request for an UPLOAD library that names import
    paths throws 'Upload libraries cannot have import paths'; one that
    names no import path (none given, or an empty list) but exclusion
    patterns throws 'Upload libraries cannot have exclusion patterns'.  In
    both cases the store is what it was: no library row is written. *)
Theorem create_rejects_upload_library_with_paths
    {LibraryResponseDto : Type}
    (mapLibrary : string * LibraryEntity.t → LibraryResponseDto)
    (authUser : AuthUserDto.t) (dto : CreateLibraryDto.t) (st : Store) :
  CreateLibraryDto.type dto = UPLOAD →
  (∀ path paths,
     CreateLibraryDto.importPaths dto = Some (path :: paths) →
     LibraryService.create mapLibrary authUser dto st
       = (Throw (BadRequestException "Upload libraries cannot have import paths"), st))
  ∧ (∀ pattern patterns,
       CreateLibraryDto.importPaths dto = None
       ∨ CreateLibraryDto.importPaths dto = Some [] →
       CreateLibraryDto.exclusionPatterns dto = Some (pattern :: patterns) →
       LibraryService.create mapLibrary authUser dto st
         = (Throw (BadRequestException "Upload libraries cannot have exclusion patterns"),
            st)).
Proof.
  intros Htype. split.
  - intros path paths Hpaths.
    rewrite create_rejected by (by rewrite ?Hpaths). by rewrite Hpaths.
  - intros pattern patterns Hpaths Hpatterns.
    rewrite create_rejected; [|done|].
    + by destruct Hpaths as [-> | ->].
    + rewrite Hpatterns. by destruct Hpaths as [-> | ->].
Qed.

(** X2.  [create] on any other request (an EXTERNAL library, or an UPLOAD
    library without import paths and exclusion patterns) stores one new row
    under an id no library had and returns its mapping; nothing else in the
    store changes and no job is pushed.  The row belongs to the caller, has
    the requested type, the requested name or, when none or the empty string
    was given, the default name of the type, the requested paths and
    patterns (none by default), is visible by default, has never been
    scanned and is not deleted.  An UPLOAD row so created has no import path
    and no exclusion pattern. *)
Theorem create_stores_the_library
    {LibraryResponseDto : Type}
    (mapLibrary : string * LibraryEntity.t → LibraryResponseDto)
    (authUser : AuthUserDto.t) (dto : CreateLibraryDto.t) (st : Store) :
  (CreateLibraryDto.type dto = UPLOAD →
   nonEmpty (CreateLibraryDto.importPaths dto) = false
   ∧ nonEmpty (CreateLibraryDto.exclusionPatterns dto) = false) →
  ∃ id library,
    LibraryService.create mapLibrary authUser dto st
      = (Return (mapLibrary (id, library)),
         {| libraries := <[id := library]> (libraries st);
            assets := assets st;
            users := users st;
            jobs := jobs st |})
    ∧ libraries st !! id = None
    ∧ LibraryEntity.ownerId library = AuthUserDto.id authUser
    ∧ LibraryEntity.type library = CreateLibraryDto.type dto
    ∧ (∀ name, CreateLibraryDto.name dto = Some name → name ≠ "" →
               LibraryEntity.name library = name)
    ∧ (CreateLibraryDto.name dto = None ∨ CreateLibraryDto.name dto = Some "" →
       LibraryEntity.name library
       = match CreateLibraryDto.type dto with
         | EXTERNAL => "New External Library"
         | UPLOAD => "New Upload Library"
         end)
    ∧ LibraryEntity.importPaths library = default [] (CreateLibraryDto.importPaths dto)
    ∧ LibraryEntity.exclusionPatterns library
      = default [] (CreateLibraryDto.exclusionPatterns dto)
    ∧ LibraryEntity.isVisible library = default true (CreateLibraryDto.isVisible dto)
    ∧ LibraryEntity.refreshedAt library = None
    ∧ LibraryEntity.deletedAt library = None
    ∧ (LibraryEntity.type library = UPLOAD →
       LibraryEntity.importPaths library = []
       ∧ LibraryEntity.exclusionPatterns library = []).
Proof.
  intros Hpaths. eexists _, _.
  split; [by apply create_accepted|]. cbn.
  split; [apply not_elem_of_dom, is_fresh|].
  do 2 (split; [done|]). split; [|split].
  - intros name -> Hname. by destruct name.
  - by intros [-> | ->].
  - do 5 (split; [done|]). intros Htype.
    destruct (Hpaths Htype) as [Hi He].
    by rewrite (nonEmpty_false _ Hi), (nonEmpty_false _ He).
Qed.

(** ** Deleting a library on request *)

(** X3.  [delete] on a library that is there and not soft-deleted, asked
    for by a user the access check admits, where the library is EXTERNAL or
    the user has two upload libraries at least: the call returns, the row
    gets [deletedAt = now] and is otherwise what it was, no other row and no
    asset changes, and exactly one library-deletion job for the id is
    pushed.  Afterwards the row is hidden from the plain lookup, still
    there for the lookup that includes soft-deleted rows, and among the
    libraries the cleanup sweep finds. *)
Theorem delete_soft_deletes_and_queues_the_purge
    (env : Env) (authUser : AuthUserDto.t) (id : string) (st : Store)
    (library : LibraryEntity.t) :
  hasPermission env authUser Permission.LIBRARY_DELETE id = true →
  libraries st !! id = Some library →
  LibraryEntity.deletedAt library = None →
  (LibraryEntity.type library = UPLOAD →
   (2 ≤ uploadLibraryCount (AuthUserDto.id authUser) st)%nat) →
  let result := LibraryService.delete env authUser id st in
  let deleted := LibraryEntity.with_deletedAt (Some (now env)) library in
  result.1 = Return ()
  ∧ libraries result.2 = <[id := deleted]> (libraries st)
  ∧ assets result.2 = assets st
  ∧ users result.2 = users st
  ∧ pushed st result.2 = [LIBRARY_DELETE id]
  ∧ repository.get id false result.2 = (Return None, result.2)
  ∧ repository.get id true result.2 = (Return (Some deleted), result.2)
  ∧ id ∈ pendingDeletion result.2.
Proof.
  intros Hperm Hlib Halive Hcount result deleted. subst result.
  rewrite (delete_run env authUser id st Hperm library
             (repository_get_live id st library Hlib Halive) Hcount).
  cbn [fst snd libraries assets users]. rewrite pushed_app.
  rewrite (alter_alt_Some _ _ _ _ Hlib). fold deleted.
  do 5 (split; [done|]). split; [|split].
  - unfold repository.get, gets. cbn. by rewrite lookup_insert_eq.
  - unfold repository.get, gets. cbn. by rewrite lookup_insert_eq.
  - apply elem_of_pendingDeletion. exists deleted. cbn.
    by rewrite lookup_insert_eq.
Qed.

(** X4.  A soft-deleted library is out of reach of the requests: [get] and
    [delete] on it throw ('Library not found' when the access check admits
    the caller), [queueScan] throws ('Can only refresh external libraries'),
    a scan job for it returns [false]; each leaves the store as it is.  The
    deletion handler, which looks soft-deleted rows up too, still works on
    it. *)
Theorem soft_deleted_library_is_out_of_reach
    (env : Env) {LibraryResponseDto : Type}
    (mapLibrary : string * LibraryEntity.t → LibraryResponseDto)
    (st : Store) (id : string) (library : LibraryEntity.t) (deletedAt : Z) :
  libraries st !! id = Some library →
  LibraryEntity.deletedAt library = Some deletedAt →
  (∀ authUser, ∃ message,
     LibraryService.get env mapLibrary authUser id st
       = (Throw (BadRequestException message), st)
     ∧ (hasPermission env authUser Permission.LIBRARY_READ id = true →
        message = "Library not found"))
  ∧ (∀ authUser, ∃ message,
       LibraryService.delete env authUser id st
         = (Throw (BadRequestException message), st)
       ∧ (hasPermission env authUser Permission.LIBRARY_DELETE id = true →
          message = "Library not found"))
  ∧ (∀ authUser dto, ∃ message,
       LibraryService.queueScan env authUser id dto st
         = (Throw (BadRequestException message), st)
       ∧ (hasPermission env authUser Permission.LIBRARY_UPDATE id = true →
          message = "Can only refresh external libraries"))
  ∧ (∀ refreshModifiedFiles refreshAllFiles,
       LibraryService.handleQueueAssetRefresh env
         (ILibraryRefreshJob.mk id refreshModifiedFiles refreshAllFiles) st
       = (Return false, st))
  ∧ (LibraryService.handleDeleteLibrary (IEntityJob.mk id) st).1 = Return true.
Proof.
  intros Hlib Hdel.
  pose proof (repository_get_hidden id st library deletedAt Hlib Hdel) as Hget.
  split; [|split; [|split; [|split]]].
  - intros authUser.
    destruct (get_cases env mapLibrary authUser id st)
      as [(library' & _ & Hlib' & Halive & _)|Hthrows]; [congruence|done].
  - intros authUser.
    destruct (hasPermission env authUser Permission.LIBRARY_DELETE id) eqn:Hperm.
    + eexists. split; [by apply delete_not_found|done].
    + eexists. split; [by apply delete_refused|done].
  - intros authUser dto.
    destruct (queueScan_cases env authUser id dto st)
      as [(library' & _ & Hlib' & Halive & _)|Hthrows]; [congruence|done].
  - intros refreshModifiedFiles refreshAllFiles.
    by apply handleQueueAssetRefresh_no_library.
  - by rewrite (handleDeleteLibrary_run _ st library).
Qed.

(** X5.  Whatever [delete] does, by whatever path, the caller who had an
    upload library before the call has one after it: the number that
    [getUploadLibraryCount] reports for the caller does not fall to zero. *)
Theorem delete_leaves_the_caller_an_upload_library
    (env : Env) (authUser : AuthUserDto.t) (id : string) (st : Store) :
  (1 ≤ uploadLibraryCount (AuthUserDto.id authUser) st)%nat →
  (1 ≤ uploadLibraryCount (AuthUserDto.id authUser)
         (LibraryService.delete env authUser id st).2)%nat
  ∧ repository.getUploadLibraryCount (AuthUserDto.id authUser)
      (LibraryService.delete env authUser id st).2
    = (Return (uploadLibraryCount (AuthUserDto.id authUser)
                 (LibraryService.delete env authUser id st).2),
       (LibraryService.delete env authUser id st).2).
Proof.
  intros Hone. split; [|done].
  destruct (delete_cases env authUser id st)
    as [(library & _ & Hlib & Halive & Hcount & ->)|(message & ->)]; [|done].
  unfold uploadLibraryCount in *. cbn [snd libraries].
  rewrite (alter_alt_Some _ _ _ _ Hlib).
  rewrite map_filter_insert_False by (cbn; intros (_ & _ & ?); done).
  rewrite map_filter_delete, map_size_delete.
  destruct (filter _ (libraries st) !! id) as [l|] eqn:Hin; [|done].
  apply map_lookup_filter_Some in Hin as (Hl & _ & Htype & _).
  assert (l = library) as -> by congruence.
  specialize (Hcount Htype). unfold uploadLibraryCount in Hcount. cbn. lia.
Qed.

(** ** Asking for a scan *)

(** X6.  [queueScan] accepts a request exactly when the access check admits
    the caller and the library is there, not soft-deleted and EXTERNAL.  An
    accepted request pushes one scan job for the id whose two flags are the
    requested ones, [false] where none was given, and changes no table; the
    library the scan handler will look up is then there and EXTERNAL.  Any
    other request throws and leaves the store as it is; the error of an
    admitted caller is 'Can only refresh external libraries'. *)
Theorem queueScan_accepts_live_external_libraries
    (env : Env) (authUser : AuthUserDto.t) (id : string) (dto : ScanLibraryDto.t)
    (st : Store) :
  let result := LibraryService.queueScan env authUser id dto st in
  let accepted :=
    hasPermission env authUser Permission.LIBRARY_UPDATE id = true
    ∧ ∃ library,
        libraries st !! id = Some library
        ∧ LibraryEntity.deletedAt library = None
        ∧ LibraryEntity.type library = EXTERNAL in
  (accepted →
   result
   = (Return (),
      {| libraries := libraries st;
         assets := assets st;
         users := users st;
         jobs := jobs st
                 ++ [LIBRARY_SCAN
                       (ILibraryRefreshJob.mk id
                          (default false (ScanLibraryDto.refreshModifiedFiles dto))
                          (default false (ScanLibraryDto.refreshAllFiles dto)))] |})
   ∧ ∃ library,
       repository.get id false result.2 = (Return (Some library), result.2)
       ∧ LibraryEntity.type library = EXTERNAL)
  ∧ (¬ accepted →
     ∃ message,
       result = (Throw (BadRequestException message), st)
       ∧ (hasPermission env authUser Permission.LIBRARY_UPDATE id = true →
          message = "Can only refresh external libraries")).
Proof.
  intros result accepted. subst result accepted.
  destruct (queueScan_cases env authUser id dto st)
    as [(library & Hperm & Hlib & Halive & Htype & Hrun)|Hthrows].
  - split; [|intros Hnot; exfalso; apply Hnot; by eauto 6].
    intros _. rewrite Hrun. split; [done|]. exists library. split; [|done].
    unfold repository.get, gets. cbn. by rewrite Hlib, Halive.
  - split; [|done].
    intros (Hperm & library & Hlib & Halive & Htype).
    destruct Hthrows as (message & Hthrows & _). exfalso.
    rewrite (queueScan_run env authUser id dto st Hperm library
               (repository_get_live id st library Hlib Halive) Htype) in Hthrows.
    discriminate Hthrows.
Qed.

(** ** Removing the offline assets *)

(** X7.  [handleOfflineRemoval]: when the pages the fuel allows cover the
    library's offline assets (one page at least, and no more offline assets
    than [fuel] pages of [JOBS_ASSET_PAGINATION_SIZE] hold), the handler
    comes to the last page and returns [true], and the jobs it pushed are
    one asset-deletion job with [fromExternal = true] per offline asset of
    the library, each once, none for an asset that is online or belongs to
    another library.  Whatever the fuel, it changes no table. *)
Theorem handleOfflineRemoval_queues_offline_assets
    (JOBS_ASSET_PAGINATION_SIZE fuel : nat) (job : IEntityJob.t) (st : Store) :
  (0 < fuel)%nat →
  (length (offlineAssetIds (IEntityJob.id job) st) ≤ fuel * JOBS_ASSET_PAGINATION_SIZE)%nat →
  let result := LibraryService.handleOfflineRemoval JOBS_ASSET_PAGINATION_SIZE fuel job st in
  let ids := offlineAssetIds (IEntityJob.id job) st in
  result.1 = Return (Some true)
  ∧ pushed st result.2 = (λ id, ASSET_DELETION id true) <$> ids
  ∧ NoDup ids
  ∧ (∀ id, id ∈ ids
           ↔ ∃ a, assets st !! id = Some a
                  ∧ AssetEntity.libraryId a = IEntityJob.id job
                  ∧ AssetEntity.isOffline a = true)
  ∧ (∀ fuel',
       let after :=
         (LibraryService.handleOfflineRemoval JOBS_ASSET_PAGINATION_SIZE fuel' job st).2 in
       libraries after = libraries st ∧ assets after = assets st ∧ users after = users st).
Proof.
  intros Hfuel Hfits result ids. subst result.
  rewrite handleOfflineRemoval_run by done. cbn [fst snd]. rewrite pushed_app.
  do 2 (split; [done|]).
  split; [apply NoDup_offlineAssetIds|].
  split; [apply elem_of_offlineAssetIds|].
  intros fuel'.
  destruct (handleOfflineRemoval_frame JOBS_ASSET_PAGINATION_SIZE fuel' job st)
    as (? & ? & ? & _).
  done.
Qed.

(** X8.  [queueRemoveOffline] looks at the access check and at nothing
    else: for an admitted caller it pushes one remove-offline job for the
    id, whether or not a library has that id, and otherwise it throws; no
    table changes.  The job pushed for an id without offline assets is
    handled by pushing nothing. *)
Theorem queueRemoveOffline_checks_access_only
    (env : Env) (authUser : AuthUserDto.t) (id : string) (st : Store) :
  let result := LibraryService.queueRemoveOffline env authUser id st in
  (hasPermission env authUser Permission.LIBRARY_UPDATE id = true →
   result
   = (Return (),
      {| libraries := libraries st;
         assets := assets st;
         users := users st;
         jobs := jobs st ++ [LIBRARY_REMOVE_OFFLINE id] |})
   ∧ ((∀ assetId a, assets st !! assetId = Some a →
         AssetEntity.libraryId a = id → AssetEntity.isOffline a = false) →
      ∀ pageSize fuel,
        (0 < fuel)%nat →
        LibraryService.handleOfflineRemoval pageSize fuel (IEntityJob.mk id) result.2
        = (Return (Some true), result.2)))
  ∧ (hasPermission env authUser Permission.LIBRARY_UPDATE id = false →
     result = (Throw (BadRequestException "Not found or no access"), st)).
Proof.
  intros result. subst result. rewrite queueRemoveOffline_run.
  destruct (hasPermission env authUser Permission.LIBRARY_UPDATE id); [|done].
  split; [|done]. intros _. split; [done|].
  intros Honline pageSize fuel Hfuel. cbn [snd].
  set (queued := mkStore _ _ _ _).
  assert (offlineAssetIds id queued = []) as Hnone.
  { destruct (offlineAssetIds id queued) as [|assetId ids] eqn:Hids; [done|].
    assert (assetId ∈ offlineAssetIds id queued) as Hin by (rewrite Hids; left).
    apply elem_of_offlineAssetIds in Hin as (a & Ha & Hlib & Hoff).
    rewrite (Honline assetId a Ha Hlib) in Hoff. discriminate Hoff. }
  pose proof (handleOfflineRemoval_run pageSize fuel (IEntityJob.mk id) queued Hfuel)
    as Hrun.
  cbn [IEntityJob.id] in Hrun. rewrite Hnone in Hrun.
  rewrite Hrun by (cbn; lia). cbn. by rewrite app_nil_r.
Qed.

(** ** The scheduled scan of every library *)

(** X9.  [handleQueueAllScan] returns [true], changes no table, and pushes
    the cleanup job first and then the scan jobs, one per library id and no
    id twice: every EXTERNAL library that is not soft-deleted gets one, and
    whatever gets one is an EXTERNAL library, never an UPLOAD library.  In
    every scan job exactly one of the two flags is set: [refreshAllFiles]
    when the job is forced, [refreshModifiedFiles] when it is not or says
    nothing. *)
Theorem handleQueueAllScan_queues_cleanup_and_scans (job : IBaseJob.t) (st : Store) :
  let result := LibraryService.handleQueueAllScan job st in
  let ids := externalLibraryIds st in
  result.1 = Return true
  ∧ libraries result.2 = libraries st
  ∧ assets result.2 = assets st
  ∧ users result.2 = users st
  ∧ pushed st result.2
    = LIBRARY_QUEUE_CLEANUP :: (LIBRARY_SCAN ∘ scheduledScan job <$> ids)
  ∧ NoDup ids
  ∧ (∀ id library, libraries st !! id = Some library →
       LibraryEntity.type library = EXTERNAL →
       LibraryEntity.deletedAt library = None →
       id ∈ ids)
  ∧ (∀ id, id ∈ ids →
       ∃ library, libraries st !! id = Some library
                  ∧ LibraryEntity.type library = EXTERNAL)
  ∧ (∀ id,
       ILibraryRefreshJob.id (scheduledScan job id) = id
       ∧ ILibraryRefreshJob.refreshAllFiles (scheduledScan job id)
         = bool_decide (IBaseJob.force job = Some true)
       ∧ ILibraryRefreshJob.refreshModifiedFiles (scheduledScan job id)
         = negb (ILibraryRefreshJob.refreshAllFiles (scheduledScan job id))).
Proof.
  intros result ids. subst result.
  rewrite handleQueueAllScan_run. cbn [fst snd libraries assets users].
  rewrite pushed_app. do 5 (split; [done|]).
  split; [apply NoDup_externalLibraryIds|].
  split; [|split].
  - intros id library Hlib Htype _. apply elem_of_externalLibraryIds. eauto.
  - intros id. apply elem_of_externalLibraryIds.
  - intros id. by destruct job as [[[|]|]].
Qed.

(** X10.  A scan queued by [handleQueueAllScan] does not compare with the
    catalog: when it gets past the guards of [handleQueueAssetRefresh], it
    pushes, after the offline marks, one per-path job for every crawled path
    that matched the containment expression, known to the catalog or not,
    and the job is forced exactly when the scheduled job was. *)
Theorem scheduled_scan_examines_every_crawled_path
    (env : Env) (job : IBaseJob.t) (id : string) (st : Store)
    (library : LibraryEntity.t) (crawled : list string) :
  scans env (scheduledScan job id) st library crawled →
  pushed st (LibraryService.handleQueueAssetRefresh env (scheduledScan job id) st).2
  = offlineJobs (scheduledScan job id) crawled st
    ++ ((λ path,
           LIBRARY_SCAN_ASSET
             (ILibraryFileJob.mk id (path_normalize env path) (LibraryEntity.ownerId library)
                (bool_decide (IBaseJob.force job = Some true))))
          <$> crawled).
Proof.
  intros Hscans.
  rewrite (handleQueueAssetRefresh_scans env _ st library crawled Hscans). cbn [snd].
  rewrite pushed_app. f_equal.
  unfold fileJobs. by destruct job as [[[|]|]].
Qed.

(** ** The scan and its offline marks *)

(** X11.  A scan that gets past its guards pushes its offline marks before
    its per-path jobs.  The marks are one per asset of the library whose
    stored path is not among the crawled paths that matched, assets already
    flagged offline included, each asset once; the per-path jobs that follow
    are all for crawled paths. *)
Theorem scan_pushes_offline_marks_before_file_jobs
    (env : Env) (job : ILibraryRefreshJob.t) (st : Store)
    (library : LibraryEntity.t) (crawled : list string) :
  scans env job st library crawled →
  ∃ (missing : list (string * AssetEntity.t)) (files : list JobItem),
    pushed st (LibraryService.handleQueueAssetRefresh env job st).2
    = ((λ asset : string * AssetEntity.t,
          LIBRARY_MARK_ASSET_OFFLINE
            (IOfflineLibraryFileJob.mk (ILibraryRefreshJob.id job)
               (AssetEntity.originalPath asset.2))) <$> missing)
      ++ files
    ∧ NoDup missing.*1
    ∧ (∀ id a, (id, a) ∈ missing
               ↔ assets st !! id = Some a
                 ∧ AssetEntity.libraryId a = ILibraryRefreshJob.id job
                 ∧ AssetEntity.originalPath a ∉ crawled)
    ∧ (∀ item, item ∈ files →
         ∃ path, path ∈ crawled
           ∧ item = LIBRARY_SCAN_ASSET
                      (ILibraryFileJob.mk (ILibraryRefreshJob.id job)
                         (path_normalize env path) (LibraryEntity.ownerId library)
                         (ILibraryRefreshJob.refreshAllFiles job))).
Proof.
  intros Hscans.
  rewrite (handleQueueAssetRefresh_scans env job st library crawled Hscans). cbn [snd].
  rewrite pushed_app.
  exists (filter (λ asset : string * AssetEntity.t,
                    AssetEntity.originalPath asset.2 ∉ crawled)
                 (map_to_list
                    (filter (λ kv : string * AssetEntity.t,
                               AssetEntity.libraryId kv.2 ∈ [ILibraryRefreshJob.id job])
                            (assets st)))),
         (fileJobs env job library crawled st).
  split; [reflexivity|]. split; [|split].
  - eapply sublist_NoDup; [|apply fmap_sublist, sublist_filter].
    apply NoDup_fst_map_to_list.
  - apply elem_of_missing.
  - apply elem_of_fileJobs.
Qed.

(** X12.  Files that went missing go offline.  In a catalog that holds at
    most one asset per library and path, after a scan that got past its
    guards and the delivery of the offline marks it pushed, every asset of
    the library whose path was not among the crawled paths is flagged
    offline and is otherwise the record it was, and every other asset, of
    this library or another, is exactly what it was.  The delivery changes
    no library, no user and pushes no job. *)
Theorem missing_files_go_offline
    (env : Env) (job : ILibraryRefreshJob.t) (st : Store)
    (library : LibraryEntity.t) (crawled : list string) :
  scans env job st library crawled →
  uniquePaths (assets st) →
  let scanned := (LibraryService.handleQueueAssetRefresh env job st).2 in
  let marks := offlineJobs job crawled st in
  let after := runJobs env marks scanned in
  (∃ files, pushed st scanned = marks ++ files)
  ∧ libraries after = libraries scanned
  ∧ users after = users st
  ∧ jobs after = jobs scanned
  ∧ ∀ id a,
      assets st !! id = Some a →
      assets after !! id
      = Some (if bool_decide (AssetEntity.libraryId a = ILibraryRefreshJob.id job
                              ∧ AssetEntity.originalPath a ∉ crawled)
              then AssetEntity.with_isOffline true a else a).
Proof.
  intros Hscans Hunique scanned marks after. subst scanned marks after.
  rewrite (handleQueueAssetRefresh_scans env job st library crawled Hscans). cbn [snd].
  rewrite pushed_app. split; [by eexists|].
  set (scanned := mkStore _ _ _ _).
  rewrite offlineJobs_places.
  destruct (marks_delivered env (ILibraryRefreshJob.id job)
              (AssetEntity.originalPath ∘ snd
                 <$> filter (λ asset : string * AssetEntity.t,
                               AssetEntity.originalPath asset.2 ∉ crawled)
                            (map_to_list
                               (filter (λ kv : string * AssetEntity.t,
                                          AssetEntity.libraryId kv.2
                                          ∈ [ILibraryRefreshJob.id job])
                                       (assets st))))
              scanned Hunique) as (Hl & Hu & Hj & Ha).
  do 3 (split; [done|]).
  intros id a Hlookup. rewrite Ha. cbn [assets scanned]. rewrite Hlookup. cbn. f_equal.
  apply (f_equal (λ b : bool, if b then _ else _)).
  apply bool_decide_ext. split; intros [Hlib Hpath]; (split; [done|]).
  - apply list_elem_of_fmap in Hpath as ([id' a'] & Hsame & Hin).
    apply elem_of_missing in Hin as (_ & _ & Hout). cbn in Hsame. by rewrite Hsame.
  - apply list_elem_of_fmap. exists (id, a). split; [done|].
    by apply elem_of_missing.
Qed.

(** X13.  A scan whose crawl finds nothing (the import paths are empty,
    or unreachable): past the library and owner guards it returns [true]
    without building the containment expression, pushes one offline mark
    for every asset of the library and no per-path job, and writes
    [refreshedAt = now] on the library, whose other fields stay as they
    were. *)
Theorem scan_of_an_empty_crawl_marks_the_library_offline
    (env : Env) (job : ILibraryRefreshJob.t) (st : Store)
    (library : LibraryEntity.t) (externalPath : string) :
  libraries st !! ILibraryRefreshJob.id job = Some library →
  LibraryEntity.deletedAt library = None →
  LibraryEntity.type library = EXTERNAL →
  truthy_string ((users st !! LibraryEntity.ownerId library)?.UserEntity.externalPath)
    = Some externalPath →
  crawl env (LibraryEntity.importPaths library) (LibraryEntity.exclusionPatterns library)
    = [] →
  let result := LibraryService.handleQueueAssetRefresh env job st in
  result.1 = Return true
  ∧ (∀ id a, assets st !! id = Some a →
       AssetEntity.libraryId a = ILibraryRefreshJob.id job →
       LIBRARY_MARK_ASSET_OFFLINE
         (IOfflineLibraryFileJob.mk (ILibraryRefreshJob.id job) (AssetEntity.originalPath a))
       ∈ pushed st result.2)
  ∧ length (pushed st result.2) = length (assetIdsOf (ILibraryRefreshJob.id job) st)
  ∧ (∀ data, LIBRARY_SCAN_ASSET data ∉ pushed st result.2)
  ∧ libraries result.2 !! ILibraryRefreshJob.id job
    = Some (LibraryEntity.with_refreshedAt (Some (now env)) library)
  ∧ assets result.2 = assets st
  ∧ ∃ library',
      libraries result.2 !! ILibraryRefreshJob.id job = Some library'
      ∧ LibraryEntity.refreshedAt library' = Some (now env)
      ∧ library'
        = {| LibraryEntity.ownerId := LibraryEntity.ownerId library;
             LibraryEntity.type := LibraryEntity.type library;
             LibraryEntity.name := LibraryEntity.name library;
             LibraryEntity.importPaths := LibraryEntity.importPaths library;
             LibraryEntity.exclusionPatterns := LibraryEntity.exclusionPatterns library;
             LibraryEntity.isVisible := LibraryEntity.isVisible library;
             LibraryEntity.refreshedAt := Some (now env);
             LibraryEntity.deletedAt := LibraryEntity.deletedAt library |}.
Proof.
  intros Hlib Halive Htype Hext Hcrawl result. subst result.
  assert (scans env job st library []) as Hscans.
  { split; [by apply repository_get_live|]. split; [done|].
    exists externalPath. split; [done|].
    destruct (RegExp env _) as [re|]; [|done].
    unfold crawledAssetPaths. by rewrite Hcrawl. }
  rewrite (handleQueueAssetRefresh_scans env job st library [] Hscans).
  cbn [fst snd libraries assets]. rewrite pushed_app.
  assert (fileJobs env job library [] st = []) as ->
    by (unfold fileJobs; by destruct (_ || _)).
  rewrite app_nil_r. split; [done|]. split; [|split; [|split; [|split; [|split]]]].
  - intros id a Ha Hown. unfold offlineJobs. apply list_elem_of_fmap.
    exists (id, a). split; [done|]. apply elem_of_missing.
    split; [done|]. split; [done|]. apply not_elem_of_nil.
  - unfold offlineJobs, assetIdsOf. rewrite !length_fmap.
    rewrite list_filter_all by (intros ?; apply not_elem_of_nil).
    rewrite !length_map_to_list. f_equal.
    apply map_filter_ext. intros i x _. cbn. by rewrite list_elem_of_singleton.
  - intros data Hin. apply elem_of_offlineJobs in Hin as (? & _ & ?). discriminate.
  - by rewrite lookup_alter_eq, Hlib.
  - done.
  - exists (LibraryEntity.with_refreshedAt (Some (now env)) library).
    by rewrite lookup_alter_eq, Hlib.
Qed.

(** X14.  Where [path.normalize] is idempotent, every per-path job a scan
    pushes gets past the guards of [handleAssetRefresh] as long as the user
    table is what it was at the scan: the owner in the job has an external
    root, the expression built from it is well formed, and it matches the
    path in the job. *)
Theorem scanned_jobs_pass_the_import_guards
    (env : Env) (job : ILibraryRefreshJob.t) (st : Store)
    (library : LibraryEntity.t) (crawled : list string) :
  (∀ p, path_normalize env (path_normalize env p) = path_normalize env p) →
  scans env job st library crawled →
  ∀ data,
    LIBRARY_SCAN_ASSET data
      ∈ pushed st (LibraryService.handleQueueAssetRefresh env job st).2 →
    ∀ st', users st' = users st → passesGuards env data st'.
Proof.
  intros Hidempotent Hscans data.
  rewrite (handleQueueAssetRefresh_scans env job st library crawled Hscans). cbn [snd].
  rewrite pushed_app. intros Hin st' Husers.
  apply elem_of_app in Hin as [Hin|Hin];
    [apply elem_of_offlineJobs in Hin as (? & _ & ?); discriminate|].
  apply elem_of_fileJobs in Hin as (path & Hpath & [= ->]).
  destruct Hscans as (_ & _ & ext & Hext & Hcrawled).
  destruct (RegExp env _) as [re|] eqn:Hre;
    [|destruct Hcrawled as [_ ->]; by apply elem_of_nil in Hpath].
  subst crawled. apply list_elem_of_In, filter_In in Hpath as [Hin Hmatch].
  apply list_elem_of_In, list_elem_of_fmap in Hin as (file & -> & _).
  exists ext, re. cbn. rewrite Husers, !Hidempotent. done.
Qed.

(** ** The offline mark *)

(** X15.  [handleOfflineAsset] always returns [true] and writes nothing but
    the offline flag: libraries, users and queue are what they were, no asset
    appears or disappears, and an asset either is what it was or sits at the
    job's library and path and is now flagged offline, the rest of its
    record unchanged.  When no asset is at that place the store is left as
    it is.  Where the catalog holds at most one asset per library and path,
    the asset at the place is the one flagged, and a second delivery of the
    job changes nothing more.  Flagged means [isOffline = true] on the
    record, every other field as it was; and when some asset is at the place
    before the call, some asset at the place is flagged after it. *)
Theorem handleOfflineAsset_sets_the_flag_and_nothing_else
    (job : IOfflineLibraryFileJob.t) (st : Store) :
  let result := LibraryService.handleOfflineAsset job st in
  let atPlace (a : AssetEntity.t) : Prop :=
    AssetEntity.libraryId a = IOfflineLibraryFileJob.id job
    ∧ AssetEntity.originalPath a = IOfflineLibraryFileJob.assetPath job in
  result.1 = Return true
  ∧ libraries result.2 = libraries st
  ∧ users result.2 = users st
  ∧ jobs result.2 = jobs st
  ∧ dom (assets result.2) = dom (assets st)
  ∧ (∀ id a, assets st !! id = Some a →
       assets result.2 !! id = Some a
       ∨ (atPlace a ∧ assets result.2 !! id = Some (AssetEntity.with_isOffline true a)))
  ∧ ((∀ id a, assets st !! id = Some a → ¬ atPlace a) → result.2 = st)
  ∧ (uniquePaths (assets st) →
     (∀ id a, assets st !! id = Some a → atPlace a →
        assets result.2 !! id = Some (AssetEntity.with_isOffline true a))
     ∧ LibraryService.handleOfflineAsset job result.2 = (Return true, result.2))
  ∧ ((∃ id a, assets st !! id = Some a ∧ atPlace a) →
     ∃ id a', assets result.2 !! id = Some a' ∧ atPlace a'
              ∧ AssetEntity.isOffline a' = true)
  ∧ (uniquePaths (assets st) →
     ∀ id a, assets st !! id = Some a → atPlace a →
       ∃ a', assets result.2 !! id = Some a'
             ∧ AssetEntity.isOffline a' = true
             ∧ a' = {| AssetEntity.ownerId := AssetEntity.ownerId a;
                       AssetEntity.libraryId := AssetEntity.libraryId a;
                       AssetEntity.checksum := AssetEntity.checksum a;
                       AssetEntity.originalPath := AssetEntity.originalPath a;
                       AssetEntity.deviceAssetId := AssetEntity.deviceAssetId a;
                       AssetEntity.deviceId := AssetEntity.deviceId a;
                       AssetEntity.fileCreatedAt := AssetEntity.fileCreatedAt a;
                       AssetEntity.fileModifiedAt := AssetEntity.fileModifiedAt a;
                       AssetEntity.localDateTime := AssetEntity.localDateTime a;
                       AssetEntity.type := AssetEntity.type a;
                       AssetEntity.originalFileName := AssetEntity.originalFileName a;
                       AssetEntity.sidecarPath := AssetEntity.sidecarPath a;
                       AssetEntity.isReadOnly := AssetEntity.isReadOnly a;
                       AssetEntity.isExternal := AssetEntity.isExternal a;
                       AssetEntity.isOffline := true |}).
Proof.
  intros result atPlace. subst result atPlace.
  destruct (handleOfflineAsset_frame job st) as [Hl Hu].
  split; [by rewrite handleOfflineAsset_run|].
  do 2 (split; [done|]). split; [apply handleOfflineAsset_queue|].
  assert (∃ x, assetRepository.getByLibraryIdAndOriginalPath
                 (IOfflineLibraryFileJob.id job) (IOfflineLibraryFileJob.assetPath job) st
               = (Return x, st)) as [found Hfind] by (eexists; reflexivity).
  split; [|split; [|split; [|split; [|split]]]].
  - rewrite handleOfflineAsset_run, Hfind. destruct found as [[id a]|]; [|done].
    cbn. apply dom_alter_L.
  - intros id a Ha. rewrite handleOfflineAsset_run, Hfind.
    destruct found as [[id0 a0]|]; [|by left].
    apply getByLibraryIdAndOriginalPath_Some in Hfind as (Ha0 & Hlib & Hpath).
    cbn. destruct (decide (id0 = id)) as [->|Hne].
    + right. rewrite lookup_alter_eq, Ha. assert (a0 = a) as -> by congruence. done.
    + left. by rewrite lookup_alter_ne.
  - intros Hnone. rewrite handleOfflineAsset_run, Hfind.
    destruct found as [[id0 a0]|]; [|done].
    apply getByLibraryIdAndOriginalPath_Some in Hfind as (Ha0 & Hlib & Hpath).
    by destruct (Hnone id0 a0 Ha0).
  - intros Hunique. split.
    + intros id a Ha Hplace. rewrite handleOfflineAsset_lookup, Ha by done. cbn.
      by rewrite bool_decide_eq_true_2.
    + rewrite (handleOfflineAsset_run job (LibraryService.handleOfflineAsset job st).2).
      f_equal. rewrite handleOfflineAsset_run, Hfind.
      destruct found as [[id0 a0]|]; cbn [snd fst]; [|by rewrite Hfind].
      pose proof (getByLibraryIdAndOriginalPath_Some st _ _ _ _ Hfind)
        as (Ha0 & Hlib & Hpath).
      set (marked := set_assets _ st).
      assert (assetRepository.getByLibraryIdAndOriginalPath
                (IOfflineLibraryFileJob.id job) (IOfflineLibraryFileJob.assetPath job) marked
              = (Return (Some (id0, AssetEntity.with_isOffline true a0)), marked)) as ->.
      { rewrite <- Hlib, <- Hpath.
        apply (getByLibraryIdAndOriginalPath_unique marked id0
                 (AssetEntity.with_isOffline true a0)).
        - apply uniquePaths_alter; [|done]. intros x. apply sameAsset_with_isOffline.
        - cbn. by rewrite lookup_alter_eq, Ha0. }
      cbn. unfold marked, set_assets. cbn. f_equal.
      apply alter_twice. intros a. apply with_isOffline_twice.
  - intros (id & a & Ha & Hplace). rewrite handleOfflineAsset_run, Hfind.
    destruct found as [[id0 a0]|].
    + apply getByLibraryIdAndOriginalPath_Some in Hfind as (Ha0 & Hlib & Hpath).
      exists id0, (AssetEntity.with_isOffline true a0). cbn.
      by rewrite lookup_alter_eq, Ha0.
    + by destruct (getByLibraryIdAndOriginalPath_None st _ _ Hfind id a Ha).
  - intros Hunique id a Ha Hplace.
    exists (AssetEntity.with_isOffline true a). split; [|done].
    rewrite handleOfflineAsset_lookup, Ha by done. cbn.
    by rewrite bool_decide_eq_true_2.
Qed.

(** ** What no operation does *)

(** X16.  None of the operations embedded here (the requests [get],
    [create], [delete], [queueScan], [queueRemoveOffline] and the seven job
    handlers) removes an asset record or rewrites more of one than its two
    file dates and its offline flag: owner, library, path, checksum, type
    and the rest stay.  Only the per-path job adds a record, and only the
    per-path job and the offline mark write the asset table at all.  None
    touches the user table, and each leaves the queue as it was but for the
    jobs it added at the end. *)
Theorem no_operation_drops_or_rewrites_an_asset
    (env : Env) {LibraryResponseDto : Type}
    (mapLibrary : string * LibraryEntity.t → LibraryResponseDto)
    (JOBS_ASSET_PAGINATION_SIZE : nat) (op : Operation) (st : Store) :
  let after := perform env mapLibrary JOBS_ASSET_PAGINATION_SIZE op st in
  users after = users st
  ∧ (∃ items, jobs after = jobs st ++ items)
  ∧ (∀ id a, assets st !! id = Some a →
       ∃ a', assets after !! id = Some a'
             ∧ sameAsset a a'
             ∧ AssetEntity.ownerId a' = AssetEntity.ownerId a
             ∧ AssetEntity.libraryId a' = AssetEntity.libraryId a
             ∧ AssetEntity.originalPath a' = AssetEntity.originalPath a
             ∧ AssetEntity.checksum a' = AssetEntity.checksum a
             ∧ AssetEntity.type a' = AssetEntity.type a)
  ∧ ((∀ job, op ≠ HandleAssetRefresh job) → dom (assets after) = dom (assets st))
  ∧ ((∀ job, op ≠ HandleAssetRefresh job) → (∀ job, op ≠ HandleOfflineAsset job) →
     assets after = assets st).
Proof.
  intros after. subst after.
  destruct (perform_users_queue env mapLibrary JOBS_ASSET_PAGINATION_SIZE op st)
    as [Hu Hj].
  do 2 (split; [done|]).
  assert (∀ a a', sameAsset a a' →
            sameAsset a a'
            ∧ AssetEntity.ownerId a' = AssetEntity.ownerId a
            ∧ AssetEntity.libraryId a' = AssetEntity.libraryId a
            ∧ AssetEntity.originalPath a' = AssetEntity.originalPath a
            ∧ AssetEntity.checksum a' = AssetEntity.checksum a
            ∧ AssetEntity.type a' = AssetEntity.type a) as Hfields.
  { intros a a' Hsame. split; [done|]. unfold sameAsset in Hsame. by rewrite Hsame. }
  split; [|split].
  - intros id a Ha.
    destruct (operation_kind op) as [[job ->]|[[job ->]|[Hrefresh Hmark]]].
    + destruct (handleAssetRefresh_keeps env job st id a Ha) as (a' & Ha' & Hsame).
      exists a'. split; [done|]. by apply Hfields.
    + destruct (handleOfflineAsset_keeps job st id a Ha) as (a' & Ha' & Hsame).
      exists a'. split; [done|]. by apply Hfields.
    + exists a. rewrite perform_assets by done.
      split; [done|]. apply Hfields, sameAsset_refl.
  - intros Hrefresh.
    destruct (operation_kind op) as [[job ->]|[[job ->]|[_ Hmark]]].
    + by destruct (Hrefresh job).
    + cbn [perform]. rewrite handleOfflineAsset_run. cbn.
      destruct (head _) as [[id a]|]; [|done]. cbn. apply dom_alter_L.
    + by rewrite perform_assets.
  - intros Hrefresh Hmark. by apply perform_assets.
Qed.

(** X17.  Every operation embedded here keeps the catalog constraint: if
    no two assets share library and path before it, none do after it.  In
    particular the per-path job never creates a second record for a place
    that has one. *)
Theorem every_operation_keeps_paths_unique
    (env : Env) {LibraryResponseDto : Type}
    (mapLibrary : string * LibraryEntity.t → LibraryResponseDto)
    (JOBS_ASSET_PAGINATION_SIZE : nat) (op : Operation) (st : Store) :
  uniquePaths (assets st) →
  uniquePaths (assets (perform env mapLibrary JOBS_ASSET_PAGINATION_SIZE op st)).
Proof.
  intros Hunique.
  destruct (operation_kind op) as [[job ->]|[[job ->]|[Hrefresh Hmark]]].
  - by apply handleAssetRefresh_unique.
  - by apply handleOfflineAsset_unique.
  - by rewrite perform_assets.
Qed.

(** ** Offline and back *)

(** X18.  The two ways an asset goes offline agree.  A per-path job that
    gets past the guards and whose file cannot be read does to a known asset
    exactly what the offline mark for the job's library and normalised path
    does: same result, same store.  For a place no asset is at the two
    differ: the offline mark returns [true] and changes nothing, the
    per-path job throws. *)
Theorem unreadable_file_is_marked_like_an_offline_job
    (env : Env) (job : ILibraryFileJob.t) (st : Store) :
  let assetPath := path_normalize env (ILibraryFileJob.assetPath job) in
  let mark := IOfflineLibraryFileJob.mk (ILibraryFileJob.id job) assetPath in
  let found :=
    assetRepository.getByLibraryIdAndOriginalPath (ILibraryFileJob.id job) assetPath st in
  passesGuards env job st →
  stat env assetPath = None →
  (∀ id a, found = (Return (Some (id, a)), st) →
     LibraryService.handleAssetRefresh env job st
     = LibraryService.handleOfflineAsset mark st)
  ∧ (found = (Return None, st) →
     LibraryService.handleOfflineAsset mark st = (Return true, st)
     ∧ LibraryService.handleAssetRefresh env job st
       = (Throw (BadRequestException "Can't access file"), st)).
Proof.
  intros assetPath mark found Hguards Hstat. subst found. split.
  - intros id a Hfound.
    rewrite (handleAssetRefresh_stat_failure_known env job st Hguards id a Hstat Hfound).
    rewrite handleOfflineAsset_run. unfold mark. cbn [IOfflineLibraryFileJob.id
      IOfflineLibraryFileJob.assetPath]. fold assetPath. by rewrite Hfound.
  - intros Hfound. split.
    + rewrite handleOfflineAsset_run. unfold mark. cbn [IOfflineLibraryFileJob.id
        IOfflineLibraryFileJob.assetPath]. fold assetPath. by rewrite Hfound.
    + by apply handleAssetRefresh_stat_failure_unknown.
Qed.

(** X19.  Offline and back.  In a catalog with at most one asset per
    library and path, take an asset, mark it offline with
    [handleOfflineAsset], then deliver an unforced or forced per-path job
    for its path that gets past the guards, reads the file and knows its
    type.  The job returns [true]; the asset, flagged [isOffline = true] in
    between, is online again ([isOffline = false]), its two file dates are
    the file's modification time, and nothing else of the record or of any
    other record has changed; the jobs pushed are the processing jobs of the
    asset.  If the asset was online with those dates before, the asset table
    is back to what it was. *)
Theorem offline_mark_is_undone_by_the_next_job
    (env : Env) (job : ILibraryFileJob.t) (st : Store)
    (id : string) (a : AssetEntity.t) (stats : Stats.t) (t : AssetType) :
  let assetPath := path_normalize env (ILibraryFileJob.assetPath job) in
  let mark := IOfflineLibraryFileJob.mk (ILibraryFileJob.id job) assetPath in
  let restored :=
    AssetEntity.with_fileDates (Stats.mtime stats) (Stats.mtime stats)
      (AssetEntity.with_isOffline false a) in
  uniquePaths (assets st) →
  passesGuards env job st →
  assets st !! id = Some a →
  AssetEntity.libraryId a = ILibraryFileJob.id job →
  AssetEntity.originalPath a = assetPath →
  stat env assetPath = Some stats →
  classify env assetPath = Some t →
  let marked := (LibraryService.handleOfflineAsset mark st).2 in
  let back := LibraryService.handleAssetRefresh env job marked in
  assets marked = <[id := AssetEntity.with_isOffline true a]> (assets st)
  ∧ back.1 = Return true
  ∧ assets back.2 = <[id := restored]> (assets st)
  ∧ libraries back.2 = libraries st
  ∧ pushed marked back.2 = processingJobs id t
  ∧ (AssetEntity.isOffline a = false →
     AssetEntity.fileCreatedAt a = Stats.mtime stats →
     AssetEntity.fileModifiedAt a = Stats.mtime stats →
     assets back.2 = assets st)
  ∧ (∃ flagged, assets marked !! id = Some flagged
                ∧ AssetEntity.isOffline flagged = true)
  ∧ ∃ a', assets back.2 !! id = Some a'
          ∧ AssetEntity.isOffline a' = false
          ∧ AssetEntity.fileCreatedAt a' = Stats.mtime stats
          ∧ AssetEntity.fileModifiedAt a' = Stats.mtime stats
          ∧ a' = {| AssetEntity.ownerId := AssetEntity.ownerId a;
                    AssetEntity.libraryId := AssetEntity.libraryId a;
                    AssetEntity.checksum := AssetEntity.checksum a;
                    AssetEntity.originalPath := AssetEntity.originalPath a;
                    AssetEntity.deviceAssetId := AssetEntity.deviceAssetId a;
                    AssetEntity.deviceId := AssetEntity.deviceId a;
                    AssetEntity.fileCreatedAt := Stats.mtime stats;
                    AssetEntity.fileModifiedAt := Stats.mtime stats;
                    AssetEntity.localDateTime := AssetEntity.localDateTime a;
                    AssetEntity.type := AssetEntity.type a;
                    AssetEntity.originalFileName := AssetEntity.originalFileName a;
                    AssetEntity.sidecarPath := AssetEntity.sidecarPath a;
                    AssetEntity.isReadOnly := AssetEntity.isReadOnly a;
                    AssetEntity.isExternal := AssetEntity.isExternal a;
                    AssetEntity.isOffline := false |}.
Proof.
  intros assetPath mark restored Hunique Hguards Ha Hlib Hpath Hstat Hclass marked back.
  assert (assetRepository.getByLibraryIdAndOriginalPath (ILibraryFileJob.id job) assetPath st
          = (Return (Some (id, a)), st)) as Hfound.
  { rewrite <- Hlib, <- Hpath. by apply getByLibraryIdAndOriginalPath_unique. }
  assert (marked = set_assets (alter (AssetEntity.with_isOffline true) id) st) as Hmarked.
  { unfold marked. rewrite handleOfflineAsset_run. unfold mark.
    cbn [IOfflineLibraryFileJob.id IOfflineLibraryFileJob.assetPath]. by rewrite Hfound. }
  assert (assets marked = <[id := AssetEntity.with_isOffline true a]> (assets st))
    as Hassets.
  { rewrite Hmarked. cbn. by apply alter_alt_Some. }
  split; [done|].
  assert (passesGuards env job marked) as Hguards'.
  { rewrite Hmarked. exact Hguards. }
  assert (assetRepository.getByLibraryIdAndOriginalPath (ILibraryFileJob.id job) assetPath
            marked
          = (Return (Some (id, AssetEntity.with_isOffline true a)), marked)) as Hfound'.
  { rewrite <- Hlib, <- Hpath.
    apply (getByLibraryIdAndOriginalPath_unique marked id
             (AssetEntity.with_isOffline true a)).
    - rewrite Hmarked. cbn. apply uniquePaths_alter; [|done].
      intros x. apply sameAsset_with_isOffline.
    - rewrite Hassets. apply lookup_insert_eq. }
  assert (back
          = (Return true,
             {| libraries := libraries marked;
                assets :=
                  alter (AssetEntity.with_fileDates (Stats.mtime stats) (Stats.mtime stats))
                        id
                        (alter (AssetEntity.with_isOffline false) id (assets marked));
                users := users marked;
                jobs := jobs marked ++ processingJobs id t |})) as Hback.
  { unfold back.
    rewrite (handleAssetRefresh_refresh env job marked Hguards' stats Hstat id
               (AssetEntity.with_isOffline true a) t Hfound'); [done| |done].
    unfold needsRefresh. cbn. by rewrite !orb_true_r. }
  rewrite Hback. cbn [fst snd libraries assets]. rewrite pushed_app.
  assert (alter (AssetEntity.with_fileDates (Stats.mtime stats) (Stats.mtime stats)) id
            (alter (AssetEntity.with_isOffline false) id (assets marked))
          = <[id := restored]> (assets st)) as ->.
  { by rewrite Hassets, !alter_insert_eq. }
  split; [done|]. split; [done|]. split; [by rewrite Hmarked|]. split; [done|].
  split; [|split].
  - intros Honline Hcreated Hmodified.
    apply insert_id. rewrite Ha. f_equal. unfold restored.
    destruct a. cbn in *. by subst.
  - exists (AssetEntity.with_isOffline true a). by rewrite Hassets, lookup_insert_eq.
  - exists restored. by rewrite lookup_insert_eq.
Qed.

(** ** The cleanup sweep *)

(** X20.  One round of the cleanup: the sweep [handleQueueCleanup] pushes a
    library-deletion job for every soft-deleted library, and when those jobs
    are handled by [handleDeleteLibrary], every soft-deleted library that
    owns no asset is gone, every other library (live, or soft-deleted with
    assets left) is exactly what it was, no asset has changed, and the jobs
    pushed by the handlers are the asset-deletion jobs of the soft-deleted
    libraries' assets. *)
Theorem cleanup_round_purges_the_drained_libraries (st : Store) :
  let swept := (LibraryService.handleQueueCleanup st).2 in
  let pending := pendingDeletion st in
  let after :=
    fold_left (λ s id, (LibraryService.handleDeleteLibrary (IEntityJob.mk id) s).2)
              pending swept in
  pushed st swept = LIBRARY_DELETE <$> pending
  ∧ assets after = assets st
  ∧ users after = users st
  ∧ (∀ id library, libraries st !! id = Some library →
       libraries after !! id
       = if bool_decide (is_Some (LibraryEntity.deletedAt library) ∧ assetIdsOf id st = [])
         then None else Some library)
  ∧ (∀ id, libraries st !! id = None → libraries after !! id = None)
  ∧ pushed swept after
    = pending ≫= λ id, (λ assetId, ASSET_DELETION assetId true) <$> assetIdsOf id st.
Proof.
  intros swept pending after. subst swept after.
  rewrite handleQueueCleanup_run. cbn [snd]. rewrite pushed_app.
  split; [done|]. set (swept := mkStore _ _ _ _).
  destruct (purge_delivered pending swept (NoDup_pendingDeletion st))
    as (Ha & Hu & Hl & Hj).
  { intros id Hin. apply elem_of_pendingDeletion in Hin as (l & Hl & _).
    cbn. by rewrite Hl. }
  do 2 (split; [done|]). split; [|split].
  - intros id library Hlib. rewrite Hl. cbn [libraries swept]. rewrite Hlib.
    apply (f_equal (λ b : bool, if b then _ else _)). apply bool_decide_ext.
    unfold pending. rewrite elem_of_pendingDeletion.
    split.
    + intros [(l & Hl' & Hdel) Hempty]. assert (l = library) as -> by congruence. done.
    + intros [Hdel Hempty]. split; [by exists library|done].
  - intros id Hnone. rewrite Hl. cbn [libraries swept]. rewrite Hnone.
    by case_bool_decide.
  - unfold pushed. rewrite Hj. by rewrite drop_app_length.
Qed.

(** ** An import whose library row is gone *)

(** X21.  The deletion check of an import looks at [deletedAt] of the row
    it finds, so it stops an import into a soft-deleted library and does not
    stop one into a library whose row is gone: for a job past the guards
    whose file is read and typed and whose path the catalog does not hold,
    and with no row under the library id, the handler returns [true], adds
    an asset carrying that library id, and pushes its processing jobs. *)
Theorem import_into_a_purged_library_goes_through
    (env : Env) (job : ILibraryFileJob.t) (st : Store) (stats : Stats.t) (t : AssetType) :
  let assetPath := path_normalize env (ILibraryFileJob.assetPath job) in
  passesGuards env job st →
  assetRepository.getByLibraryIdAndOriginalPath (ILibraryFileJob.id job) assetPath st
    = (Return None, st) →
  stat env assetPath = Some stats →
  classify env assetPath = Some t →
  libraries st !! ILibraryFileJob.id job = None →
  let result := LibraryService.handleAssetRefresh env job st in
  ∃ id a,
    result.1 = Return true
    ∧ assets st !! id = None
    ∧ assets result.2 = <[id := a]> (assets st)
    ∧ AssetEntity.libraryId a = ILibraryFileJob.id job
    ∧ AssetEntity.originalPath a = assetPath
    ∧ libraries result.2 !! AssetEntity.libraryId a = None
    ∧ pushed st result.2 = processingJobs id t.
Proof.
  intros assetPath Hguards Hnew Hstat Hclass Hgone result. subst result.
  exists (fresh (dom (assets st))), (importedAsset env job stats t).
  rewrite (handleAssetRefresh_import env job st Hguards stats Hstat Hnew t Hclass)
    by (by rewrite Hgone).
  cbn [fst snd assets libraries]. rewrite pushed_app.
  split; [done|]. split; [apply not_elem_of_dom, is_fresh|].
  do 3 (split; [done|]). split; [exact Hgone|done].
Qed.

(** ** A job delivered twice *)

(** X22.  At-least-once delivery of an unforced per-path job.  In a catalog
    with at most one asset per library and path, if the job returned [true]
    once (whether it imported, refreshed, marked the asset offline or found
    it up to date), the same job delivered again in the same environment
    returns [true] and leaves the store exactly as the first delivery left
    it: no second record, no further write, no further job. *)
Theorem redelivered_job_changes_nothing
    (env : Env) (job : ILibraryFileJob.t) (st : Store) :
  uniquePaths (assets st) →
  ILibraryFileJob.force job = false →
  (LibraryService.handleAssetRefresh env job st).1 = Return true →
  LibraryService.handleAssetRefresh env job
    (LibraryService.handleAssetRefresh env job st).2
  = (Return true, (LibraryService.handleAssetRefresh env job st).2).
Proof.
  intros Hunique Hforce.
  destruct (handleAssetRefresh_guards env job st) as [Hguards|[Hnot _]].
  2: { intros Htrue. by destruct (handleAssetRefresh_stopped env job st Hnot). }
  set (p := path_normalize env (ILibraryFileJob.assetPath job)).
  assert (∃ x, assetRepository.getByLibraryIdAndOriginalPath (ILibraryFileJob.id job) p st
               = (Return x, st)) as [found Hfind] by (eexists; reflexivity).
  (* the asset the second delivery finds after a write that keeps the place *)
  assert (∀ f id a,
            (∀ x, sameAsset x (f x)) →
            found = Some (id, a) →
            let s := set_assets (alter f id) st in
            ∀ q, assetRepository.getByLibraryIdAndOriginalPath (ILibraryFileJob.id job) p
                   (mkStore (libraries st) (alter f id (assets st)) (users st) q)
                 = (Return (Some (id, f a)),
                    mkStore (libraries st) (alter f id (assets st)) (users st) q))
    as Hagain.
  { intros f id a Hf -> s q.
    apply getByLibraryIdAndOriginalPath_Some in Hfind as (Ha & Hlib & Hpath).
    destruct (sameAsset_place _ _ (Hf a)) as [Hl Hp].
    rewrite <- Hlib, <- Hpath, <- Hl, <- Hp.
    apply (getByLibraryIdAndOriginalPath_unique
             (mkStore (libraries st) (alter f id (assets st)) (users st) q) id (f a)).
    - cbn. by apply uniquePaths_alter.
    - cbn. by rewrite lookup_alter_eq, Ha. }
  destruct (stat env p) as [stats|] eqn:Hstat.
  - destruct found as [[id a]|].
    + destruct (needsRefresh (ILibraryFileJob.force job) stats a) eqn:Hneeds.
      * destruct (classify env p) as [t|] eqn:Hclass.
        2: { by rewrite (handleAssetRefresh_refresh_unsupported env job st Hguards stats
                           Hstat id a Hfind Hneeds Hclass). }
        rewrite (handleAssetRefresh_refresh env job st Hguards stats Hstat id a t
                   Hfind Hneeds Hclass).
        intros _. cbn [snd].
        assert ((if AssetEntity.isOffline a
                 then alter (AssetEntity.with_isOffline false) id (assets st)
                 else assets st)
                = alter (λ x, if AssetEntity.isOffline a
                              then AssetEntity.with_isOffline false x else x)
                        id (assets st)) as ->.
        { destruct (AssetEntity.isOffline a); [done|]. by rewrite alter_id. }
        rewrite alter_alter_eq.
        set (f := _ ∘ _).
        assert (∀ x, sameAsset x (f x)) as Hf.
        { intros x. unfold f. cbn. destruct (AssetEntity.isOffline a).
          - apply sameAsset_refreshed.
          - apply sameAsset_with_fileDates. }
        set (s1 := mkStore _ _ _ _).
        assert (passesGuards env job s1) as Hguards1 by exact Hguards.
        apply (handleAssetRefresh_up_to_date env job s1 Hguards1 stats Hstat id (f a)).
        -- by apply (Hagain f id a Hf).
        -- unfold needsRefresh, f. rewrite Hforce. cbn.
           rewrite Z.eqb_refl. cbn.
           by destruct (AssetEntity.isOffline a) eqn:Hoff.
      * rewrite (handleAssetRefresh_up_to_date env job st Hguards stats Hstat id a
                   Hfind Hneeds).
        intros _. cbn [snd].
        by apply (handleAssetRefresh_up_to_date env job st Hguards stats Hstat id a).
    + destruct (classify env p) as [t|] eqn:Hclass.
      2: { by rewrite (handleAssetRefresh_import_unsupported env job st Hguards stats
                         Hstat Hfind Hclass). }
      destruct ((libraries st !! ILibraryFileJob.id job)?.LibraryEntity.deletedAt)
        as [deletedAt|] eqn:Hdel.
      { by rewrite (handleAssetRefresh_import_deleted env job st Hguards stats Hstat
                      Hfind t deletedAt Hclass Hdel). }
      intros _.
      by apply (redelivered_import_is_noop env job st stats t).
  - destruct found as [[id a]|].
    + rewrite (handleAssetRefresh_stat_failure_known env job st Hguards id a Hstat Hfind).
      intros _. cbn [snd]. unfold set_assets at 1. cbn.
      set (s1 := mkStore _ _ _ _).
      assert (passesGuards env job s1) as Hguards1 by exact Hguards.
      rewrite (handleAssetRefresh_stat_failure_known env job s1 Hguards1 id
                 (AssetEntity.with_isOffline true a) Hstat).
      * unfold set_assets. cbn. f_equal. f_equal.
        apply alter_twice. intros x. apply with_isOffline_twice.
      * apply (Hagain (AssetEntity.with_isOffline true) id a); [|done].
        intros x. apply sameAsset_with_isOffline.
    + by rewrite (handleAssetRefresh_stat_failure_unknown env job st Hguards Hstat Hfind).
Qed.

(** ** From creation to removal *)

(** X23.  A library and back.  An EXTERNAL library just created can be read
    back: [get] by the creator returns what [create] returned.  Deleted by
    its creator and with the deletion job handled, its row is gone again:
    when no asset carries the new id, the library, asset and user tables are
    what they were before the creation, and the one job pushed on the way is
    the library-deletion job. *)
Theorem created_library_can_be_read_and_removed
    (env : Env) {LibraryResponseDto : Type}
    (mapLibrary : string * LibraryEntity.t → LibraryResponseDto)
    (authUser : AuthUserDto.t) (dto : CreateLibraryDto.t) (st : Store) :
  let id := fresh (dom (libraries st)) in
  let created := LibraryService.create mapLibrary authUser dto st in
  CreateLibraryDto.type dto = EXTERNAL →
  hasPermission env authUser Permission.LIBRARY_READ id = true →
  hasPermission env authUser Permission.LIBRARY_DELETE id = true →
  (∀ assetId a, assets st !! assetId = Some a → AssetEntity.libraryId a ≠ id) →
  let deleted := (LibraryService.delete env authUser id created.2).2 in
  let purged := (LibraryService.handleDeleteLibrary (IEntityJob.mk id) deleted).2 in
  LibraryService.get env mapLibrary authUser id created.2 = created
  ∧ libraries purged = libraries st
  ∧ assets purged = assets st
  ∧ users purged = users st
  ∧ pushed st purged = [LIBRARY_DELETE id].
Proof.
  intros id created Htype Hread Hdelete Hnone deleted purged.
  assert (libraries st !! id = None) as Hfresh by apply not_elem_of_dom, is_fresh.
  assert (∃ library,
            LibraryEntity.type library = EXTERNAL
            ∧ LibraryEntity.deletedAt library = None
            ∧ created = (Return (mapLibrary (id, library)),
                         set_libraries (insert id library) st))
    as (library & Hexternal & Halive & Hcreated).
  { eexists. split; [|split]; [| |unfold created; apply create_accepted].
    - exact Htype.
    - done.
    - intros Hupload. congruence. }
  set (st1 := set_libraries (insert id library) st) in *.
  assert (libraries st1 !! id = Some library) as Hrow by (cbn; apply lookup_insert_eq).
  split.
  { rewrite Hcreated. cbn [snd]. run. rewrite Hread.
    by rewrite (repository_get_live id st1 library Hrow Halive). }
  assert (deleted
          = {| libraries :=
                 alter (LibraryEntity.with_deletedAt (Some (now env))) id (libraries st1);
               assets := assets st;
               users := users st;
               jobs := jobs st ++ [LIBRARY_DELETE id] |}) as Hdeleted.
  { unfold deleted. rewrite Hcreated. cbn [snd].
    rewrite (delete_run env authUser id st1 Hdelete library
               (repository_get_live id st1 library Hrow Halive)); [done|].
    intros Hupload. congruence. }
  assert (assetIdsOf id deleted = []) as Hempty.
  { destruct (assetIdsOf id deleted) as [|assetId ids] eqn:Hids; [done|].
    assert (assetId ∈ assetIdsOf id deleted) as Hin by (rewrite Hids; left).
    apply elem_of_assetIdsOf in Hin as (a & Ha & Hlib).
    rewrite Hdeleted in Ha. cbn in Ha. by destruct (Hnone assetId a Ha). }
  unfold purged.
  rewrite (handleDeleteLibrary_run (IEntityJob.mk id) deleted
             (LibraryEntity.with_deletedAt (Some (now env)) library)).
  2: { rewrite Hdeleted. cbn. by rewrite lookup_alter_eq, lookup_insert_eq. }
  cbn [snd IEntityJob.id libraries assets users]. rewrite Hempty.
  rewrite bool_decide_eq_true_2 by done.
  rewrite Hdeleted. cbn [libraries assets users jobs st1 set_libraries].
  split; [|split; [done|split; [done|]]].
  - rewrite alter_insert_eq. by apply delete_insert_id.
  - unfold pushed. cbn. rewrite app_nil_r. by rewrite drop_app_length.
Qed.

(** ** A file that changed *)

(** X24.  Change detection on a known online asset by an unforced per-path
    job that gets past the guards, reads the file and knows its type: the
    store changes exactly when the file's modification time differs from
    the stored [fileModifiedAt].  When they are equal the store is left as it
    is; when they differ both [fileModifiedAt] and [fileCreatedAt] are set to
    the file's modification time, the rest of the record and every other
    record stay, and the processing jobs of the asset are pushed.  Either
    way the handler returns [true]. *)
Theorem unforced_job_writes_exactly_when_the_file_changed
    (env : Env) (job : ILibraryFileJob.t) (st : Store)
    (id : string) (a : AssetEntity.t) (stats : Stats.t) (t : AssetType) :
  let assetPath := path_normalize env (ILibraryFileJob.assetPath job) in
  passesGuards env job st →
  assetRepository.getByLibraryIdAndOriginalPath (ILibraryFileJob.id job) assetPath st
    = (Return (Some (id, a)), st) →
  AssetEntity.isOffline a = false →
  ILibraryFileJob.force job = false →
  stat env assetPath = Some stats →
  classify env assetPath = Some t →
  let result := LibraryService.handleAssetRefresh env job st in
  result.1 = Return true
  ∧ (Stats.mtime stats = AssetEntity.fileModifiedAt a → result.2 = st)
  ∧ (Stats.mtime stats ≠ AssetEntity.fileModifiedAt a →
     result.2
     = {| libraries := libraries st;
          assets :=
            <[id := AssetEntity.with_fileDates (Stats.mtime stats) (Stats.mtime stats) a]>
              (assets st);
          users := users st;
          jobs := jobs st ++ processingJobs id t |}
     ∧ result.2 ≠ st).
Proof.
  intros assetPath Hguards Hfound Honline Hforce Hstat Hclass result. subst result.
  pose proof (getByLibraryIdAndOriginalPath_Some st _ _ _ _ Hfound) as (Ha & _ & _).
  destruct (decide (Stats.mtime stats = AssetEntity.fileModifiedAt a)) as [Hsame|Hchanged].
  - rewrite (handleAssetRefresh_up_to_date env job st Hguards stats Hstat id a Hfound).
    + done.
    + unfold needsRefresh. by rewrite Hforce, Honline, Hsame, Z.eqb_refl.
  - rewrite (handleAssetRefresh_refresh env job st Hguards stats Hstat id a t Hfound);
      [| |done].
    2: { unfold needsRefresh. rewrite Hforce, Honline.
         by apply Z.eqb_neq in Hchanged as ->. }
    rewrite Honline. cbn [fst snd]. split; [done|]. split; [done|].
    intros _. rewrite (alter_alt_Some _ _ _ _ Ha). split; [done|].
    intros Heq. apply (f_equal assets) in Heq. cbn in Heq.
    apply (f_equal (λ m, AssetEntity.fileModifiedAt <$> m !! id)) in Heq.
    rewrite lookup_insert_eq, Ha in Heq. cbn in Heq. congruence.
Qed.

(** ** The record an import creates *)

Lemma removeWhiteSpace_clean s :
  forallb (λ c, negb (isWhiteSpace c)) (list_ascii_of_string (removeWhiteSpace s)) = true.
Proof.
  induction s as [|c s IH]; [done|]. cbn [removeWhiteSpace].
  destruct (isWhiteSpace c) eqn:Hc; [done|]. cbn. by rewrite Hc.
Qed.

Lemma removeWhiteSpace_id s :
  forallb (λ c, negb (isWhiteSpace c)) (list_ascii_of_string s) = true →
  removeWhiteSpace s = s.
Proof.
  induction s as [|c s IH]; [done|]. cbn. intros Hclean.
  apply andb_true_iff in Hclean as [Hc Hs].
  destruct (isWhiteSpace c); [done|]. by rewrite IH.
Qed.

(** The code units [/\s/] matches, among those below 256: tab, line feed,
    vertical tab, form feed, carriage return, space and no-break space. *)
Lemma isWhiteSpace_codes c :
  isWhiteSpace c = bool_decide (nat_of_ascii c ∈ [9; 10; 11; 12; 13; 32; 160]).
Proof.
  unfold isWhiteSpace. cbv zeta.
  pose proof (nat_ascii_bounded c) as Hbound.
  generalize dependent (nat_of_ascii c). intros n Hbound.
  destruct (decide (n ∈ [9; 10; 11; 12; 13; 32; 160])) as [Hin|Hout].
  - rewrite bool_decide_eq_true_2 by done.
    repeat (apply elem_of_cons in Hin as [->|Hin]; [done|]).
    by apply elem_of_nil in Hin.
  - rewrite bool_decide_eq_false_2 by done.
    apply orb_false_iff. split; [apply orb_false_iff; split|].
    + apply andb_false_iff.
      destruct (decide (9 ≤ n)%nat) as [Hge|Hlt]; [|left; apply Nat.leb_gt; lia].
      right. apply Nat.leb_gt.
      destruct (decide (n ≤ 13)%nat) as [Hle|Hgt]; [|lia].
      exfalso. apply Hout.
      assert (n = 9 ∨ n = 10 ∨ n = 11 ∨ n = 12 ∨ n = 13)%nat as Hcase by lia.
      destruct Hcase as [->|[->|[->|[->| ->]]]]; set_solver.
    + apply Nat.eqb_neq. intros ->. apply Hout. set_solver.
    + apply Nat.eqb_neq. intros ->. apply Hout. set_solver.
Qed.

(** What [removeWhiteSpace] leaves: the other code units, in their order. *)
Lemma removeWhiteSpace_chars s :
  list_ascii_of_string (removeWhiteSpace s)
  = List.filter (λ c, negb (isWhiteSpace c)) (list_ascii_of_string s).
Proof.
  induction s as [|c s IH]; [done|]. cbn [removeWhiteSpace list_ascii_of_string List.filter].
  destruct (isWhiteSpace c); cbn [negb]; [done|].
  cbn [list_ascii_of_string]. by rewrite IH.
Qed.

(** X25.  The record of an import is derived from the path and the stat
    alone.  For an import that goes through, the new asset has the
    normalised path as [originalPath], the job's owner and library, all
    three dates equal to the file's modification time, the checksum
    [hashSha1("path:" + path)] (so it does not depend on the file's content),
    a [deviceAssetId] that is the base name with every white-space character
    dropped (the base name itself when it has none): its code units are
    those of the base name other than tab, line feed, vertical tab, form
    feed, carriage return, space and no-break space, in their order; the
    sidecar [path + ".xmp"] exactly when that file exists, and it is
    online. *)
Theorem imported_record_is_derived_from_the_path
    (env : Env) (job : ILibraryFileJob.t) (st : Store) (stats : Stats.t) (t : AssetType) :
  let assetPath := path_normalize env (ILibraryFileJob.assetPath job) in
  passesGuards env job st →
  assetRepository.getByLibraryIdAndOriginalPath (ILibraryFileJob.id job) assetPath st
    = (Return None, st) →
  stat env assetPath = Some stats →
  classify env assetPath = Some t →
  (libraries st !! ILibraryFileJob.id job)?.LibraryEntity.deletedAt = None →
  ∃ id a,
    assets st !! id = None
    ∧ assets (LibraryService.handleAssetRefresh env job st).2 = <[id := a]> (assets st)
    ∧ AssetEntity.originalPath a = assetPath
    ∧ AssetEntity.ownerId a = ILibraryFileJob.ownerId job
    ∧ AssetEntity.libraryId a = ILibraryFileJob.id job
    ∧ AssetEntity.fileCreatedAt a = Stats.mtime stats
    ∧ AssetEntity.fileModifiedAt a = Stats.mtime stats
    ∧ AssetEntity.localDateTime a = Stats.mtime stats
    ∧ AssetEntity.checksum a = hashSha1 env ("path:" +:+ assetPath)
    ∧ forallb (λ c, negb (isWhiteSpace c))
              (list_ascii_of_string (AssetEntity.deviceAssetId a)) = true
    ∧ (forallb (λ c, negb (isWhiteSpace c))
               (list_ascii_of_string (path_basename env assetPath)) = true →
       AssetEntity.deviceAssetId a = path_basename env assetPath)
    ∧ AssetEntity.sidecarPath a
      = (if checkFileExists env (assetPath +:+ ".xmp")
         then Some (assetPath +:+ ".xmp") else None)
    ∧ AssetEntity.isOffline a = false
    ∧ list_ascii_of_string (AssetEntity.deviceAssetId a)
      = List.filter (λ c, negb (bool_decide (nat_of_ascii c ∈ [9; 10; 11; 12; 13; 32; 160])))
                    (list_ascii_of_string (path_basename env assetPath)).
Proof.
  intros assetPath Hguards Hnew Hstat Hclass Halive.
  exists (fresh (dom (assets st))), (importedAsset env job stats t).
  rewrite (handleAssetRefresh_import env job st Hguards stats Hstat Hnew t Hclass Halive).
  split; [apply not_elem_of_dom, is_fresh|].
  do 8 (split; [done|]). split; [apply removeWhiteSpace_clean|].
  split; [apply removeWhiteSpace_id|]. do 2 (split; [done|]).
  cbn [AssetEntity.deviceAssetId importedAsset]. rewrite removeWhiteSpace_chars.
  apply filter_ext_in. intros c _. by rewrite isWhiteSpace_codes.
Qed.

(** ** One place at a time *)

Lemma handleAssetRefresh_elsewhere env job st id x :
  assets st !! id = Some x →
  ¬ (AssetEntity.libraryId x = ILibraryFileJob.id job
     ∧ AssetEntity.originalPath x = path_normalize env (ILibraryFileJob.assetPath job)) →
  assets (LibraryService.handleAssetRefresh env job st).2 !! id = Some x.
Proof.
  intros Hx Hother.
  handle_cases env job st; cbn [snd assets]; try done;
    try (pose proof (getByLibraryIdAndOriginalPath_Some st _ _ _ _ Hfind)
           as (Ha & Hlib & Hpath);
         assert (id0 ≠ id) as Hne
           by (intros ->; apply Hother; split; congruence)).
  - rewrite lookup_alter_ne by done.
    destruct (AssetEntity.isOffline a); [|done]. by rewrite lookup_alter_ne.
  - destruct (AssetEntity.isOffline a); cbn; [|done]. by rewrite lookup_alter_ne.
  - cbn. by rewrite lookup_alter_ne.
  - rewrite lookup_insert_ne; [done|].
    intros <-. apply (is_fresh (dom (assets st))), elem_of_dom. eauto.
Qed.

Lemma runJob_unique env st item :
  uniquePaths (assets st) → uniquePaths (assets (runJob env st item)).
Proof.
  intros Hunique. destruct item; cbn [runJob]; try done.
  - by apply handleAssetRefresh_unique.
  - by apply handleOfflineAsset_unique.
Qed.

Lemma runJobs_unique env items :
  ∀ st, uniquePaths (assets st) → uniquePaths (assets (runJobs env items st)).
Proof.
  induction items as [|item rest IH]; intros st Hunique; [done|].
  change (runJobs env (item :: rest) st) with (runJobs env rest (runJob env st item)).
  by apply IH, runJob_unique.
Qed.

(** The jobs of a scan delivered, seen from an asset that is not at a
    crawled place of the library: it is flagged offline as soon as the mark
    for its place arrives, and nothing else is done to it. *)
Lemma delivery_elsewhere env job library (crawled : list string) st0 id :
  (∀ path, path ∈ crawled → path_normalize env path = path) →
  ∀ delivered st x,
    uniquePaths (assets st) →
    (∀ item, item ∈ delivered →
       item ∈ offlineJobs job crawled st0 ++ fileJobs env job library crawled st0) →
    assets st !! id = Some x →
    ¬ (AssetEntity.libraryId x = ILibraryRefreshJob.id job
       ∧ AssetEntity.originalPath x ∈ crawled) →
    ∃ x',
      assets (runJobs env delivered st) !! id = Some x'
      ∧ (x' = x ∨ x' = AssetEntity.with_isOffline true x)
      ∧ (AssetEntity.libraryId x ≠ ILibraryRefreshJob.id job → x' = x)
      ∧ (AssetEntity.libraryId x = ILibraryRefreshJob.id job →
         LIBRARY_MARK_ASSET_OFFLINE
           (IOfflineLibraryFileJob.mk (ILibraryRefreshJob.id job) (AssetEntity.originalPath x))
         ∈ delivered →
         x' = AssetEntity.with_isOffline true x).
Proof.
  intros Hnormal.
  induction delivered as [|item rest IH]; intros st x Hunique Hsub Hx Hplace.
  { exists x. split; [done|]. split; [by left|]. split; [done|].
    intros _ Hin. by apply elem_of_nil in Hin. }
  change (runJobs env (item :: rest) st) with (runJobs env rest (runJob env st item)).
  assert (item ∈ offlineJobs job crawled st0 ++ fileJobs env job library crawled st0)
    as Hitem by (apply Hsub; left).
  assert (∀ item', item' ∈ rest →
            item' ∈ offlineJobs job crawled st0 ++ fileJobs env job library crawled st0)
    as Hrest by (intros item' Hin; apply Hsub; by right).
  pose proof (runJob_unique env st item Hunique) as Hunique1.
  apply elem_of_app in Hitem as [Hitem|Hitem].
  - (* an offline mark *)
    apply elem_of_offlineJobs in Hitem as (p & Hp & ->). cbn [runJob] in *.
    set (mark := IOfflineLibraryFileJob.mk (ILibraryRefreshJob.id job) p) in *.
    pose proof (handleOfflineAsset_lookup mark st Hunique id) as Hlookup.
    rewrite Hx in Hlookup. cbn in Hlookup.
    case_bool_decide as Hhere.
    + (* the mark for this asset's place *)
      destruct Hhere as [Hlib Hpath].
      destruct (IH _ (AssetEntity.with_isOffline true x) Hunique1 Hrest Hlookup)
        as (x' & Hx' & Hcases & _ & _); [done|].
      exists x'. split; [done|].
      assert (x' = AssetEntity.with_isOffline true x) as ->
        by (by destruct Hcases as [-> | ->]).
      split; [by right|]. split; [by intros Hne|done].
    + destruct (IH _ x Hunique1 Hrest Hlookup Hplace) as (x' & Hx' & Hcases & Hforeign & Hmark).
      exists x'. split; [done|]. split; [done|]. split; [done|].
      intros Hlib Hin. apply Hmark; [done|].
      apply elem_of_cons in Hin as [Hin|Hin]; [|done].
      exfalso. apply Hhere. injection Hin as <-. done.
  - (* a per-path job, for a crawled place *)
    apply elem_of_fileJobs in Hitem as (q & Hq & ->). cbn [runJob] in *.
    set (data := ILibraryFileJob.mk _ _ _ _) in *.
    assert (assets (LibraryService.handleAssetRefresh env data st).2 !! id = Some x)
      as Hlookup.
    { apply handleAssetRefresh_elsewhere; [done|].
      cbn. rewrite !(Hnormal q Hq). intros [Hlib Hpath]. apply Hplace.
      split; [done|]. by rewrite Hpath. }
    destruct (IH _ x Hunique1 Hrest Hlookup Hplace) as (x' & Hx' & Hcases & Hforeign & Hmark).
    exists x'. split; [done|]. split; [done|]. split; [done|].
    intros Hlib Hin. apply Hmark; [done|].
    apply elem_of_cons in Hin as [Hin|Hin]; [discriminate Hin|done].
Qed.

Lemma runJobs_keeps env items :
  ∀ st id a,
    assets st !! id = Some a →
    ∃ a', assets (runJobs env items st) !! id = Some a' ∧ sameAsset a a'.
Proof.
  induction items as [|item rest IH]; intros st id a Ha.
  { exists a. split; [done|apply sameAsset_refl]. }
  change (runJobs env (item :: rest) st) with (runJobs env rest (runJob env st item)).
  assert (∃ a1, assets (runJob env st item) !! id = Some a1 ∧ sameAsset a a1)
    as (a1 & Ha1 & Hsame1).
  { destruct item; cbn [runJob];
      try (exists a; split; [done|apply sameAsset_refl]).
    - by apply handleAssetRefresh_keeps.
    - by apply handleOfflineAsset_keeps. }
  destruct (IH _ _ _ Ha1) as (a' & Ha' & Hsame').
  exists a'. split; [done|]. by eapply sameAsset_trans.
Qed.

(** X26.  A scan cycle reconciles the catalog with the disk.  Take a scan
    that got past its guards, in a catalog with at most one asset per
    library and path, over files that can be read and typed, and deliver
    the jobs it pushed: each at least once, in any order, nothing else.
    Then every crawled path has an asset of the library that is online; an
    asset of the library that sat at a crawled path is still the same
    record and is online; an asset of the library at a path that was not
    crawled is flagged offline and otherwise untouched; an asset of another
    library is exactly what it was; and the catalog still holds at most one
    asset per library and path. *)
Theorem scan_cycle_reconciles_the_catalog
    (env : Env) (job : ILibraryRefreshJob.t) (st : Store)
    (library : LibraryEntity.t) (crawled : list string) (delivered : list JobItem) :
  scans env job st library crawled →
  (∀ p, path_normalize env (path_normalize env p) = path_normalize env p) →
  (∀ roots exclusions p, p ∈ crawl env roots exclusions →
     stat env (path_normalize env p) ≠ None
     ∧ classify env (path_normalize env p) ≠ None) →
  uniquePaths (assets st) →
  let scanned := (LibraryService.handleQueueAssetRefresh env job st).2 in
  (∀ item, item ∈ pushed st scanned → item ∈ delivered) →
  (∀ item, item ∈ delivered → item ∈ pushed st scanned) →
  let settled := runJobs env delivered scanned in
  uniquePaths (assets settled)
  ∧ (∀ path, path ∈ crawled → online (ILibraryRefreshJob.id job) path (assets settled))
  ∧ ∀ id a,
      assets st !! id = Some a →
      if bool_decide (AssetEntity.libraryId a = ILibraryRefreshJob.id job)
      then if bool_decide (AssetEntity.originalPath a ∈ crawled)
           then ∃ a', assets settled !! id = Some a'
                      ∧ sameAsset a a' ∧ AssetEntity.isOffline a' = false
           else assets settled !! id = Some (AssetEntity.with_isOffline true a)
      else assets settled !! id = Some a.
Proof.
  intros Hscans Hidempotent Hmedia Hunique scanned Hevery Honly settled.
  subst settled scanned.
  rewrite (handleQueueAssetRefresh_scans env job st library crawled Hscans) in *.
  cbn [snd] in *. rewrite pushed_app in Hevery, Honly.
  set (scanned := mkStore _ _ _ _) in *.
  set (settled := runJobs env delivered scanned).
  assert (uniquePaths (assets settled)) as Hsettled by (by apply runJobs_unique).
  assert (∀ path, path ∈ crawled →
            online (ILibraryRefreshJob.id job) path (assets settled)) as Honline.
  { intros path Hpath.
    destruct (crawled_path env job st library crawled Hscans Hidempotent Hmedia path Hpath)
      as (Hnorm & _).
    apply (settle_path env job st library crawled Hscans Hidempotent Hmedia); try done.
    destruct (decide (path ∈ onlineAssetPaths (ILibraryRefreshJob.id job) st)) as [Hon|Hoff].
    - left. by apply elem_of_onlineAssetPaths.
    - right. apply Hevery, elem_of_app. right.
      unfold fileJobs. apply list_elem_of_fmap. exists path. split; [done|].
      destruct (_ || _); [done|]. by apply list_elem_of_filter. }
  split; [done|]. split; [done|].
  intros id a Ha.
  assert (∀ path, path ∈ crawled → path_normalize env path = path) as Hnormal.
  { intros path Hpath.
    by destruct (crawled_path env job st library crawled Hscans Hidempotent Hmedia path Hpath). }
  case_bool_decide as Hlib; [case_bool_decide as Hpath|].
  - (* at a crawled place of the library *)
    destruct (runJobs_keeps env delivered scanned id a Ha) as (a' & Ha' & Hsame).
    fold settled in Ha'. exists a'. split; [done|]. split; [done|].
    destruct (sameAsset_place _ _ Hsame) as [Hlib' Hpath'].
    destruct (Honline _ Hpath) as (id2 & a2 & Ha2 & Hlib2 & Hpath2 & Hon2).
    assert (id2 = id) as -> by (eapply Hsettled; [done|done|congruence|congruence]).
    congruence.
  - (* of the library, not crawled *)
    destruct (delivery_elsewhere env job library crawled st id Hnormal
                delivered scanned a Hunique Honly Ha) as (x' & Hx' & _ & _ & Hmark);
      [tauto|].
    fold settled in Hx'. rewrite Hx'. f_equal. apply Hmark; [done|].
    apply Hevery, elem_of_app. left. unfold offlineJobs.
    apply list_elem_of_fmap. exists (id, a). split; [by rewrite <- Hlib|].
    by apply elem_of_missing.
  - (* of another library *)
    destruct (delivery_elsewhere env job library crawled st id Hnormal
                delivered scanned a Hunique Honly Ha) as (x' & Hx' & _ & Hforeign & _);
      [tauto|].
    fold settled in Hx'. rewrite Hx'. f_equal. by apply Hforeign.
Qed.

(** X27.  A per-path job writes at its own place only.  Whatever the job
    and the store, each id of the catalog after the job either holds what
    it held before (an asset or nothing), or holds an asset of the job's
    library at the job's normalized path.  So one job cannot disturb the
    assets of other libraries or of other files, and the only record it
    can add is one for its own file. *)
Theorem per_path_job_writes_at_its_own_place_only
    (env : Env) (job : ILibraryFileJob.t) (st : Store) (id : string) :
  let after := (LibraryService.handleAssetRefresh env job st).2 in
  assets after !! id = assets st !! id
  ∨ ∃ a', assets after !! id = Some a'
          ∧ AssetEntity.libraryId a' = ILibraryFileJob.id job
          ∧ AssetEntity.originalPath a'
            = path_normalize env (ILibraryFileJob.assetPath job).
Proof.
  intros after. subst after.
  destruct (assets st !! id) as [x|] eqn:Hx.
  - destruct (decide (AssetEntity.libraryId x = ILibraryFileJob.id job
                      ∧ AssetEntity.originalPath x
                        = path_normalize env (ILibraryFileJob.assetPath job)))
      as [[Hlib Hpath]|Hother].
    + right. destruct (handleAssetRefresh_keeps env job st id x Hx) as (a' & Ha' & Hsame).
      exists a'. split; [done|].
      destruct (sameAsset_place _ _ Hsame) as [-> ->]. done.
    + left. by apply handleAssetRefresh_elsewhere.
  - handle_cases env job st; cbn [snd assets]; try (by left);
      try (pose proof (getByLibraryIdAndOriginalPath_Some st _ _ _ _ Hfind)
             as (Ha & _ & _);
           assert (id0 ≠ id) as Hne by (intros ->; congruence)).
    + left. rewrite lookup_alter_ne by done.
      destruct (AssetEntity.isOffline a); [|done]. by rewrite lookup_alter_ne.
    + left. destruct (AssetEntity.isOffline a); cbn; [|done]. by rewrite lookup_alter_ne.
    + left. cbn. by rewrite lookup_alter_ne.
    + destruct (decide (fresh (dom (assets st)) = id)) as [<-|Hne].
      * right. eexists. rewrite lookup_insert_eq. split; [done|]. by cbn.
      * left. by rewrite lookup_insert_ne.
Qed.

(** * The worked installation, continued *)

Lemma demo_unique (catalog : gmap string AssetEntity.t) :
  bool_decide
    (NoDup ((λ kv : string * AssetEntity.t,
               (AssetEntity.libraryId kv.2, AssetEntity.originalPath kv.2))
              <$> map_to_list catalog)) = true →
  uniquePaths catalog.
Proof.
  intros Hcheck. apply uniquePaths_NoDup. by apply bool_decide_eq_true_1 in Hcheck.
Qed.

Lemma demo_scans_L1 st refreshModifiedFiles refreshAllFiles :
  libraries st = demo.libraries →
  users st = demo.users →
  scans demo.env (ILibraryRefreshJob.mk "L1" refreshModifiedFiles refreshAllFiles) st
        (demo.external "u1" ["/data/photos"] None)
        ["/data/photos/a.jpg"; "/data/photos/b.mp4"; "/data/photos/d.png"].
Proof.
  intros Hlibraries Husers. split; [|split; [reflexivity|]].
  - unfold repository.get, gets. rewrite Hlibraries. by vm_compute.
  - exists "/data/photos". rewrite Husers. split; [reflexivity|]. by vm_compute.
Defined.

(** X1, on the installation: the first user asks for an upload library
    that crawls the root. *)
Lemma create_rejects_upload_library_with_paths_witness :
  CreateLibraryDto.type demo.uploadWithPaths = UPLOAD
  ∧ LibraryService.create (λ row : string * LibraryEntity.t, row) (AuthUserDto.mk "u1")
      demo.uploadWithPaths demo.empty
    = (Throw (BadRequestException "Upload libraries cannot have import paths"), demo.empty).
Proof.
  assert (CreateLibraryDto.type demo.uploadWithPaths = UPLOAD) as Htype by reflexivity.
  split; [assumption|].
  exact (proj1 (create_rejects_upload_library_with_paths
                  (λ row : string * LibraryEntity.t, row) (AuthUserDto.mk "u1")
                  demo.uploadWithPaths demo.empty Htype)
           "/data/photos" [] eq_refl).
Defined.

(** X2, on the installation: the second user asks for an upload library
    and gives an empty list of import paths and no name. *)
Lemma create_stores_the_library_witness :
  let dto := CreateLibraryDto.mk UPLOAD None None (Some []) None in
  nonEmpty (CreateLibraryDto.importPaths dto) = false
  ∧ nonEmpty (CreateLibraryDto.exclusionPatterns dto) = false
  ∧ ∃ id library,
      LibraryService.create (λ row : string * LibraryEntity.t, row) (AuthUserDto.mk "u2")
        dto demo.empty
      = (Return (id, library),
         {| libraries := <[id := library]> demo.libraries;
            assets := ∅;
            users := demo.users;
            jobs := [] |})
      ∧ demo.libraries !! id = None
      ∧ LibraryEntity.ownerId library = "u2"
      ∧ LibraryEntity.name library = "New Upload Library"
      ∧ LibraryEntity.importPaths library = [].
Proof.
  intros dto.
  assert (nonEmpty (CreateLibraryDto.importPaths dto) = false) as Hpaths by reflexivity.
  assert (nonEmpty (CreateLibraryDto.exclusionPatterns dto) = false) as Hpatterns
    by reflexivity.
  do 2 (split; [assumption|]).
  destruct (create_stores_the_library (λ row : string * LibraryEntity.t, row)
              (AuthUserDto.mk "u2") dto demo.empty (λ _, conj Hpaths Hpatterns))
    as (id & library & Hrun & Hfresh & Howner & _ & _ & Hname & Himport & _).
  exists id, library. split; [exact Hrun|]. split; [exact Hfresh|].
  split; [exact Howner|]. split; [apply Hname; by left|exact Himport].
Defined.

(** X3, on the installation: the first user deletes [L1]. *)
Lemma delete_soft_deletes_and_queues_the_purge_witness :
  let result := LibraryService.delete demo.env (AuthUserDto.mk "u1") "L1" demo.empty in
  hasPermission demo.env (AuthUserDto.mk "u1") Permission.LIBRARY_DELETE "L1" = true
  ∧ libraries demo.empty !! "L1" = Some (demo.external "u1" ["/data/photos"] None)
  ∧ result.1 = Return ()
  ∧ libraries result.2 !! "L1" = Some (demo.external "u1" ["/data/photos"] (Some 5000%Z))
  ∧ pushed demo.empty result.2 = [LIBRARY_DELETE "L1"]
  ∧ repository.get "L1" false result.2 = (Return None, result.2).
Proof.
  intros result.
  assert (hasPermission demo.env (AuthUserDto.mk "u1") Permission.LIBRARY_DELETE "L1" = true)
    as Hperm by reflexivity.
  assert (libraries demo.empty !! "L1" = Some (demo.external "u1" ["/data/photos"] None))
    as Hlib by reflexivity.
  do 2 (split; [assumption|]).
  destruct (delete_soft_deletes_and_queues_the_purge demo.env (AuthUserDto.mk "u1") "L1"
              demo.empty (demo.external "u1" ["/data/photos"] None) Hperm Hlib eq_refl)
    as (Hreturns & Hlibraries & _ & _ & Hpushed & Hhidden & _).
  { intros Htype. discriminate Htype. }
  split; [exact Hreturns|]. split; [|split; [exact Hpushed|exact Hhidden]].
  fold result in Hlibraries. rewrite Hlibraries. apply lookup_insert_eq.
Defined.

(** X4, on the installation: [L1] is soft-deleted. *)
Lemma soft_deleted_library_is_out_of_reach_witness :
  libraries demo.deleting !! "L1"
    = Some (demo.external "u1" ["/data/photos"] (Some 4500%Z))
  ∧ LibraryService.get demo.env (λ row : string * LibraryEntity.t, row)
      (AuthUserDto.mk "u1") "L1" demo.deleting
    = (Throw (BadRequestException "Library not found"), demo.deleting)
  ∧ LibraryService.queueScan demo.env (AuthUserDto.mk "u1") "L1"
      (ScanLibraryDto.mk None None) demo.deleting
    = (Throw (BadRequestException "Can only refresh external libraries"), demo.deleting)
  ∧ LibraryService.handleQueueAssetRefresh demo.env (demo.scanJob "L1") demo.deleting
    = (Return false, demo.deleting).
Proof.
  assert (libraries demo.deleting !! "L1"
          = Some (demo.external "u1" ["/data/photos"] (Some 4500%Z))) as Hlib
    by reflexivity.
  destruct (soft_deleted_library_is_out_of_reach demo.env
              (λ row : string * LibraryEntity.t, row) demo.deleting "L1" _ 4500%Z
              Hlib eq_refl)
    as (Hget & _ & Hqueue & Hscan & _).
  destruct (Hget (AuthUserDto.mk "u1")) as (message & Hthrows & Hmessage).
  destruct (Hqueue (AuthUserDto.mk "u1") (ScanLibraryDto.mk None None))
    as (message' & Hthrows' & Hmessage').
  split; [assumption|]. split; [|split].
  - rewrite Hthrows. by rewrite (Hmessage eq_refl).
  - rewrite Hthrows'. by rewrite (Hmessage' eq_refl).
  - exact (Hscan false false).
Defined.

(** X5, on the installation: the first user, who has the one upload
    library [U1], asks to delete it. *)
Lemma delete_leaves_the_caller_an_upload_library_witness :
  uploadLibraryCount "u1" demo.empty = 1
  ∧ (1 ≤ uploadLibraryCount "u1"
           (LibraryService.delete demo.env (AuthUserDto.mk "u1") "U1" demo.empty).2)%nat.
Proof.
  assert (uploadLibraryCount "u1" demo.empty = 1) as Hcount by (by vm_compute).
  split; [assumption|].
  refine (proj1 (delete_leaves_the_caller_an_upload_library demo.env (AuthUserDto.mk "u1")
                   "U1" demo.empty _)).
  cbn [AuthUserDto.id]. rewrite Hcount. lia.
Defined.

(** X7, on the installation: two assets of [L1] are offline; pages of one
    asset, two pages allowed. *)
Lemma handleOfflineRemoval_queues_offline_assets_witness :
  let result := LibraryService.handleOfflineRemoval 1 2 (IEntityJob.mk "L1") demo.offline in
  offlineAssetIds "L1" demo.offline = ["a3"; "a2"]
  ∧ result.1 = Return (Some true)
  ∧ pushed demo.offline result.2 = [ASSET_DELETION "a3" true; ASSET_DELETION "a2" true].
Proof.
  intros result.
  assert (offlineAssetIds "L1" demo.offline = ["a3"; "a2"]) as Hids by (by vm_compute).
  split; [assumption|].
  destruct (handleOfflineRemoval_queues_offline_assets 1 2 (IEntityJob.mk "L1") demo.offline)
    as (Htrue & Hpushed & _).
  { lia. }
  { cbn [IEntityJob.id]. rewrite Hids. cbn. lia. }
  split; [exact Htrue|]. fold result in Hpushed. rewrite Hpushed.
  cbn [IEntityJob.id]. by rewrite Hids.
Defined.

(** X10, on the installation: the scheduled, unforced scan of [L1], whose
    [a.jpg] is in the catalog and unchanged. *)
Lemma scheduled_scan_examines_every_crawled_path_witness :
  let job := scheduledScan (IBaseJob.mk None) "L1" in
  scans demo.env job demo.imported (demo.external "u1" ["/data/photos"] None)
        ["/data/photos/a.jpg"; "/data/photos/b.mp4"; "/data/photos/d.png"]
  ∧ pushed demo.imported (LibraryService.handleQueueAssetRefresh demo.env job demo.imported).2
    = [LIBRARY_SCAN_ASSET (demo.fileJob "L1" "/data/photos/a.jpg" false);
       LIBRARY_SCAN_ASSET (demo.fileJob "L1" "/data/photos/b.mp4" false);
       LIBRARY_SCAN_ASSET (demo.fileJob "L1" "/data/photos/d.png" false)].
Proof.
  intros job.
  assert (scans demo.env job demo.imported (demo.external "u1" ["/data/photos"] None)
            ["/data/photos/a.jpg"; "/data/photos/b.mp4"; "/data/photos/d.png"]) as Hscans
    by (by apply demo_scans_L1).
  split; [exact Hscans|]. subst job.
  rewrite (scheduled_scan_examines_every_crawled_path demo.env (IBaseJob.mk None) "L1"
             demo.imported _ _ Hscans).
  by vm_compute.
Defined.

(** X11, on the installation: [notes.txt] is not a media file and
    [gone.jpg] is not on the disk, so the scan of [L1] pushes their two
    marks, and then the per-path jobs. *)
Lemma scan_pushes_offline_marks_before_file_jobs_witness :
  let gone := demo.asset "L1" "/data/photos/gone.jpg" 900 IMAGE false in
  let back := demo.asset "L1" "/data/photos/b.mp4" 2000 VIDEO true in
  scans demo.env (demo.scanJob "L1") demo.offline (demo.external "u1" ["/data/photos"] None)
        ["/data/photos/a.jpg"; "/data/photos/b.mp4"; "/data/photos/d.png"]
  ∧ ∃ missing files,
      pushed demo.offline
        (LibraryService.handleQueueAssetRefresh demo.env (demo.scanJob "L1") demo.offline).2
      = ((λ asset : string * AssetEntity.t,
            LIBRARY_MARK_ASSET_OFFLINE
              (IOfflineLibraryFileJob.mk "L1" (AssetEntity.originalPath asset.2)))
           <$> missing) ++ files
      ∧ ("a4", gone) ∈ missing
      ∧ ("a2", back) ∉ missing.
Proof.
  intros gone back.
  assert (scans demo.env (demo.scanJob "L1") demo.offline
            (demo.external "u1" ["/data/photos"] None)
            ["/data/photos/a.jpg"; "/data/photos/b.mp4"; "/data/photos/d.png"]) as Hscans
    by (by apply demo_scans_L1).
  split; [exact Hscans|].
  destruct (scan_pushes_offline_marks_before_file_jobs demo.env (demo.scanJob "L1")
              demo.offline _ _ Hscans) as (missing & files & Hpushed & _ & Hmissing & _).
  exists missing, files. split; [exact Hpushed|]. split.
  - apply Hmissing. split; [reflexivity|]. split; [reflexivity|].
    apply (bool_decide_unpack _). by vm_compute.
  - intros Hin. apply Hmissing in Hin as (_ & _ & Hout). apply Hout.
    apply (bool_decide_unpack _). by vm_compute.
Defined.

Lemma demo_offline_unique : uniquePaths (assets demo.offline).
Proof. apply demo_unique. by vm_compute. Qed.

(** X12, on the installation: after the scan of [L1] and its offline
    marks, [gone.jpg] is offline and [b.mp4], which was crawled, is what it
    was. *)
Lemma missing_files_go_offline_witness :
  let scanned :=
    (LibraryService.handleQueueAssetRefresh demo.env (demo.scanJob "L1") demo.offline).2 in
  let crawled := ["/data/photos/a.jpg"; "/data/photos/b.mp4"; "/data/photos/d.png"] in
  let after := runJobs demo.env (offlineJobs (demo.scanJob "L1") crawled demo.offline) scanned in
  uniquePaths (assets demo.offline)
  ∧ assets after !! "a4"
    = Some (demo.asset "L1" "/data/photos/gone.jpg" 900 IMAGE true)
  ∧ assets after !! "a2"
    = Some (demo.asset "L1" "/data/photos/b.mp4" 2000 VIDEO true).
Proof.
  intros scanned crawled after.
  assert (scans demo.env (demo.scanJob "L1") demo.offline
            (demo.external "u1" ["/data/photos"] None) crawled) as Hscans
    by (by apply demo_scans_L1).
  split; [exact demo_offline_unique|].
  destruct (missing_files_go_offline demo.env (demo.scanJob "L1") demo.offline _ _
              Hscans demo_offline_unique) as (_ & _ & _ & _ & Hassets).
  fold scanned after in Hassets. split.
  - rewrite (Hassets "a4" (demo.asset "L1" "/data/photos/gone.jpg" 900 IMAGE false) eq_refl).
    by vm_compute.
  - rewrite (Hassets "a2" (demo.asset "L1" "/data/photos/b.mp4" 2000 VIDEO true) eq_refl).
    by vm_compute.
Defined.

(** X13, on the installation: the directory [L4] crawls holds no file. *)
Lemma scan_of_an_empty_crawl_marks_the_library_offline_witness :
  let result :=
    LibraryService.handleQueueAssetRefresh demo.env (demo.scanJob "L4") demo.unmounted in
  libraries demo.unmounted !! "L4" = Some (demo.external "u1" ["/mnt/gone"] None)
  ∧ crawl demo.env ["/mnt/gone"] [] = []
  ∧ result.1 = Return true
  ∧ LIBRARY_MARK_ASSET_OFFLINE (IOfflineLibraryFileJob.mk "L4" "/mnt/gone/x.jpg")
    ∈ pushed demo.unmounted result.2
  ∧ length (pushed demo.unmounted result.2) = 1.
Proof.
  intros result.
  assert (libraries demo.unmounted !! "L4" = Some (demo.external "u1" ["/mnt/gone"] None))
    as Hlib by reflexivity.
  assert (crawl demo.env ["/mnt/gone"] [] = []) as Hcrawl by reflexivity.
  do 2 (split; [assumption|]).
  destruct (scan_of_an_empty_crawl_marks_the_library_offline demo.env (demo.scanJob "L4")
              demo.unmounted _ "/data/photos" Hlib eq_refl eq_refl eq_refl Hcrawl)
    as (Htrue & Hmarks & Hlength & _).
  split; [exact Htrue|]. split.
  - exact (Hmarks "a5" (demo.asset "L4" "/mnt/gone/x.jpg" 100 IMAGE false) eq_refl eq_refl).
  - fold result in Hlength. rewrite Hlength. by vm_compute.
Defined.

(** X14, on the installation: every per-path job of the first scan of
    [L1] gets past the guards. *)
Lemma scanned_jobs_pass_the_import_guards_witness :
  scans demo.env (demo.scanJob "L1") demo.empty (demo.external "u1" ["/data/photos"] None)
        ["/data/photos/a.jpg"; "/data/photos/b.mp4"; "/data/photos/d.png"]
  ∧ ∀ data,
      LIBRARY_SCAN_ASSET data
        ∈ pushed demo.empty
            (LibraryService.handleQueueAssetRefresh demo.env (demo.scanJob "L1") demo.empty).2 →
      passesGuards demo.env data demo.empty.
Proof.
  assert (scans demo.env (demo.scanJob "L1") demo.empty
            (demo.external "u1" ["/data/photos"] None)
            ["/data/photos/a.jpg"; "/data/photos/b.mp4"; "/data/photos/d.png"]) as Hscans
    by (by apply demo_scans_L1).
  split; [exact Hscans|].
  intros data Hin.
  exact (scanned_jobs_pass_the_import_guards demo.env (demo.scanJob "L1") demo.empty _ _
           posix_normalize_idempotent Hscans data Hin demo.empty eq_refl).
Defined.

(** X17, on the installation: the import of [d.png] into a catalog of
    three assets. *)
Lemma every_operation_keeps_paths_unique_witness :
  uniquePaths (assets demo.offline)
  ∧ uniquePaths
      (assets (perform demo.env (λ row : string * LibraryEntity.t, row) 1
                 (HandleAssetRefresh (demo.fileJob "L1" "/data/photos/d.png" false))
                 demo.offline)).
Proof.
  split; [exact demo_offline_unique|].
  exact (every_operation_keeps_paths_unique demo.env
           (λ row : string * LibraryEntity.t, row) 1
           (HandleAssetRefresh (demo.fileJob "L1" "/data/photos/d.png" false))
           demo.offline demo_offline_unique).
Defined.

(** X18, on the installation: [gone.jpg] is in the catalog and not on the
    disk. *)
Lemma unreadable_file_is_marked_like_an_offline_job_witness :
  let job := demo.fileJob "L1" "/data/photos/gone.jpg" false in
  passesGuards demo.env job demo.offline
  ∧ stat demo.env "/data/photos/gone.jpg" = None
  ∧ LibraryService.handleAssetRefresh demo.env job demo.offline
    = LibraryService.handleOfflineAsset
        (IOfflineLibraryFileJob.mk "L1" "/data/photos/gone.jpg") demo.offline.
Proof.
  intros job.
  assert (passesGuards demo.env job demo.offline) as Hguards
    by (by apply demo_passesGuards).
  assert (stat demo.env "/data/photos/gone.jpg" = None) as Hstat by reflexivity.
  do 2 (split; [assumption|]).
  refine (proj1 (unreadable_file_is_marked_like_an_offline_job demo.env job demo.offline
                   Hguards Hstat)
            "a4" (demo.asset "L1" "/data/photos/gone.jpg" 900 IMAGE false) _).
  by vm_compute.
Defined.

Lemma demo_imported_unique : uniquePaths (assets demo.imported).
Proof. apply demo_unique. by vm_compute. Qed.

(** X19, on the installation: [a.jpg] is marked offline and the next
    unforced job for it brings the catalog back. *)
Lemma offline_mark_is_undone_by_the_next_job_witness :
  let job := demo.fileJob "L1" "/data/photos/a.jpg" false in
  let marked :=
    (LibraryService.handleOfflineAsset
       (IOfflineLibraryFileJob.mk "L1" "/data/photos/a.jpg") demo.imported).2 in
  let back := LibraryService.handleAssetRefresh demo.env job marked in
  uniquePaths (assets demo.imported)
  ∧ passesGuards demo.env job demo.imported
  ∧ stat demo.env "/data/photos/a.jpg" = Some (Stats.mk 1000 0)
  ∧ assets marked !! "a1" = Some (demo.asset "L1" "/data/photos/a.jpg" 1000 IMAGE true)
  ∧ back.1 = Return true
  ∧ assets back.2 = assets demo.imported
  ∧ pushed marked back.2 = [METADATA_EXTRACTION "a1" "upload"].
Proof.
  intros job marked back.
  assert (passesGuards demo.env job demo.imported) as Hguards
    by (by apply demo_passesGuards).
  assert (stat demo.env "/data/photos/a.jpg" = Some (Stats.mk 1000 0)) as Hstat
    by reflexivity.
  split; [exact demo_imported_unique|]. do 2 (split; [assumption|]).
  destruct (offline_mark_is_undone_by_the_next_job demo.env job demo.imported "a1"
              (demo.asset "L1" "/data/photos/a.jpg" 1000 IMAGE false) (Stats.mk 1000 0)
              IMAGE demo_imported_unique Hguards eq_refl eq_refl eq_refl Hstat eq_refl)
    as (Hmarked & Htrue & _ & _ & Hpushed & Hback & _).
  split; [|split; [exact Htrue|split; [exact (Hback eq_refl eq_refl eq_refl)|exact Hpushed]]].
  exact (eq_trans (f_equal (λ catalog, catalog !! "a1") Hmarked) (lookup_insert_eq _ _ _)).
Defined.

(** X21, on the installation: a per-path job names the library [L9], which
    no row has. *)
Lemma import_into_a_purged_library_goes_through_witness :
  let job := ILibraryFileJob.mk "L9" "/data/photos/a.jpg" "u1" false in
  passesGuards demo.env job demo.empty
  ∧ libraries demo.empty !! "L9" = None
  ∧ ∃ id a,
      (LibraryService.handleAssetRefresh demo.env job demo.empty).1 = Return true
      ∧ assets (LibraryService.handleAssetRefresh demo.env job demo.empty).2
        = <[id := a]> ∅
      ∧ AssetEntity.libraryId a = "L9".
Proof.
  intros job.
  assert (passesGuards demo.env job demo.empty) as Hguards.
  { exists "/data/photos", (posix.matchHere "/data/photos").
    split; [reflexivity|]. split; by vm_compute. }
  assert (libraries demo.empty !! "L9" = None) as Hgone by reflexivity.
  do 2 (split; [assumption|]).
  destruct (import_into_a_purged_library_goes_through demo.env job demo.empty
              (Stats.mk 1000 0) IMAGE Hguards eq_refl eq_refl eq_refl Hgone)
    as (id & a & Htrue & _ & Hassets & Hlib & _).
  exists id, a. split; [exact Htrue|]. split; [exact Hassets|exact Hlib].
Defined.

Lemma demo_empty_unique : uniquePaths (assets demo.empty).
Proof. apply demo_unique. by vm_compute. Qed.

(** X22, on the installation: the job that imports [d.png], delivered
    twice. *)
Lemma redelivered_job_changes_nothing_witness :
  let job := demo.fileJob "L1" "/data/photos/d.png" false in
  let first := LibraryService.handleAssetRefresh demo.env job demo.empty in
  first.1 = Return true
  ∧ first.2 ≠ demo.empty
  ∧ LibraryService.handleAssetRefresh demo.env job first.2 = (Return true, first.2).
Proof.
  intros job first.
  assert (first.1 = Return true) as Htrue by (by vm_compute).
  split; [assumption|]. split.
  - intros Hsame. apply (f_equal jobs) in Hsame. vm_compute in Hsame. discriminate Hsame.
  - exact (redelivered_job_changes_nothing demo.env job demo.empty demo_empty_unique
             eq_refl Htrue).
Defined.

(** X23, on the installation: the first user creates an external library,
    reads it, deletes it, and the deletion job is handled. *)
Lemma created_library_can_be_read_and_removed_witness :
  let mapLibrary := λ row : string * LibraryEntity.t, row in
  let user := AuthUserDto.mk "u1" in
  let created := LibraryService.create mapLibrary user demo.unnamedExternal demo.empty in
  let deleted := (LibraryService.delete demo.creatorEnv user "0" created.2).2 in
  let purged := (LibraryService.handleDeleteLibrary (IEntityJob.mk "0") deleted).2 in
  fresh (dom (libraries demo.empty)) = "0"
  ∧ hasPermission demo.creatorEnv user Permission.LIBRARY_DELETE "0" = true
  ∧ LibraryService.get demo.creatorEnv mapLibrary user "0" created.2 = created
  ∧ libraries purged = demo.libraries
  ∧ pushed demo.empty purged = [LIBRARY_DELETE "0"].
Proof.
  intros mapLibrary user created deleted purged.
  assert (fresh (dom (libraries demo.empty)) = "0") as Hid by (by vm_compute).
  assert (hasPermission demo.creatorEnv user Permission.LIBRARY_DELETE "0" = true)
    as Hperm by reflexivity.
  do 2 (split; [assumption|]).
  pose proof (created_library_can_be_read_and_removed demo.creatorEnv mapLibrary user
                demo.unnamedExternal demo.empty) as Hround.
  cbv zeta in Hround. rewrite Hid in Hround.
  destruct (Hround eq_refl eq_refl Hperm) as (Hread & Hlibraries & _ & _ & Hpushed).
  { intros assetId a Ha. cbn in Ha. by rewrite lookup_empty in Ha. }
  split; [exact Hread|]. split; [exact Hlibraries|exact Hpushed].
Defined.

(** X24, on the installation: [a.jpg] is in the catalog with an older
    modification time than the file has. *)
Lemma unforced_job_writes_exactly_when_the_file_changed_witness :
  let job := demo.fileJob "L1" "/data/photos/a.jpg" false in
  let stale := demo.asset "L1" "/data/photos/a.jpg" 900 IMAGE false in
  let st := demo.store demo.libraries {[ "a1" := stale ]} in
  passesGuards demo.env job st
  ∧ stat demo.env "/data/photos/a.jpg" = Some (Stats.mk 1000 0)
  ∧ LibraryService.handleAssetRefresh demo.env job st
    = (Return true,
       {| libraries := demo.libraries;
          assets := <["a1" := AssetEntity.with_fileDates 1000 1000 stale]> {[ "a1" := stale ]};
          users := demo.users;
          jobs := [METADATA_EXTRACTION "a1" "upload"] |})
  ∧ LibraryService.handleAssetRefresh demo.env job demo.imported
    = (Return true, demo.imported).
Proof.
  intros job stale st.
  assert (passesGuards demo.env job st) as Hguards by (by apply demo_passesGuards).
  assert (passesGuards demo.env job demo.imported) as Hguards'
    by (by apply demo_passesGuards).
  assert (stat demo.env "/data/photos/a.jpg" = Some (Stats.mk 1000 0)) as Hstat
    by reflexivity.
  do 2 (split; [assumption|]).
  destruct (unforced_job_writes_exactly_when_the_file_changed demo.env job st "a1" stale
              (Stats.mk 1000 0) IMAGE Hguards) as (Htrue & _ & Hchanged);
    [by vm_compute|reflexivity|reflexivity|exact Hstat|reflexivity|].
  destruct (unforced_job_writes_exactly_when_the_file_changed demo.env job demo.imported
              "a1" (demo.asset "L1" "/data/photos/a.jpg" 1000 IMAGE false)
              (Stats.mk 1000 0) IMAGE Hguards') as (Htrue' & Hsame & _);
    [by vm_compute|reflexivity|reflexivity|exact Hstat|reflexivity|].
  split.
  - destruct (Hchanged ltac:(discriminate)) as [Hstore _].
    destruct (LibraryService.handleAssetRefresh demo.env job st) as [completion after].
    cbn [fst snd] in Htrue, Hstore. by rewrite Htrue, Hstore.
  - specialize (Hsame eq_refl).
    destruct (LibraryService.handleAssetRefresh demo.env job demo.imported)
      as [completion after].
    cbn [fst snd] in Htrue', Hsame. by rewrite Htrue', Hsame.
Defined.

(** X25, on the installation: the import of [d.png]; and, on the disk
    whose file has white space in its name, the import of that file. *)
Lemma imported_record_is_derived_from_the_path_witness :
  let job := demo.fileJob "L1" "/data/photos/d.png" false in
  let spaced := demo.fileJob "L1" ("/data/photos/" +:+ demo.spacedName) false in
  passesGuards demo.env job demo.empty
  ∧ passesGuards demo.spaced spaced demo.empty
  ∧ path_basename demo.spaced (path_normalize demo.spaced (ILibraryFileJob.assetPath spaced))
    = demo.spacedName
  ∧ (∃ id a,
       assets (LibraryService.handleAssetRefresh demo.env job demo.empty).2 = <[id := a]> ∅
       ∧ AssetEntity.checksum a = "sha1:path:/data/photos/d.png"
       ∧ AssetEntity.deviceAssetId a = "d.png"
       ∧ AssetEntity.fileModifiedAt a = 3500%Z
       ∧ AssetEntity.sidecarPath a = None)
  ∧ ∃ id a,
      assets (LibraryService.handleAssetRefresh demo.spaced spaced demo.empty).2
      = <[id := a]> ∅
      ∧ AssetEntity.deviceAssetId a = "myholidaypic1.jpg".
Proof.
  intros job spaced.
  assert (passesGuards demo.env job demo.empty) as Hguards
    by (by apply demo_passesGuards).
  assert (passesGuards demo.spaced spaced demo.empty) as Hspaced.
  { exists "/data/photos", (posix.matchHere "/data/photos").
    split; [reflexivity|]. split; by vm_compute. }
  assert (path_basename demo.spaced
            (path_normalize demo.spaced (ILibraryFileJob.assetPath spaced))
          = demo.spacedName) as Hbase by (by vm_compute).
  do 3 (split; [assumption|]). split.
  - destruct (imported_record_is_derived_from_the_path demo.env job demo.empty
                (Stats.mk 3500 0) IMAGE Hguards eq_refl eq_refl eq_refl eq_refl)
      as (id & a & _ & Hassets & _ & _ & _ & _ & Hmodified & _ & Hchecksum & _ & Hdevice
          & Hsidecar & _).
    exists id, a. split; [exact Hassets|]. split; [exact Hchecksum|].
    split; [by apply Hdevice|]. split; [exact Hmodified|exact Hsidecar].
  - destruct (imported_record_is_derived_from_the_path demo.spaced spaced demo.empty
                (Stats.mk 1200 0) IMAGE Hspaced eq_refl eq_refl eq_refl eq_refl)
      as (id & a & _ & Hassets & _ & _ & _ & _ & _ & _ & _ & _ & _ & _ & _ & Hchars).
    exists id, a. split; [exact Hassets|].
    rewrite <- (string_of_list_ascii_of_string (AssetEntity.deviceAssetId a)), Hchars, Hbase.
    reflexivity.
Defined.

(** X26, on the installation: the scan of [L1] over the catalog with a
    vanished file, its jobs delivered in the order they were pushed.  The
    new files are online, [b.mp4] is back online, [gone.jpg] is offline. *)
Lemma scan_cycle_reconciles_the_catalog_witness :
  let crawled := ["/data/photos/a.jpg"; "/data/photos/b.mp4"; "/data/photos/d.png"] in
  let scanned :=
    (LibraryService.handleQueueAssetRefresh demo.env (demo.scanJob "L1") demo.offline).2 in
  let settled := runJobs demo.env (pushed demo.offline scanned) scanned in
  uniquePaths (assets demo.offline)
  ∧ uniquePaths (assets settled)
  ∧ online "L1" "/data/photos/d.png" (assets settled)
  ∧ (∃ a', assets settled !! "a2" = Some a'
           ∧ sameAsset (demo.asset "L1" "/data/photos/b.mp4" 2000 VIDEO true) a'
           ∧ AssetEntity.isOffline a' = false)
  ∧ assets settled !! "a4"
    = Some (demo.asset "L1" "/data/photos/gone.jpg" 900 IMAGE true).
Proof.
  intros crawled scanned settled.
  assert (scans demo.env (demo.scanJob "L1") demo.offline
            (demo.external "u1" ["/data/photos"] None) crawled) as Hscans
    by (by apply demo_scans_L1).
  split; [exact demo_offline_unique|].
  destruct (scan_cycle_reconciles_the_catalog demo.env (demo.scanJob "L1") demo.offline
              _ _ (pushed demo.offline scanned) Hscans posix_normalize_idempotent
              demo_crawl_media demo_offline_unique (λ _ H, H) (λ _ H, H))
    as (Hunique & Honline & Hassets).
  fold scanned settled in Hunique, Honline, Hassets.
  split; [exact Hunique|]. split.
  - apply Honline. apply (bool_decide_unpack _). by vm_compute.
  - split.
    + exact (Hassets "a2" (demo.asset "L1" "/data/photos/b.mp4" 2000 VIDEO true) eq_refl).
    + exact (Hassets "a4" (demo.asset "L1" "/data/photos/gone.jpg" 900 IMAGE false) eq_refl).
Defined.
